(** * Roadmaps backend: the spreadsheet / CSV ingestion pipeline

    A shallow embedding of the ingestion scripts of the repository
    ([scripts/excelImport.js], [scripts/spreadsheetConverter.js],
    [scripts/bulkUpload.js]) and of the roadmap-item deletion handler of
    [controllers/techStackController.js], together with the properties
    the specification states about them.

    Conventions of the embedding.
    - A JavaScript string is a [string] whose characters are the code
      units 0..255 (the Latin-1 range); [toLowerCase] and [trim] are the
      restrictions of the JavaScript operations to that range.
    - A cell of a sheet is its text; the empty text is the only falsy
      cell, and a column that is absent from a row reads as [None]
      ([undefined]).
    - A column index that [findIndex] reports as [-1] is [None].
    - A [Map] is an association list in insertion order. *)

From Stdlib Require Import String Ascii List Bool Arith Lia Permutation.
Import ListNotations.
Open Scope string_scope.
Open Scope list_scope.

(** ** JavaScript string primitives *)

Module JS.

Definition code (c : ascii) : nat := nat_of_ascii c.

(** [String.prototype.toLowerCase] on one code unit of the Latin-1 range:
    A-Z and the accented capitals U+00C0..U+00DE (but not U+00D7). *)
Definition lowerChar (c : ascii) : ascii :=
  let n := code c in
  if (((65 <=? n) && (n <=? 90))
      || ((192 <=? n) && (n <=? 222) && negb (n =? 215)))%nat
  then ascii_of_nat (n + 32)
  else c.

Fixpoint toLowerCase (s : string) : string :=
  match s with
  | EmptyString => EmptyString
  | String c r => String (lowerChar c) (toLowerCase r)
  end.

(** White space and line terminators stripped by [trim]:
    TAB, LF, VT, FF, CR, SPACE and NBSP. *)
Definition isSpace (c : ascii) : bool :=
  let n := code c in
  (((9 <=? n) && (n <=? 13)) || (n =? 32) || (n =? 160))%nat.

Fixpoint trimStart (s : string) : string :=
  match s with
  | EmptyString => EmptyString
  | String c r => if isSpace c then trimStart r else s
  end.

Fixpoint trimEnd (s : string) : string :=
  match s with
  | EmptyString => EmptyString
  | String c r =>
      match trimEnd r with
      | EmptyString => if isSpace c then EmptyString else String c EmptyString
      | r' => String c r'
      end
  end.

Definition trim (s : string) : string := trimEnd (trimStart s).

(** [hay.includes(needle)] *)
Fixpoint includes (hay needle : string) : bool :=
  prefix needle hay ||
  match hay with
  | EmptyString => false
  | String _ r => includes r needle
  end.

Definition LF : ascii := ascii_of_nat 10.
Definition CR : ascii := ascii_of_nat 13.

Definition startsWithLF (s : string) : bool :=
  match s with
  | String c _ => Ascii.eqb c LF
  | EmptyString => false
  end.

(** [s.split(/\r?\n/)]: the separators are LF and CR immediately
    followed by LF; a CR on its own stays in its piece.  The result is
    never empty. *)
Fixpoint splitLines (s : string) : list string :=
  match s with
  | EmptyString => [EmptyString]
  | String c r =>
      if Ascii.eqb c LF then EmptyString :: splitLines r
      else if Ascii.eqb c CR && startsWithLF r then splitLines r
      else match splitLines r with
           | [] => [String c EmptyString]
           | t :: ts => String c t :: ts
           end
  end.

(** Truthiness of a string value. *)
Definition truthy (s : string) : bool := negb (s =? "").

(** Truthiness of a possibly [undefined] string value. *)
Definition truthyO (v : option string) : bool :=
  match v with
  | Some s => truthy s
  | None => false
  end.

(** The text of a value that is known to be a string ([v.toString()]). *)
Definition text (v : option string) : string :=
  match v with
  | Some s => s
  | None => ""
  end.

(** [v || d] for a possibly [undefined] string. *)
Definition orElse (v : option string) (d : string) : string :=
  if truthyO v then text v else d.

(** The callback [s => s !== ''], as used with [filter]. *)
Definition nonEmpty (s : string) : bool := negb (s =? "").

(** One-character strings for the line-break characters. *)
Definition sLF : string := String LF EmptyString.
Definition sCR : string := String CR EmptyString.

(** [arr.findIndex(p)], with [None] for [-1]. *)
Fixpoint findIndex {A : Type} (p : A -> bool) (l : list A) : option nat :=
  match l with
  | [] => None
  | x :: r => if p x then Some 0 else option_map S (findIndex p r)
  end.

(** [arr[i]] for an index that may be [-1]. *)
Definition at_ {A : Type} (l : list A) (i : option nat) : option A :=
  match i with
  | Some n => nth_error l n
  | None => None
  end.

End JS.

(** A JavaScript [Map] with string keys: an association list in insertion
    order, without repeated keys. *)

Module JSMap.

Section Ops.
Context {V : Type}.

Definition t := list (string * V).

Definition has (m : t) (k : string) : bool :=
  existsb (fun kv => fst kv =? k) m.

Fixpoint get (m : t) (k : string) : option V :=
  match m with
  | [] => None
  | (k', v) :: r => if k' =? k then Some v else get r k
  end.

(** [m.set(k, v)]: a present key keeps its place, a new key goes last. *)
Fixpoint set (m : t) (k : string) (v : V) : t :=
  match m with
  | [] => [(k, v)]
  | (k', v') :: r => if k' =? k then (k', v) :: r else (k', v') :: set r k v
  end.

Definition keys (m : t) : list string := map fst m.

(** [Array.from(m.values())] *)
Definition values (m : t) : list V := map snd m.
End Ops.

Arguments t : clear implicits.

End JSMap.

(** ** The data model ([models/TechStack.js]) *)

Inductive Status := YetToStart | InProgress | Completed.

(** The three values of the [completionStatus] enum. *)
Definition statusText (s : Status) : string :=
  match s with
  | YetToStart => "Yet to Start"
  | InProgress => "In Progress"
  | Completed => "Completed"
  end.

Definition Status_eqb (a b : Status) : bool :=
  match a, b with
  | YetToStart, YetToStart | InProgress, InProgress | Completed, Completed => true
  | _, _ => false
  end.

(** The priority order "Yet to Start" < "In Progress" < "Completed". *)
Definition rank (s : Status) : nat :=
  match s with
  | YetToStart => 0
  | InProgress => 1
  | Completed => 2
  end.

(** An entry [{ name }] of [subTopics] or [projects]. *)
Record Entry := mkEntry { name : string }.

Record RoadmapItem := mkItem {
  topic : string;
  subTopics : list Entry;
  projects : list Entry;
  completionStatus : Status
}.

Record Headers := mkHeaders {
  h_topic : string;
  h_subTopics : string;
  h_projects : string;
  h_status : string
}.

(** The plain object [techStackData] that a script hands to the store. *)
Record TechStackData := mkData {
  d_name : string;
  d_description : string;
  d_headers : Headers;
  d_roadmapItems : list RoadmapItem
}.

(** [arr.some(s => s.name === x)] *)
Definition someNamed (arr : list Entry) (x : string) : bool :=
  existsb (fun s => name s =? x) arr.

(** [if (!arr.some(s => s.name === x)) arr.push({ name: x })] *)
Definition pushIfAbsent (arr : list Entry) (x : string) : list Entry :=
  if negb (someNamed arr x) then arr ++ [mkEntry x] else arr.

(** The status update common to the ingestion paths:
    [if (status === 'Completed' || (status === 'In Progress' &&
    current !== 'Completed')) current = status]. *)
Definition mergeStatus (current status : Status) : Status :=
  if Status_eqb status Completed
     || (Status_eqb status InProgress && negb (Status_eqb current Completed))
  then status
  else current.

(** ** The status normalizer

    [normalizeStatus] has the same text in the three scripts. *)

Definition normalizeStatus (status : option string) : Status :=
  if negb (JS.truthyO status) then YetToStart
  else
    let statusStr := JS.toLowerCase (JS.text status) in
    if JS.includes statusStr "complete" || JS.includes statusStr "done"
       || JS.includes statusStr "finish"
    then Completed
    else if JS.includes statusStr "progress" || JS.includes statusStr "ongoing"
            || JS.includes statusStr "partial"
    then InProgress
    else YetToStart.

(** The normalizer as the specification words it. *)
Definition normalize_reference (input : option string) : Status :=
  match input with
  | None => YetToStart
  | Some s =>
      let l := JS.toLowerCase s in
      if existsb (JS.includes l) ["complete"; "done"; "finish"] then Completed
      else if existsb (JS.includes l) ["progress"; "ongoing"; "partial"] then InProgress
      else YetToStart
  end.

(** ** Workbooks as the sheet reader presents them

    A sheet is its name and its grid of cell texts, anchored at A1, so
    that [sheet_to_json] with [header: 1] returns the grid and the last
    row index [range.e.r] of ['!ref'] is the number of rows less one (0
    for a sheet without cells, whose range defaults to A1).

    With [raw: true] the reader returns for a cell a text, a number, a
    boolean or a date.  The scripts use a cell value [v] only in the
    tests [v ? .. : ..], [!v], [v && ..] and [v || ''], and through
    [v.toString()] where it is truthy.  So a cell stands in the grid as
    the text it counts as, [cellText]: the empty text for a falsy value
    (the empty text, the numbers 0 and NaN, [false]), the text of
    [toString()] otherwise.  A sheet as the reader returns it is a
    [RawSheet], and [present] gives its grid. *)

Definition Row := list string.

Record Sheet := mkSheet {
  sheetName : string;
  grid : list Row
}.

Definition Workbook := list Sheet.

Definition jsonData (s : Sheet) : list Row := grid s.

Definition range_e_r (s : Sheet) : nat := pred (length (grid s)).

(** A cell value.  A number and a date are given by the text that
    [toString()] prints for them, which is never empty. *)
Inductive Cell :=
| CText (s : string)
| CNumber (shown : string)
| CBoolean (b : bool)
| CDate (shown : string).

Module Cell.

(** [v ? true : false] *)
Definition truthy (v : Cell) : bool :=
  match v with
  | CText s => negb (s =? "")
  | CNumber shown => negb (shown =? "0") && negb (shown =? "NaN")
  | CBoolean b => b
  | CDate _ => true
  end.

(** [v.toString()] *)
Definition toString (v : Cell) : string :=
  match v with
  | CText s => s
  | CNumber shown => shown
  | CBoolean true => "true"
  | CBoolean false => "false"
  | CDate shown => shown
  end.

(** [v && v.toString().trim() !== ''] for a cell that may be absent. *)
Definition nonBlank (v : option Cell) : bool :=
  match v with
  | Some c => truthy c && negb (JS.trim (toString c) =? "")
  | None => false
  end.

End Cell.

Definition cellText (v : Cell) : string :=
  if Cell.truthy v then Cell.toString v else "".

Record RawSheet := mkRawSheet {
  rawName : string;
  cells : list (list Cell)
}.

Definition present (r : RawSheet) : Sheet :=
  mkSheet (rawName r) (map (map cellText) (cells r)).

(** [sheetName.toLowerCase() === 'readme' || ... === 'instructions'] *)
Definition skippedByName (n : string) : bool :=
  (JS.toLowerCase n =? "readme") || (JS.toLowerCase n =? "instructions").

(** [jsonData[0].map(h => h ? h.toString().trim() : '')] *)
Definition cleanHeaders (r : Row) : list string :=
  map (fun h => if JS.truthy h then JS.trim h else "") r.

(** [v && v.toString().trim() !== ''] for a cell that may be absent. *)
Definition nonBlank (v : option string) : bool :=
  JS.truthyO v && negb (JS.trim (JS.text v) =? "").

(** [text.split(/\r?\n/).map(s => s.trim()).filter(s => s !== '')] *)
Definition splitTokens (text : string) : list string :=
  filter JS.nonEmpty (map JS.trim (JS.splitLines text)).

(** ** The schema ([models/TechStack.js])

    What the schema does to the text paths of a tech stack when a value
    is set and when the document is saved.  The [enum] of
    [completionStatus] is the type [Status]. *)

Module Schema.

(** The setter of [trim: true]. *)
Definition castEntry (e : Entry) : Entry := mkEntry (JS.trim (name e)).

Definition castItem (it : RoadmapItem) : RoadmapItem :=
  mkItem (JS.trim (topic it)) (map castEntry (subTopics it))
         (map castEntry (projects it)) (completionStatus it).

(** The validator of [required: true] on a text path: the empty text
    fails. *)
Definition required (s : string) : bool := negb (s =? "").

Definition validEntry (e : Entry) : bool := required (name e).

Definition validItem (it : RoadmapItem) : bool :=
  required (topic it) && forallb validEntry (subTopics it)
  && forallb validEntry (projects it).

(** The data of a run pass the validators once the setters have run. *)
Definition accepts (d : TechStackData) : bool :=
  required (JS.trim (d_name d))
  && forallb (fun it => validItem (castItem it)) (d_roadmapItems d).

(** A text path holds what the setter leaves. *)
Definition settled (s : string) : bool := JS.trim s =? s.

Definition settledEntry (e : Entry) : bool := settled (name e).

Definition settledItem (it : RoadmapItem) : bool :=
  settled (topic it) && forallb settledEntry (subTopics it)
  && forallb settledEntry (projects it).

End Schema.

(** ** The document store

    The collection behind the [TechStack] model, with the operations the
    scripts and the controller call on it.  Identifiers are the texts of
    the object ids; the store hands out fresh ones from a counter.  A
    stored roadmap item is the item with its [_id].  Times are the
    readings of [Date.now()], which the callers pass in.

    The collection holds only documents that went through [save], so
    every stored document passed the validators and has its text paths
    as the setters leave them; the store carries that fact.  The mapper
    runs the setters when a value is assigned; they are idempotent, so
    the operations below run them on the whole document at [save]. *)

Module Store.

Definition ObjectId := string.

Record ItemDoc := mkItemDoc {
  _id : ObjectId;
  body : RoadmapItem
}.

Record TechStack := mkDoc {
  id : ObjectId;
  name : string;
  description : string;
  headers : Headers;
  roadmapItems : list ItemDoc;
  createdAt : nat;
  updatedAt : nat
}.

Definition castItemDoc (i : ItemDoc) : ItemDoc :=
  mkItemDoc (_id i) (Schema.castItem (body i)).

(** The setters on the text paths of a document. *)
Definition castDoc (d : TechStack) : TechStack :=
  mkDoc (id d) (JS.trim (name d)) (JS.trim (description d)) (headers d)
        (map castItemDoc (roadmapItems d)) (createdAt d) (updatedAt d).

(** The validators that [save] runs. *)
Definition validDoc (d : TechStack) : bool :=
  Schema.required (name d)
  && forallb (fun i => Schema.validItem (body i)) (roadmapItems d).

Definition settledDoc (d : TechStack) : bool :=
  Schema.settled (name d) && Schema.settled (description d)
  && forallb (fun i => Schema.settledItem (body i)) (roadmapItems d).

(** A document as the collection can hold it. *)
Definition storable (d : TechStack) : bool := validDoc d && settledDoc d.

Record t := mkStore {
  docs : list TechStack;
  nextId : nat;
  held : forallb storable docs = true
}.

(** The collection with the documents [ds], if it can hold them. *)
Definition mk (ds : list TechStack) (n : nat) : option t :=
  match Bool.bool_dec (forallb storable ds) true with
  | left ok => Some (mkStore ds n ok)
  | right _ => None
  end.

(** The store after [k] identifiers were handed out. *)
Definition advance (st : t) (k : nat) : t :=
  mkStore (docs st) (nextId st + k) (held st).

Fixpoint digits (fuel n : nat) (acc : string) : string :=
  match fuel with
  | 0 => acc
  | S f =>
      let acc' := String (ascii_of_nat (48 + n mod 10)) acc in
      if (n <? 10)%nat then acc' else digits f (n / 10) acc'
  end.

(** The text of the [n]-th identifier. *)
Definition freshId (n : nat) : ObjectId := digits (S n) n "".

(** Casting plain items to sub-documents gives each a fresh [_id]. *)
Fixpoint castItems (n : nat) (items : list RoadmapItem) : list ItemDoc :=
  match items with
  | [] => []
  | it :: r => mkItemDoc (freshId n) it :: castItems (S n) r
  end.

(** [TechStack.findOne({ name })]; the mapper runs the setter of the
    path on the value of the query. *)
Definition findOne (st : t) (n : string) : option TechStack :=
  find (fun d => name d =? JS.trim n) (docs st).

(** [TechStack.findById(id)] *)
Definition findById (st : t) (i : ObjectId) : option TechStack :=
  find (fun d => id d =? i) (docs st).

Fixpoint replaceById (ds : list TechStack) (d : TechStack) : list TechStack :=
  match ds with
  | [] => []
  | x :: r => if id x =? id d then d :: r else x :: replaceById r d
  end.

(** The document [d] with other roadmap items. *)
Definition withItems (d : TechStack) (items : list ItemDoc) : TechStack :=
  mkDoc (id d) (name d) (description d) (headers d) items (createdAt d) (updatedAt d).

(** The [pre('save')] hook: [this.updatedAt = Date.now()]. *)
Definition stamp (d : TechStack) (now : nat) : TechStack :=
  mkDoc (id d) (name d) (description d) (headers d) (roadmapItems d)
        (createdAt d) now.

(** [doc.save()] for a document that was fetched from the store: the
    store afterwards and the document as saved, or [None] when [save]
    throws because a validator fails. *)
Definition save (st : t) (d : TechStack) (now : nat) : option (t * TechStack) :=
  let d' := stamp (castDoc d) now in
  if validDoc d'
  then option_map (fun st' => (st', d')) (mk (replaceById (docs st) d') (nextId st))
  else None.

(** [new TechStack(data).save()]; [born] is the reading of the clock
    when the document is built, [now] the one of the hook.  The index
    of [unique: true] refuses a name that a stored document has. *)
Definition create (st : t) (d : TechStackData) (born now : nat) : option t :=
  let n := nextId st in
  let k := length (d_roadmapItems d) in
  let d' := stamp (castDoc (mkDoc (freshId n) (d_name d) (d_description d) (d_headers d)
                                  (castItems (S n) (d_roadmapItems d)) born born))
                  now in
  if validDoc d' && negb (existsb (fun x => name x =? name d') (docs st))
  then mk (docs st ++ [d']) (S n + k)
  else None.

(** The sink of both ingestion scripts: an existing tech stack of that
    name gets [description], [roadmapItems] and [headers] assigned and
    is saved; otherwise a new one is created from [techStackData].
    [None] when the [save] throws. *)
Definition upsert (st : t) (techStackData : TechStackData) (born now : nat)
  : option t :=
  match findOne st (d_name techStackData) with
  | Some existingTechStack =>
      let n := nextId st in
      let k := length (d_roadmapItems techStackData) in
      option_map fst
        (save (advance st k)
              (mkDoc (id existingTechStack)
                     (name existingTechStack)
                     (d_description techStackData)
                     (d_headers techStackData)
                     (castItems n (d_roadmapItems techStackData))
                     (createdAt existingTechStack)
                     (updatedAt existingTechStack))
              now)
  | None => create st techStackData born now
  end.

End Store.

(** ** [scripts/excelImport.js] *)

Module ExcelImport.

Definition topicIndex (headers : list string) : option nat :=
  JS.findIndex (fun h => JS.includes (JS.toLowerCase h) "topic"
                         && negb (JS.includes (JS.toLowerCase h) "sub")) headers.

Definition subTopicsIndex (headers : list string) : option nat :=
  JS.findIndex (fun h => JS.includes (JS.toLowerCase h) "sub-topic"
                         || JS.includes (JS.toLowerCase h) "subtopic") headers.

Definition projectIndex (headers : list string) : option nat :=
  JS.findIndex (fun h => JS.includes (JS.toLowerCase h) "project"
                         || JS.includes (JS.toLowerCase h) "task"
                         || JS.includes (JS.toLowerCase h) "app") headers.

Definition statusIndex (headers : list string) : option nat :=
  JS.findIndex (fun h => JS.includes (JS.toLowerCase h) "status") headers.

Definition customHeaders (headers : list string) : Headers :=
  mkHeaders (JS.orElse (JS.at_ headers (topicIndex headers)) "Topic")
            (JS.orElse (JS.at_ headers (subTopicsIndex headers)) "Sub-Topics")
            (JS.orElse (JS.at_ headers (projectIndex headers)) "Project / Task")
            (JS.orElse (JS.at_ headers (statusIndex headers)) "Status").

(** The state of the loop over the data rows. *)
Record Loop := mkLoop {
  topicMap : JSMap.t RoadmapItem;
  currentTopic : option string
}.

Section Rows.
(** The resolved columns; the topic column is present. *)
Variable tIdx : nat.
Variables sIdx pIdx stIdx : option nat.

Definition addSubTopics (row : Row) (topicObj : RoadmapItem) : RoadmapItem :=
  if nonBlank (JS.at_ row sIdx) then
    let subtopicsText := JS.text (JS.at_ row sIdx) in
    if JS.includes subtopicsText JS.sLF || JS.includes subtopicsText JS.sCR then
      let splitSubtopics := splitTokens subtopicsText in
      mkItem (topic topicObj)
             (fold_left pushIfAbsent splitSubtopics (subTopics topicObj))
             (projects topicObj) (completionStatus topicObj)
    else
      let subtopic := JS.trim subtopicsText in
      mkItem (topic topicObj) (pushIfAbsent (subTopics topicObj) subtopic)
             (projects topicObj) (completionStatus topicObj)
  else topicObj.

Definition addProject (row : Row) (topicObj : RoadmapItem) : RoadmapItem :=
  if nonBlank (JS.at_ row pIdx) then
    let project := JS.trim (JS.text (JS.at_ row pIdx)) in
    mkItem (topic topicObj) (subTopics topicObj)
           (pushIfAbsent (projects topicObj) project)
           (completionStatus topicObj)
  else topicObj.

Definition updateStatus (row : Row) (topicObj : RoadmapItem) : RoadmapItem :=
  if nonBlank (JS.at_ row stIdx) then
    let status := normalizeStatus (JS.at_ row stIdx) in
    mkItem (topic topicObj) (subTopics topicObj) (projects topicObj)
           (mergeStatus (completionStatus topicObj) status)
  else topicObj.

(** The second part of the loop body, on the record of the current
    topic: subtopics, projects, status. *)
Definition updateTopic (row : Row) (topicObj : RoadmapItem) : RoadmapItem :=
  updateStatus row (addProject row (addSubTopics row topicObj)).

(** The first part of the loop body: a row with a topic value moves the
    cursor and registers the topic if it is new. *)
Definition enterTopic (st : Loop) (row : Row) : Loop :=
  if nonBlank (nth_error row tIdx) then
    let cur := JS.trim (JS.text (nth_error row tIdx)) in
    mkLoop
      (if negb (JSMap.has (topicMap st) cur)
       then JSMap.set (topicMap st) cur
              (mkItem cur [] []
                 (if JS.truthyO (JS.at_ row stIdx)
                  then normalizeStatus (JS.at_ row stIdx)
                  else YetToStart))
       else topicMap st)
      (Some cur)
  else st.

(** One iteration of the loop over the data rows. *)
Definition rowStep (st : Loop) (row : Row) : Loop :=
  let st1 := enterTopic st row in
  if negb (JS.truthyO (currentTopic st1)) then st1
  else
    let cur := JS.text (currentTopic st1) in
    match JSMap.get (topicMap st1) cur with
    | None => st1
    | Some topicObj =>
        mkLoop (JSMap.set (topicMap st1) cur (updateTopic row topicObj))
               (currentTopic st1)
    end.

Definition runRows (st : Loop) (rows : list Row) : Loop :=
  fold_left rowStep rows st.

(** [Array.from(topicMap.values())] after the loop. *)
Definition aggregate (rows : list Row) : list RoadmapItem :=
  JSMap.values (topicMap (runRows (mkLoop [] None) rows)).
End Rows.

Inductive SheetResult :=
| SkippedByName
| SkippedNoData
| SkippedMissingTopicColumn
| SkippedNoItems
| Imported (techStackData : TechStackData).

(** The body of the loop over the sheets, up to the store. *)
Definition processSheet (fileBase : string) (s : Sheet) : SheetResult :=
  if skippedByName (sheetName s) then SkippedByName
  else if (length (jsonData s) <=? 1)%nat then SkippedNoData
  else
    let headers := cleanHeaders (hd [] (jsonData s)) in
    match topicIndex headers with
    | None => SkippedMissingTopicColumn
    | Some tIdx =>
        let roadmapItems :=
          aggregate tIdx (subTopicsIndex headers) (projectIndex headers)
                    (statusIndex headers) (tl (jsonData s)) in
        if (length roadmapItems =? 0)%nat then SkippedNoItems
        else Imported
               (mkData (sheetName s)
                       ("Imported from " ++ fileBase ++ ", sheet: " ++ sheetName s)
                       (customHeaders headers)
                       roadmapItems)
    end.

(** The loop of [processExcelFile] over the sheets, in order: each
    valid one is handed to the sink and counted; a sheet whose [save]
    throws is logged by the [catch] and not counted.  [clock i] holds
    the two readings of the clock for the sheet at index [i]. *)
Fixpoint importSheets (fileBase : string) (clock : nat -> nat * nat) (i : nat)
         (sheets : list Sheet) (st : Store.t) (processedCount : nat)
  : Store.t * nat :=
  match sheets with
  | [] => (st, processedCount)
  | s :: rest =>
      match processSheet fileBase s with
      | Imported d =>
          match Store.upsert st d (fst (clock i)) (snd (clock i)) with
          | Some st' => importSheets fileBase clock (S i) rest st' (S processedCount)
          | None => importSheets fileBase clock (S i) rest st processedCount
          end
      | _ => importSheets fileBase clock (S i) rest st processedCount
      end
  end.

(** [processExcelFile]: the store afterwards and [processedCount]. *)
Definition processExcelFile (fileBase : string) (wb : Workbook)
           (clock : nat -> nat * nat) (st : Store.t) : Store.t * nat :=
  importSheets fileBase clock 0 wb st 0.

End ExcelImport.

(** ** [scripts/spreadsheetConverter.js] *)

Module Converter.

Definition findColumnIndex (headers possibleNames : list string) : option nat :=
  JS.findIndex
    (fun h => existsb (fun name => JS.includes (JS.toLowerCase h) (JS.toLowerCase name))
                      possibleNames)
    headers.

Definition topicsColIdx (headers : list string) : option nat :=
  findColumnIndex headers ["topics"; "topic"; "technology"].

Definition subTopicsColIdx (headers : list string) : option nat :=
  findColumnIndex headers ["sub-topics"; "subtopics"; "sub-topic"; "subtopic"].

Definition projectsColIdx (headers : list string) : option nat :=
  findColumnIndex headers
    ["project/app to build"; "projects"; "projects/apps built"; "application"].

Definition statusColIdx (headers : list string) : option nat :=
  findColumnIndex headers ["status of completion"; "status"; "completion"].

(** [idx !== -1 ? headers[idx] : d] *)
Definition headerOr (headers : list string) (idx : option nat) (d : string) : string :=
  match idx with
  | Some _ => JS.text (JS.at_ headers idx)
  | None => d
  end.

Definition customHeaders (headers : list string) : Headers :=
  mkHeaders (JS.orElse (JS.at_ headers (topicsColIdx headers)) "Topic")
            (headerOr headers (subTopicsColIdx headers) "Sub-Topics")
            (headerOr headers (projectsColIdx headers) "Projects")
            (headerOr headers (statusColIdx headers) "Status").

Definition headerRow (h : Headers) : Row :=
  [h_topic h; h_subTopics h; h_projects h; h_status h].

(** [idx !== -1 ? row[idx] || '' : ''] *)
Definition cellOr (row : Row) (idx : option nat) : string :=
  match idx with
  | Some _ => JS.orElse (JS.at_ row idx) ""
  | None => ""
  end.

(** The body of the loop over the data rows: [None] for a skipped row,
    otherwise the row of the four standard columns. *)
Definition convertRow (tIdx : nat) (sIdx pIdx stIdx : option nat) (row : Row)
  : option Row :=
  if negb (JS.truthyO (nth_error row tIdx)) then None
  else Some [ JS.orElse (nth_error row tIdx) "";
              cellOr row sIdx;
              cellOr row pIdx;
              match stIdx with
              | Some _ => statusText (normalizeStatus (Some (JS.orElse (JS.at_ row stIdx) "")))
              | None => "Yet to Start"
              end ].

Fixpoint convertRows (tIdx : nat) (sIdx pIdx stIdx : option nat) (rows : list Row)
  : list Row :=
  match rows with
  | [] => []
  | row :: r =>
      match convertRow tIdx sIdx pIdx stIdx row with
      | Some newRow => newRow :: convertRows tIdx sIdx pIdx stIdx r
      | None => convertRows tIdx sIdx pIdx stIdx r
      end
  end.

(** The characters that the file name may not hold (slash, backslash,
    question mark, percent, star, colon, bar, double quote, angle
    brackets), by code; each is replaced by an underscore. *)
Definition invalidInFileName (c : ascii) : bool :=
  existsb (Nat.eqb (JS.code c)) [47; 92; 63; 37; 42; 58; 124; 34; 60; 62].

Fixpoint sanitize (s : string) : string :=
  match s with
  | EmptyString => EmptyString
  | String c r => String (if invalidInFileName c then "_"%char else c) (sanitize r)
  end.

Inductive SheetResult :=
| SkippedByName
| SkippedInsufficientData
| SkippedNoData
| SkippedMissingTopicsColumn
| SkippedNoValidRows
| Converted (fileName : string) (csvData : list Row).

(** The callback of [workbook.SheetNames.forEach], up to the text of
    the file: the result carries the rows [csvData] that are written. *)
Definition convertSheet (s : Sheet) : SheetResult :=
  if skippedByName (sheetName s) then SkippedByName
  else if (range_e_r s <? 2)%nat then SkippedInsufficientData
  else if (length (jsonData s) <? 2)%nat then SkippedNoData
  else
    let headers := cleanHeaders (hd [] (jsonData s)) in
    match topicsColIdx headers with
    | None => SkippedMissingTopicsColumn
    | Some tIdx =>
        let csvData :=
          headerRow (customHeaders headers)
          :: convertRows tIdx (subTopicsColIdx headers) (projectsColIdx headers)
                         (statusColIdx headers) (tl (jsonData s)) in
        if (length csvData <=? 1)%nat then SkippedNoValidRows
        else Converted (sanitize (sheetName s) ++ ".csv") csvData
    end.

(** [convertSheetsToCSV]: the files written, in sheet order. *)
Fixpoint convertSheetsToCSV (wb : Workbook) : list (string * list Row) :=
  match wb with
  | [] => []
  | s :: r =>
      match convertSheet s with
      | Converted f csvData => (f, csvData) :: convertSheetsToCSV r
      | _ => convertSheetsToCSV r
      end
  end.

End Converter.

(** ** [scripts/bulkUpload.js] *)

Module BulkUpload.

(** A parsed row: the object that the CSV reader builds in header mode,
    from header name to cell text, keys in column order. *)
Definition Obj := JSMap.t string.

Definition buildObj (header : Row) (line : Row) : Obj :=
  fold_left (fun o kv => JSMap.set o (fst kv) (snd kv)) (combine header line) [].

Definition emptyLine (line : Row) : bool :=
  match line with
  | [] => true
  | [c] => c =? ""
  | _ => false
  end.

(** The reader at the level of the table of cell texts of the file:
    header mode with trimmed header names, empty lines skipped.  The
    tokenisation of the text (quotes, delimiters) is the reader's. *)
Definition parse (csv : list Row) : list Obj :=
  match csv with
  | [] => []
  | header :: lines =>
      map (buildObj (map JS.trim header))
          (filter (fun l => negb (emptyLine l)) lines)
  end.

(** [Object.keys(data[0] || {})] *)
Definition headersOf (data : list Obj) : list string :=
  match data with
  | [] => []
  | o :: _ => JSMap.keys o
  end.

(** [headers.find(h => alternatives.some(alt =>
    h.toLowerCase().includes(alt.toLowerCase())))], kept when truthy. *)
Definition matchedHeader (headers alternatives : list string) : option string :=
  match find (fun h => existsb (fun alt => JS.includes (JS.toLowerCase h) (JS.toLowerCase alt))
                               alternatives) headers with
  | Some h => if JS.truthy h then Some h else None
  | None => None
  end.

Record HeaderMapping := mkMapping {
  m_topic : option string;
  m_subtopic : option string;
  m_project : option string;
  m_status : option string
}.

Definition headerMapping (headers : list string) : HeaderMapping :=
  mkMapping (matchedHeader headers ["topics"; "topic"; "technology"])
            (matchedHeader headers ["sub-topics"; "subtopics"; "sub-topic"; "subtopic"])
            (matchedHeader headers ["project/app to build"; "projects"; "projects/apps built"])
            (matchedHeader headers ["status of completion"; "status"; "completion status"]).

Definition orDefault (m : option string) (d : string) : string :=
  match m with
  | Some h => h
  | None => d
  end.

Definition customHeaders (hm : HeaderMapping) : Headers :=
  mkHeaders (orDefault (m_topic hm) "Topic")
            (orDefault (m_subtopic hm) "Sub-Topics")
            (orDefault (m_project hm) "Projects")
            (orDefault (m_status hm) "Status").

(** [hm.key && row[hm.key]], as a value that may be [undefined]. *)
Definition cell (row : Obj) (key : option string) : option string :=
  match key with
  | Some h => JSMap.get row h
  | None => None
  end.

Section Rows.
Variable hm : HeaderMapping.

Definition subTopicsOf (row : Obj) : list Entry :=
  if JS.truthyO (cell row (m_subtopic hm))
  then map mkEntry (splitTokens (JS.text (cell row (m_subtopic hm))))
  else [].

Definition projectsOf (row : Obj) : list Entry :=
  if JS.truthyO (cell row (m_project hm)) then
    let p := JS.text (cell row (m_project hm)) in
    if JS.includes p JS.sLF then map mkEntry (splitTokens p)
    else [mkEntry (JS.trim p)]
  else [].

Definition statusOf (row : Obj) : Status :=
  if JS.truthyO (cell row (m_status hm))
  then normalizeStatus (cell row (m_status hm))
  else YetToStart.

(** The merge of a row into the record of its topic. *)
Definition mergeInto (existingItem : RoadmapItem) (row : Obj) : RoadmapItem :=
  mkItem (topic existingItem)
         (fold_left (fun arr subtopic => pushIfAbsent arr (name subtopic))
                    (subTopicsOf row) (subTopics existingItem))
         (fold_left (fun arr project => pushIfAbsent arr (name project))
                    (projectsOf row) (projects existingItem))
         (mergeStatus (completionStatus existingItem) (statusOf row)).

(** The callback of [data.forEach]. *)
Definition rowStep (topicsMap : JSMap.t RoadmapItem) (row : Obj)
  : JSMap.t RoadmapItem :=
  if negb (JS.truthyO (cell row (m_topic hm))) then topicsMap
  else
    let topic := JS.text (cell row (m_topic hm)) in
    match JSMap.get topicsMap topic with
    | None =>
        JSMap.set topicsMap topic
          (mkItem topic (subTopicsOf row) (projectsOf row) (statusOf row))
    | Some existingItem =>
        JSMap.set topicsMap topic (mergeInto existingItem row)
    end.

Definition aggregate (data : list Obj) : list RoadmapItem :=
  JSMap.values (fold_left rowStep data []).
End Rows.

(** The object [techStackData] built from the parsed rows, or the
    error thrown for a file without a topic column. *)
Definition buildTechStackData (data : list Obj) (techStackName description : string)
  : string + TechStackData :=
  let hm := headerMapping (headersOf data) in
  if negb (JS.truthyO (m_topic hm)) then inl "CSV must have a column for Topics"
  else inr (mkData techStackName description (customHeaders hm) (aggregate hm data)).

(** What [processCSVFile] throws: its own error, or the one of a [save]
    that the schema refuses. *)
Inductive Thrown :=
| ErrorMessage (message : string)
| SaveRejected.

(** [processCSVFile] on the table of the file; [born] and [now] are the
    readings of the clock for the sink. *)
Definition processCSVFile (csv : list Row) (techStackName description : string)
           (st : Store.t) (born now : nat) : Thrown + (Store.t * TechStackData) :=
  match buildTechStackData (parse csv) techStackName description with
  | inl e => inl (ErrorMessage e)
  | inr techStackData =>
      match Store.upsert st techStackData born now with
      | Some st' => inr (st', techStackData)
      | None => inl SaveRejected
      end
  end.

End BulkUpload.

(** ** [controllers/techStackController.js]: deleting a roadmap item *)

Module Controller.

Record Response := mkResponse {
  status : nat;
  success : bool;
  data : option Store.TechStack;
  error : option string
}.

(** [deleteRoadmapItem] with [req.params.id] and [req.params.itemId]:
    the store after the request and the response; [now] is the reading
    of the clock at the [save]. *)
Definition deleteRoadmapItem (st : Store.t) (id itemId : string) (now : nat)
  : Store.t * Response :=
  match Store.findById st id with
  | None => (st, mkResponse 404 false None (Some "Tech stack not found"))
  | Some techStack =>
      let techStack' :=
        Store.withItems techStack
          (filter (fun item => negb (Store._id item =? itemId))
                  (Store.roadmapItems techStack)) in
      match Store.save st techStack' now with
      | Some (st', saved) => (st', mkResponse 200 true (Some saved) None)
      | None => (st, mkResponse 500 false None (Some "Server Error"))
      end
  end.

End Controller.

(** ** Definitions used to state the properties *)

(** The topic column as the specification words it for the import path:
    the first header whose lower-cased text contains one of the synonyms
    and does not contain "sub". *)
Definition topicIndex_reference (headers : list string) : option nat :=
  JS.findIndex
    (fun h => existsb (JS.includes (JS.toLowerCase h)) ["topic"; "topics"; "technology"]
              && negb (JS.includes (JS.toLowerCase h) "sub"))
    headers.

(** The test of the import path on one header. *)
Definition isTopicHeader (h : string) : bool :=
  JS.includes (JS.toLowerCase h) "topic" && negb (JS.includes (JS.toLowerCase h) "sub").

(** Appending a key unless it is there: the keys of a [Map] after [set]. *)
Definition pushKey (l : list string) (k : string) : list string :=
  if existsb (fun x => x =? k) l then l else l ++ [k].

(** The distinct elements of a list in the order of their first
    occurrence. *)
Definition firstOccurrences (l : list string) : list string :=
  fold_left pushKey l [].

(** The aggregation key that a data row contributes in the import path. *)
Definition importKey (tIdx : nat) (row : Row) : list string :=
  if nonBlank (nth_error row tIdx) then [JS.trim (JS.text (nth_error row tIdx))] else [].

(** The aggregation key that a parsed row contributes in the CSV path. *)
Definition csvKey (hm : BulkUpload.HeaderMapping) (row : BulkUpload.Obj) : list string :=
  if JS.truthyO (BulkUpload.cell row (BulkUpload.m_topic hm))
  then [JS.text (BulkUpload.cell row (BulkUpload.m_topic hm))]
  else [].

Definition memb (x : string) (l : list string) : bool :=
  existsb (fun y => y =? x) l.

Fixpoint nodupb (l : list string) : bool :=
  match l with
  | [] => true
  | x :: r => negb (memb x r) && nodupb r
  end.

Definition sameSet (a b : list string) : bool :=
  forallb (fun x => memb x b) a && forallb (fun x => memb x a) b.

(** Equivalence of two lists of roadmap items: the same set of topics
    and, per topic, the same set of subtopics, the same set of projects
    and the same status. *)
Definition equivalentItems (a b : list RoadmapItem) : bool :=
  sameSet (map topic a) (map topic b)
  && forallb
       (fun x =>
          match find (fun y => topic y =? topic x) b with
          | Some y =>
              sameSet (map name (subTopics x)) (map name (subTopics y))
              && sameSet (map name (projects x)) (map name (projects y))
              && Status_eqb (completionStatus x) (completionStatus y)
          | None => false
          end)
       a.

Definition equivalentRecords (a b : option (list RoadmapItem)) : bool :=
  match a, b with
  | Some x, Some y => equivalentItems x y
  | None, None => true
  | _, _ => false
  end.

(** The roadmap items that the import path stores for a sheet, if any. *)
Definition importedItems (fileBase : string) (s : Sheet) : option (list RoadmapItem) :=
  match ExcelImport.processSheet fileBase s with
  | ExcelImport.Imported d => Some (d_roadmapItems d)
  | _ => None
  end.

(** The roadmap items that the upload path stores for the file that the
    converter writes for a sheet, if any.  The reader is taken to return
    the table of cells that the converter wrote. *)
Definition convertedThenUploadedItems (s : Sheet) : option (list RoadmapItem) :=
  match Converter.convertSheet s with
  | Converter.Converted f csvData =>
      match BulkUpload.buildTechStackData (BulkUpload.parse csvData)
              (Converter.sanitize (sheetName s)) "" with
      | inr d => Some (d_roadmapItems d)
      | inl _ => None
      end
  | _ => None
  end.

Definition optNat_eqb (a b : option nat) : bool :=
  match a, b with
  | Some x, Some y => (x =? y)%nat
  | None, None => true
  | _, _ => false
  end.

Definition optString_eqb (a : option string) (b : string) : bool :=
  match a with
  | Some x => x =? b
  | None => false
  end.

(** The header rows on which the three readers agree: import and
    converter resolve the same four columns, and the header line that the
    converter writes has four distinct names which the upload script
    resolves, in order, to topic, subtopics, projects and status. *)
Definition headersAgree (headers : list string) : bool :=
  optNat_eqb (ExcelImport.topicIndex headers) (Converter.topicsColIdx headers)
  && optNat_eqb (ExcelImport.subTopicsIndex headers) (Converter.subTopicsColIdx headers)
  && optNat_eqb (ExcelImport.projectIndex headers) (Converter.projectsColIdx headers)
  && optNat_eqb (ExcelImport.statusIndex headers) (Converter.statusColIdx headers)
  && match map JS.trim (Converter.headerRow (Converter.customHeaders headers)) with
     | [a; b; c; d] =>
         nodupb [a; b; c; d]
         && let hm := BulkUpload.headerMapping [a; b; c; d] in
            optString_eqb (BulkUpload.m_topic hm) a
            && optString_eqb (BulkUpload.m_subtopic hm) b
            && optString_eqb (BulkUpload.m_project hm) c
            && optString_eqb (BulkUpload.m_status hm) d
     | _ => false
     end.

(** The row that the converter writes for a data row with a topic. *)
Definition convertedRow (tIdx : nat) (sIdx pIdx stIdx : option nat) (row : Row) : Row :=
  [ JS.text (nth_error row tIdx);
    JS.text (JS.at_ row sIdx);
    JS.text (JS.at_ row pIdx);
    statusText (normalizeStatus (Some (JS.text (JS.at_ row stIdx)))) ].

(** The object that the reader builds for that row under the header
    names [a], [b], [c], [d]. *)
Definition readBack (a b c d : string) (tIdx : nat) (sIdx pIdx stIdx : option nat)
           (row : Row) : BulkUpload.Obj :=
  BulkUpload.buildObj [a; b; c; d] (convertedRow tIdx sIdx pIdx stIdx row).

(** A projects cell that both paths read as one project or none: it has
    no line feed and is empty or not blank. *)
Definition plainProject (pIdx : option nat) (row : Row) : Prop :=
  JS.includes (JS.text (JS.at_ row pIdx)) JS.sLF = false
  /\ (JS.text (JS.at_ row pIdx) = "" \/ JS.trim (JS.text (JS.at_ row pIdx)) <> "").

Fixpoint allSpace (s : string) : bool :=
  match s with
  | EmptyString => true
  | String c r => JS.isSpace c && allSpace r
  end.

(** The records of a map carry their key as [topic]. *)
Definition keyed (m : JSMap.t RoadmapItem) : Prop :=
  Forall (fun kv => topic (snd kv) = fst kv) m.

(** ** Example inputs *)

(** The scenario of the specification: one topic with a two-line
    subtopics cell. *)
Definition reactSheet : Sheet :=
  mkSheet "React"
    [ ["Topic"; "Sub-Topics"; "Project/App"; "Status"];
      ["Hooks"; ("useState" ++ JS.sLF ++ "useEffect")%string; "Counter App"; "In Progress"] ].

(** A sheet with a sparse topic column: the second data row continues
    the topic of the first. *)
Definition carrySheet : Sheet :=
  mkSheet "React"
    [ ["Topic"; "Sub-Topics"; "Projects"; "Status"];
      ["Hooks"; "useState"; "Counter App"; "In Progress"];
      [""; "useEffect"; ""; ""] ].

(** A sheet in which every row carries its topic. *)
Definition flatSheetExample : Sheet :=
  mkSheet "React"
    [ ["Topic"; "Sub-Topics"; "Projects"; "Status"];
      ["Hooks"; ("useState" ++ JS.sLF ++ "useEffect")%string; "Counter App"; "In Progress"];
      ["Router"; "Routes"; ""; ""];
      ["Hooks"; "useMemo"; "Todo App"; "Done"] ].

(** A header and one data row, with a two-line projects cell. *)
Definition twoProjectsSheet : Sheet :=
  mkSheet "React"
    [ ["Topic"; "Projects"];
      ["Hooks"; ("App A" ++ JS.sLF ++ "App B")%string] ].

(** A CSV table whose first data row names the same token twice. *)
Definition repeatedTokenCsv : list Row :=
  [ ["Topic"; "Sub-Topics"; "Projects"];
    ["Hooks"; ("useState" ++ JS.sLF ++ "useState")%string; ("App" ++ JS.sLF ++ "App")%string] ].

(** A CSV table with two rows whose topics differ in a trailing space. *)
Definition paddedTopicCsv : list Row :=
  [ ["Topic"; "Sub-Topics"];
    ["Hooks"; "useState"];
    ["Hooks "; "useEffect"] ].

Definition paddedTopicSheet : Sheet :=
  mkSheet "React"
    [ ["Topic"; "Sub-Topics"];
      ["Hooks"; "useState"];
      ["Hooks "; "useEffect"] ].

Definition technologySheet : Sheet :=
  mkSheet "Stack" [ ["Technology"; "Status"]; ["React"; "Done"] ].

Definition emptyStore : Store.t := Store.mkStore [] 0 eq_refl.

(** A store that holds "React" with one item, and a run for "React". *)
Definition reactDoc : Store.TechStack :=
  Store.mkDoc "0" "React" "old" (mkHeaders "T" "S" "P" "St")
    [Store.mkItemDoc "1" (mkItem "JSX" [] [] Completed)] 5 5.

Definition storedReact : Store.t := Store.mkStore [reactDoc] 2 eq_refl.

(** What a stored document presents of a tech stack: name, description,
    headers and roadmap items, without identifiers and times. *)
Definition recordOf (doc : Store.TechStack) : TechStackData :=
  mkData (Store.name doc) (Store.description doc) (Store.headers doc)
         (map Store.body (Store.roadmapItems doc)).

(** The sink as the specification words it: the record under the name
    of a run afterwards, given the record that was stored under it. *)
Definition upsert_reference (stored : option TechStackData) (run : TechStackData)
  : TechStackData :=
  match stored with
  | Some old => mkData (d_name old) (d_description run) (d_headers run) (d_roadmapItems run)
  | None => run
  end.

(** A CSV table whose projects cell is blank without being empty. *)
Definition blankProjectCsv : list Row :=
  [ ["Topic"; "Projects"];
    ["Hooks"; " "] ].

(** A CSV table for the tech stack "React". *)
Definition hooksCsv : list Row :=
  [ ["Topic"; "Sub-Topics"; "Status"];
    ["Hooks"; "useState"; "In Progress"] ].

Definition runReact : TechStackData :=
  mkData "React" "new" (mkHeaders "Topic" "Sub-Topics" "Projects" "Status")
         [mkItem "Hooks" [mkEntry "useState"] [] InProgress].

(** ** The text of the CSV file ([scripts/spreadsheetConverter.js])

    The cells of [csvData] are texts, so the test for [null] and
    [undefined] in the callback never applies. *)

Module CsvText.

Definition DQ : ascii := ascii_of_nat 34.

Definition sDQ : string := String DQ EmptyString.

(** The [replace] of the callback: every double quote [DQ] is doubled. *)
Fixpoint doubleQuotes (s : string) : string :=
  match s with
  | EmptyString => EmptyString
  | String c r =>
      if Ascii.eqb c DQ then String DQ (String DQ (doubleQuotes r))
      else String c (doubleQuotes r)
  end.

(** The callback of [row.map]: a cell with a comma, a double quote or a
    line break is wrapped in double quotes, its double quotes doubled. *)
Definition escapeCell (cellStr : string) : string :=
  if JS.includes cellStr "," || JS.includes cellStr sDQ
     || JS.includes cellStr JS.sLF || JS.includes cellStr JS.sCR
  then sDQ ++ doubleQuotes cellStr ++ sDQ
  else cellStr.

(** [arr.join(sep)] *)
Fixpoint join (sep : string) (l : list string) : string :=
  match l with
  | [] => EmptyString
  | x :: r =>
      match r with
      | [] => x
      | _ => x ++ sep ++ join sep r
      end
  end.

Definition csvLine (row : Row) : string := join "," (map escapeCell row).

(** [csvData.map(row => row.map(...).join(',')).join('\n')] *)
Definition csvContent (csvData : list Row) : string :=
  join JS.sLF (map csvLine csvData).

End CsvText.

(** ** The helper [findColumn] of [scripts/bulkUpload.js] *)

Module BulkUploadHelpers.

(** The first header that contains one of the names, or [None] for
    [null]. *)
Definition findColumn (headers possibleNames : list string) : option string :=
  find (fun header =>
          existsb (fun name => JS.includes (JS.toLowerCase header) (JS.toLowerCase name))
                  possibleNames)
       headers.

End BulkUploadHelpers.

(** ** [controllers/techStackController.js]: the other handlers

    The request body of the item handlers is taken as already cast to
    the schema: a roadmap item for [addRoadmapItem], the fields that are
    present for [updateRoadmapItem]. *)

Module TechStackController.

Inductive Payload :=
| NoPayload
| EmptyObject
| Doc (d : Store.TechStack)
| Names (l : list (Store.ObjectId * string)).

Record Reply := mkReply {
  status : nat;
  success : bool;
  count : option nat;
  data : Payload;
  error : option string
}.

Definition notFound (what : string) : Reply :=
  mkReply 404 false None NoPayload (Some what).

Definition ok (d : Payload) : Reply := mkReply 200 true None d None.

(** [TechStack.find({}, 'name')]: the identifier and the name of each. *)
Definition getAllTechStacks (st : Store.t) : Reply :=
  let techStacks := map (fun d => (Store.id d, Store.name d)) (Store.docs st) in
  mkReply 200 true (Some (length techStacks)) (Names techStacks) None.

Definition getTechStackById (st : Store.t) (id : string) : Reply :=
  match Store.findById st id with
  | None => notFound "Tech stack not found"
  | Some techStack => ok (Doc techStack)
  end.

Definition getTechStackByName (st : Store.t) (name : string) : Reply :=
  match Store.findOne st name with
  | None => notFound "Tech stack not found"
  | Some techStack => ok (Doc techStack)
  end.

Fixpoint removeById (ds : list Store.TechStack) (i : string) : list Store.TechStack :=
  match ds with
  | [] => []
  | x :: r => if Store.id x =? i then r else x :: removeById r i
  end.

(** The answer of the [catch] of a handler. *)
Definition serverError : Reply :=
  mkReply 500 false None NoPayload (Some "Server Error").

(** [TechStack.findByIdAndDelete(id)] and the answer. *)
Definition deleteTechStack (st : Store.t) (id : string) : Store.t * Reply :=
  match Store.findById st id with
  | None => (st, notFound "Tech stack not found")
  | Some _ =>
      match Store.mk (removeById (Store.docs st) id) (Store.nextId st) with
      | Some st' => (st', ok EmptyObject)
      | None => (st, serverError)
      end
  end.

(** [TechStack.deleteMany({})] and the answer. *)
Definition deleteAllTechStacks (st : Store.t) : Store.t * Reply :=
  (Store.mkStore [] (Store.nextId st) eq_refl, ok EmptyObject).

(** [techStack.roadmapItems.push(req.body)], saved; the pushed item
    gets the next identifier. *)
Definition addRoadmapItem (st : Store.t) (id : string) (body : RoadmapItem)
           (now : nat) : Store.t * Reply :=
  match Store.findById st id with
  | None => (st, notFound "Tech stack not found")
  | Some techStack =>
      let n := Store.nextId st in
      let techStack' :=
        Store.withItems techStack
          (Store.roadmapItems techStack ++ [Store.mkItemDoc (Store.freshId n) body]) in
      match Store.save (Store.advance st 1) techStack' now with
      | Some (st', saved) => (st', ok (Doc saved))
      | None => (st, serverError)
      end
  end.

(** The fields of a roadmap item that a request body carries. *)
Record ItemPatch := mkPatch {
  p_id : option Store.ObjectId;
  p_topic : option string;
  p_subTopics : option (list Entry);
  p_projects : option (list Entry);
  p_completionStatus : option Status
}.

Definition orOld {A : Type} (new : option A) (old : A) : A :=
  match new with
  | Some x => x
  | None => old
  end.

(** [{ ...item.toObject(), ...req.body }] *)
Definition patchItem (item : Store.ItemDoc) (body : ItemPatch) : Store.ItemDoc :=
  Store.mkItemDoc
    (orOld (p_id body) (Store._id item))
    (mkItem (orOld (p_topic body) (topic (Store.body item)))
            (orOld (p_subTopics body) (subTopics (Store.body item)))
            (orOld (p_projects body) (projects (Store.body item)))
            (orOld (p_completionStatus body) (completionStatus (Store.body item)))).

(** [arr[i] = x] for an index within the array. *)
Fixpoint setAt {A : Type} (l : list A) (i : nat) (x : A) : list A :=
  match l, i with
  | [], _ => []
  | _ :: r, 0 => x :: r
  | a :: r, S j => a :: setAt r j x
  end.

Definition updateRoadmapItem (st : Store.t) (id itemId : string) (body : ItemPatch)
           (now : nat) : Store.t * Reply :=
  match Store.findById st id with
  | None => (st, notFound "Tech stack not found")
  | Some techStack =>
      match JS.findIndex (fun item => Store._id item =? itemId)
                         (Store.roadmapItems techStack) with
      | None => (st, notFound "Roadmap item not found")
      | Some itemIndex =>
          match nth_error (Store.roadmapItems techStack) itemIndex with
          | None => (st, notFound "Roadmap item not found")
          | Some item =>
              let techStack' :=
                Store.withItems techStack
                  (setAt (Store.roadmapItems techStack) itemIndex
                         (patchItem item body)) in
              match Store.save st techStack' now with
              | Some (st', saved) => (st', ok (Doc saved))
              | None => (st, serverError)
              end
          end
      end
  end.

End TechStackController.

(** ** Further definitions used to state properties *)

(** Matching a header against a list of names, as all three scripts
    write it. *)
Definition matchesAny (names : list string) (h : string) : bool :=
  existsb (fun name => JS.includes (JS.toLowerCase h) (JS.toLowerCase name)) names.

(** A text without surrounding white space. *)
Definition trimmed (s : string) : Prop := JS.trim s = s.

(** The entries of a list have non-empty, trimmed, pairwise distinct
    names. *)
Definition cleanEntries (l : list Entry) : Prop :=
  NoDup (map name l) /\ Forall (fun e => name e <> "" /\ trimmed (name e)) l.

(** The store as the operations keep it: distinct identifiers, distinct
    names, and every identifier handed out by the counter. *)
Definition wellFormed (st : Store.t) : Prop :=
  NoDup (map Store.id (Store.docs st))
  /\ NoDup (map Store.name (Store.docs st))
  /\ forall d, In d (Store.docs st) ->
               exists k, k < Store.nextId st /\ Store.id d = Store.freshId k.

(** The sheets of a workbook that the import path stores: the imported
    ones whose name passes the schema. *)
Definition isStored (fileBase : string) (s : Sheet) : bool :=
  match ExcelImport.processSheet fileBase s with
  | ExcelImport.Imported _ => Schema.required (JS.trim (sheetName s))
  | _ => false
  end.

(** The state of a reader of CSV text. *)
Inductive ReadMode := AtStart | InPlain | InQuoted | AfterQuote.

(** A reader for the text that the converter writes: fields separated by
    commas, lines by line feeds, a field that starts with a double quote
    runs to the next single double quote, a doubled one standing for one.
    It serves to show that the text determines the table. *)
Fixpoint readCsv (s : string) (mode : ReadMode) (field : string) (row : Row)
         (rows : list Row) : list Row :=
  match s with
  | EmptyString => rows ++ [row ++ [field]]
  | String ch r =>
      match mode with
      | InQuoted =>
          if Ascii.eqb ch CsvText.DQ then readCsv r AfterQuote field row rows
          else readCsv r InQuoted (field ++ String ch "") row rows
      | _ =>
          if Ascii.eqb ch "," then readCsv r AtStart "" (row ++ [field]) rows
          else if Ascii.eqb ch JS.LF then readCsv r AtStart "" [] (rows ++ [row ++ [field]])
          else if Ascii.eqb ch CsvText.DQ then
                 match mode with
                 | AtStart => readCsv r InQuoted "" row rows
                 | AfterQuote => readCsv r InQuoted (field ++ CsvText.sDQ) row rows
                 | _ => readCsv r InPlain (field ++ String ch "") row rows
                 end
          else readCsv r InPlain (field ++ String ch "") row rows
      end
  end.

(** The status that a parsed row contributes to the topic [k] in the
    upload path. *)
Definition rowsOfTopic (hm : BulkUpload.HeaderMapping) (k : string)
           (data : list BulkUpload.Obj) : list BulkUpload.Obj :=
  filter (fun row => JS.truthyO (BulkUpload.cell row (BulkUpload.m_topic hm))
                     && (JS.text (BulkUpload.cell row (BulkUpload.m_topic hm)) =? k))
         data.

(** What the schema asks of a roadmap item, on every name. *)
Definition cleanItem (it : RoadmapItem) : Prop :=
  topic it <> "" /\ trimmed (topic it)
  /\ cleanEntries (subTopics it) /\ cleanEntries (projects it).

(** The names of the entries of a list satisfy [R]. *)
Definition namesAll (R : string -> Prop) (l : list Entry) : Prop :=
  Forall (fun e => R (name e)) l.

(** What holds of every roadmap item of the upload path: a non-empty
    topic, non-empty trimmed subtopic names, trimmed project names. *)
Definition uploadedItemOk (it : RoadmapItem) : Prop :=
  topic it <> ""
  /\ namesAll (fun n => n <> "" /\ trimmed n) (subTopics it)
  /\ namesAll trimmed (projects it).

(** A second run for "React". *)
Definition runReactAgain : TechStackData :=
  mkData "React " "newer" (mkHeaders "Topic" "Sub-Topics" "Projects" "Status")
         [mkItem "Router" [] [mkEntry "Blog"] Completed].

(** The text after a field: nothing, a comma or a line feed. *)
Definition endsField (s : string) : bool :=
  match s with
  | EmptyString => true
  | String ch _ => Ascii.eqb ch "," || Ascii.eqb ch JS.LF
  end.

(** A table with commas, double quotes and line breaks in its cells. *)
Definition awkwardTable : list Row :=
  [ ["Topic"; "Sub-Topics"; "Projects"; "Status"];
    ["Hooks, state"; String "a" (String JS.LF "b"); String CsvText.DQ "x"; ""] ].

(** The row [row] with the cell of column [i] set to [v]; the cells that
    a shorter row lacks before it are empty texts, as the sheet reader
    fills them. *)
Fixpoint setCell (i : nat) (v : string) (row : Row) : Row :=
  match i, row with
  | 0, [] => [v]
  | 0, _ :: r => v :: r
  | S j, [] => "" :: setCell j v []
  | S j, c :: r => c :: setCell j v r
  end.

(** The data rows with the topic written out in every row: a blank topic
    cell below a row with a topic gets the trimmed topic of that row. *)
Fixpoint fillDown (tIdx : nat) (cur : option string) (rows : list Row) : list Row :=
  match rows with
  | [] => []
  | row :: r =>
      if nonBlank (nth_error row tIdx)
      then row :: fillDown tIdx (Some (JS.trim (JS.text (nth_error row tIdx)))) r
      else match cur with
           | Some c => setCell tIdx c row :: fillDown tIdx cur r
           | None => row :: fillDown tIdx None r
           end
  end.

(** The cursor of the import loop names a trimmed, non-empty topic that
    the map holds. *)
Definition goodCursor (st : ExcelImport.Loop) : Prop :=
  match ExcelImport.currentTopic st with
  | Some c => c <> "" /\ JS.trim c = c
              /\ JSMap.has (ExcelImport.topicMap st) c = true
  | None => True
  end.

(** ** The record of one topic

    What the rows that count for the topic [k] give when they are taken
    by themselves, in order: the first one opens the record, each later
    one is merged into it. *)

Section ImportRecord.
Variable tIdx : nat.
Variables sIdx pIdx stIdx : option nat.

(** The topic that counts for a row of a sheet: its own, or else the
    one of the nearest row above that has one. *)
Definition cursorAfter (cursor : option string) (row : Row) : option string :=
  if nonBlank (nth_error row tIdx)
  then Some (JS.trim (JS.text (nth_error row tIdx)))
  else cursor.

Definition openedBy (k : string) (row : Row) : RoadmapItem :=
  mkItem k [] []
         (if JS.truthyO (JS.at_ row stIdx) then normalizeStatus (JS.at_ row stIdx)
          else YetToStart).

Definition importStepFor (k : string) (acc : option string * option RoadmapItem)
           (row : Row) : option string * option RoadmapItem :=
  let cursor := cursorAfter (fst acc) row in
  match cursor with
  | Some c =>
      if c =? k
      then (cursor,
            Some (ExcelImport.updateTopic sIdx pIdx stIdx row
                    (match snd acc with
                     | Some e => e
                     | None => openedBy k row
                     end)))
      else (cursor, snd acc)
  | None => (cursor, snd acc)
  end.

Definition importRecordOf (k : string) (rows : list Row) : option RoadmapItem :=
  snd (fold_left (importStepFor k) rows (None, None)).
End ImportRecord.

Definition uploadStepFor (hm : BulkUpload.HeaderMapping) (k : string)
           (rec : option RoadmapItem) (row : BulkUpload.Obj) : option RoadmapItem :=
  if JS.truthyO (BulkUpload.cell row (BulkUpload.m_topic hm))
     && (JS.text (BulkUpload.cell row (BulkUpload.m_topic hm)) =? k)
  then Some (match rec with
             | Some e => BulkUpload.mergeInto hm e row
             | None => mkItem k (BulkUpload.subTopicsOf hm row)
                              (BulkUpload.projectsOf hm row) (BulkUpload.statusOf hm row)
             end)
  else rec.

Definition uploadRecordOf (hm : BulkUpload.HeaderMapping) (k : string)
           (data : list BulkUpload.Obj) : option RoadmapItem :=
  fold_left (uploadStepFor hm k) data None.

(** A CSV table in which a topic comes back after another one. *)
Definition repeatedTopicCsv : list Row :=
  [ ["Topic"; "Sub-Topics"; "Projects"; "Status"];
    ["Hooks"; "useState"; "Counter App"; "In Progress"];
    ["Router"; "Routes"; ""; ""];
    ["Hooks"; ("useState" ++ JS.sLF ++ "useMemo")%string; "Todo App"; "Done"] ].

(** ** The round trip through the files *)

(** The file that the converter writes for a sheet: its name and its
    text. *)
Definition writtenFile (s : Sheet) : option (string * string) :=
  match Converter.convertSheet s with
  | Converter.Converted fileName csvData => Some (fileName, CsvText.csvContent csvData)
  | _ => None
  end.

(** The output directory after [convertSheetsToCSV], from file names to
    texts: [writeFileSync] replaces a file of the same name. *)
Definition writeFiles (wb : Workbook) : JSMap.t string :=
  fold_left (fun dir s =>
               match writtenFile s with
               | Some (f, text) => JSMap.set dir f text
               | None => dir
               end)
            wb [].

(** The roadmap items that [processCSVFile] builds from the text of a
    file.  [tokenise] stands for the reader of the upload script as far
    as it turns the text into rows of fields, with the delimiter and the
    line break that it guesses; its code is not part of the repository. *)
Definition uploadedItems (tokenise : string -> list Row) (text techStackName : string)
  : option (list RoadmapItem) :=
  match BulkUpload.buildTechStackData (BulkUpload.parse (tokenise text))
          techStackName "" with
  | inr d => Some (d_roadmapItems d)
  | inl _ => None
  end.

(** Convert-then-upload for a sheet of a workbook: the upload of the
    file that bears the name of the sheet's file once the workbook is
    converted. *)
Definition convertThenUpload (tokenise : string -> list Row) (wb : Workbook) (s : Sheet)
  : option (list RoadmapItem) :=
  match JSMap.get (writeFiles wb) (Converter.sanitize (sheetName s) ++ ".csv")%string with
  | Some text => uploadedItems tokenise text (Converter.sanitize (sheetName s))
  | None => None
  end.

(** The reader returns, for the file that the converter writes for a
    sheet, the rows that were written. *)
Definition readsBack (tokenise : string -> list Row) (s : Sheet) : Prop :=
  forall f csvData,
    Converter.convertSheet s = Converter.Converted f csvData ->
    tokenise (CsvText.csvContent csvData) = csvData.

(** The round trip as the specification states it, for every workbook
    and every reader that reads the converter's files back. *)
Definition roundTripClaim : Prop :=
  forall (tokenise : string -> list Row) (fileBase : string) (wb : list RawSheet),
    (forall s, In s wb -> readsBack tokenise (present s)) ->
    forall s, In s wb ->
      equivalentRecords (importedItems fileBase (present s))
                        (convertThenUpload tokenise (map present wb) (present s))
      = true.

(** No sheet of the workbook replaces the file of the sheet [s] by
    another text. *)
Definition keepsFile (wb : Workbook) (s : Sheet) : Prop :=
  forall s' text,
    In s' wb ->
    writtenFile s' = Some ((Converter.sanitize (sheetName s) ++ ".csv")%string, text) ->
    writtenFile s = Some ((Converter.sanitize (sheetName s) ++ ".csv")%string, text).

(** The reference reader as a reader of whole files. *)
Definition readTable (text : string) : list Row := readCsv text AtStart "" [] [].

(** The data rows on which the two paths read the same records.  Every
    topic cell is empty or a trimmed text; a row with a topic has a
    projects cell without a line feed that is empty or not blank; a row
    without a topic below a row with one (as [seen] tells) has blank
    subtopics, projects and status cells. *)
Fixpoint regularRows (tIdx : nat) (sIdx pIdx stIdx : option nat) (seen : bool)
         (rows : list Row) : bool :=
  match rows with
  | [] => true
  | row :: rest =>
      let t := JS.text (nth_error row tIdx) in
      (JS.trim t =? t)
      && (if t =? ""
          then (negb seen
                || (negb (nonBlank (JS.at_ row sIdx))
                    && negb (nonBlank (JS.at_ row pIdx))
                    && negb (nonBlank (JS.at_ row stIdx))))
               && regularRows tIdx sIdx pIdx stIdx seen rest
          else (let p := JS.text (JS.at_ row pIdx) in
                negb (JS.includes p JS.sLF) && ((p =? "") || negb (JS.trim p =? "")))
               && regularRows tIdx sIdx pIdx stIdx true rest)
  end.

Definition regularSheet (s : Sheet) : bool :=
  let headers := cleanHeaders (hd [] (jsonData s)) in
  match ExcelImport.topicIndex headers with
  | Some tIdx =>
      regularRows tIdx (ExcelImport.subTopicsIndex headers)
                  (ExcelImport.projectIndex headers) (ExcelImport.statusIndex headers)
                  false (tl (jsonData s))
  | None => true
  end.

(** Two records of a topic that hold the same: the topic, the names of
    the subtopics and of the projects as sets, the status. *)
Definition alike (x y : RoadmapItem) : Prop :=
  topic x = topic y
  /\ (forall n, In n (map name (subTopics x)) <-> In n (map name (subTopics y)))
  /\ (forall n, In n (map name (projects x)) <-> In n (map name (projects y)))
  /\ completionStatus x = completionStatus y.

Definition alikeMaps (m1 m2 : JSMap.t RoadmapItem) : Prop :=
  JSMap.keys m1 = JSMap.keys m2
  /\ forall k, match JSMap.get m1 k, JSMap.get m2 k with
               | Some x, Some y => alike x y
               | None, None => True
               | _, _ => False
               end.

(** The loop state of the import and the map of the upload go together. *)
Definition inStep (seen : bool) (st : ExcelImport.Loop) (m2 : JSMap.t RoadmapItem) : Prop :=
  alikeMaps (ExcelImport.topicMap st) m2
  /\ goodCursor st
  /\ (seen = false -> ExcelImport.currentTopic st = None).

(** A workbook as the reader returns it: a number as topic, a row that
    is blank, a row before the first topic, a token that comes twice, and
    a sheet that both paths skip. *)
Definition mixedSheet : RawSheet :=
  mkRawSheet "React"
    [ [CText "Topic"; CText "Sub-Topics"; CText "Projects"; CText "Status"];
      [CText ""; CText "stray"; CText ""; CText "Done"];
      [CText "Hooks"; CText ("useState" ++ JS.sLF ++ "useState"); CText "Counter, App";
       CText "In Progress"];
      [CNumber "0"; CText ""; CBoolean false; CText " "];
      [CNumber "2024"; CText "Routes"; CText ""; CBoolean true];
      [CText "Hooks"; CText "useMemo"; CText "Todo App"; CText "Done"] ].

Definition mixedWorkbook : list RawSheet :=
  [ mixedSheet; mkRawSheet "README" [ [CText "Topic"]; [CText "x"]; [CText "y"] ] ].

(** The sheet with a sparse topic column, as the reader returns it. *)
Definition carryRaw : RawSheet :=
  mkRawSheet "React"
    [ [CText "Topic"; CText "Sub-Topics"; CText "Projects"; CText "Status"];
      [CText "Hooks"; CText "useState"; CText "Counter App"; CText "In Progress"];
      [CText ""; CText "useEffect"; CText ""; CText ""] ].

(** * Properties *)

(** ** The status normalizer *)

(** C5: the status normalizer equals the reference function of the
    specification on every input (a string, or an absent value); in
    particular "Partially complete" normalizes to "Completed", and the
    empty and the absent input to "Yet to Start". *)
Theorem normalizeStatus_reference :
  (forall input, normalizeStatus input = normalize_reference input)
  /\ normalizeStatus (Some "Partially complete") = Completed
  /\ normalizeStatus (Some "") = YetToStart
  /\ normalizeStatus None = YetToStart.
Proof.
  split; [| repeat split; reflexivity].
  intros [s |]; [| reflexivity].
  unfold normalizeStatus, normalize_reference.
  destruct s as [| c r]; [reflexivity |].
  cbn [JS.truthyO JS.truthy JS.text String.eqb negb existsb].
  now rewrite !orb_false_r, !orb_assoc.
Qed.

(** ** Column resolution in the import path *)

Lemma findIndex_Some {A : Type} (p : A -> bool) (l : list A) (i : nat) :
  JS.findIndex p l = Some i <->
  (exists x, nth_error l i = Some x /\ p x = true)
  /\ (forall j y, j < i -> nth_error l j = Some y -> p y = false).
Proof.
  revert i; induction l as [| a l IH]; intros i; simpl.
  - split; [discriminate |].
    intros [[x [H _]] _]. destruct i; discriminate.
  - destruct (p a) eqn:Pa.
    + split.
      * intros E; injection E as <-. split; [exists a; auto |]. intros j y Hj; lia.
      * intros [[x [Hx Px]] Hmin]. destruct i as [| i]; [reflexivity |].
        specialize (Hmin 0 a (Nat.lt_0_succ i) eq_refl). congruence.
    + destruct (JS.findIndex p l) as [k |] eqn:F; simpl.
      * split.
        -- intros E; injection E as <-.
           destruct (proj1 (IH k) eq_refl) as [Hx Hmin].
           split; [exact Hx |].
           intros [| j] y Hj Hy; simpl in Hy; [congruence |].
           apply (Hmin j y); [lia | exact Hy].
        -- intros [[x [Hx Px]] Hmin].
           destruct i as [| i]; simpl in Hx; [congruence |].
           f_equal. symmetry.
           assert (E : Some k = Some i); [| congruence].
           apply IH. split; [exists x; auto |].
           intros j y Hj Hy. apply (Hmin (S j) y); [lia | exact Hy].
      * split; [discriminate |].
        intros [[x [Hx Px]] Hmin].
        destruct i as [| i]; simpl in Hx; [congruence |].
        assert (E : None = Some i); [| discriminate].
        apply IH. split; [exists x; auto |].
        intros j y Hj Hy. apply (Hmin (S j) y); [lia | exact Hy].
Qed.

Lemma findIndex_None {A : Type} (p : A -> bool) (l : list A) :
  JS.findIndex p l = None <-> (forall x, In x l -> p x = false).
Proof.
  induction l as [| a l IH]; simpl.
  - split; [intros _ x [] | reflexivity].
  - destruct (p a) eqn:Pa.
    + split; [discriminate |]. intros H. specialize (H a (or_introl eq_refl)). congruence.
    + destruct (JS.findIndex p l) as [k |]; simpl.
      * split; [discriminate |]. intros H.
        assert (E : Some k = None); [| discriminate].
        apply IH. intros x Hx. apply H. now right.
      * split; [| reflexivity]. intros _ x [<- | Hx]; [exact Pa |].
        now apply (proj1 IH).
Qed.

(** C6, as the code has it: in the import path the topic column is the
    first header, from the left, whose lower-cased text contains "topic"
    and does not contain "sub" ("technology" is not a synonym in this
    path); a header such as "Sub-Topics" is never selected; and a sheet
    with data none of whose headers qualifies is skipped for its missing
    topic column. *)
Theorem import_topic_column (fileBase : string) (s : Sheet) :
  let headers := cleanHeaders (hd [] (jsonData s)) in
  (forall i, ExcelImport.topicIndex headers = Some i <->
             (exists h, nth_error headers i = Some h /\ isTopicHeader h = true)
             /\ (forall j h, j < i -> nth_error headers j = Some h -> isTopicHeader h = false))
  /\ (forall i h, ExcelImport.topicIndex headers = Some i ->
                  nth_error headers i = Some h ->
                  JS.includes (JS.toLowerCase h) "sub" = false /\ h <> "Sub-Topics")
  /\ (skippedByName (sheetName s) = false ->
      2 <= length (jsonData s) ->
      (forall h, In h headers -> isTopicHeader h = false) ->
      ExcelImport.processSheet fileBase s = ExcelImport.SkippedMissingTopicColumn).
Proof.
  intros headers. split; [| split].
  - intros i. apply findIndex_Some.
  - intros i h Hi Hh.
    apply findIndex_Some in Hi. destruct Hi as [[x [Hx Px]] _].
    rewrite Hh in Hx. injection Hx as <-.
    apply andb_true_iff in Px. destruct Px as [_ Px].
    apply negb_true_iff in Px. split; [exact Px |].
    intros ->. discriminate Px.
  - intros Hname Hlen Hnone.
    unfold ExcelImport.processSheet. rewrite Hname.
    destruct (length (jsonData s) <=? 1)%nat eqn:L.
    + apply Nat.leb_le in L. lia.
    + fold headers.
      assert (E : ExcelImport.topicIndex headers = None)
        by (apply findIndex_None; exact Hnone).
      now rewrite E.
Qed.

Lemma import_topic_column_witness :
  ExcelImport.topicIndex (cleanHeaders (hd [] (jsonData reactSheet))) = Some 0
  /\ ExcelImport.processSheet "stacks.xlsx" technologySheet
     = ExcelImport.SkippedMissingTopicColumn.
Proof.
  split.
  - apply (proj1 (import_topic_column "stacks.xlsx" reactSheet) 0).
    split; [exists "Topic"; split; reflexivity |].
    intros j h Hj; lia.
  - apply (proj2 (proj2 (import_topic_column "stacks.xlsx" technologySheet))).
    + reflexivity.
    + simpl; lia.
    + intros h [<- | [<- | []]]; reflexivity.
Defined.

(** C6, as stated, fails: a sheet whose topic header is "Technology" has
    a topic column by the stated rule, and none in the import path, which
    skips the sheet. *)
Lemma import_topic_column_technology :
  topicIndex_reference (cleanHeaders (hd [] (jsonData technologySheet))) = Some 0
  /\ ExcelImport.topicIndex (cleanHeaders (hd [] (jsonData technologySheet))) = None
  /\ ExcelImport.processSheet "stacks.xlsx" technologySheet
     = ExcelImport.SkippedMissingTopicColumn.
Proof.
  repeat split; reflexivity.
Qed.

(** ** Sheets without data *)

Lemma import_skips_no_data_iff (fileBase : string) (s : Sheet) :
  skippedByName (sheetName s) = false ->
  (ExcelImport.processSheet fileBase s = ExcelImport.SkippedNoData
   <-> length (jsonData s) < 2).
Proof.
  intros Hname. unfold ExcelImport.processSheet. rewrite Hname.
  destruct (length (jsonData s) <=? 1)%nat eqn:L.
  - apply Nat.leb_le in L. split; [lia | reflexivity].
  - apply Nat.leb_gt in L. split; [| lia].
    destruct (ExcelImport.topicIndex _); [| discriminate].
    destruct (length _ =? 0)%nat; discriminate.
Qed.

(** C7, where the converter departs from it: every sheet that consists
    of a header row and exactly one data row is skipped by the converter
    for insufficient data, because the test is on the last row index
    being below 2. *)
Theorem convert_skips_header_plus_one_row (s : Sheet) :
  skippedByName (sheetName s) = false ->
  length (jsonData s) = 2 ->
  Converter.convertSheet s = Converter.SkippedInsufficientData.
Proof.
  intros Hname Hlen. unfold Converter.convertSheet, range_e_r.
  unfold jsonData in Hlen. now rewrite Hname, Hlen.
Qed.

Lemma convert_skips_header_plus_one_row_witness :
  Converter.convertSheet reactSheet = Converter.SkippedInsufficientData
  /\ exists d, ExcelImport.processSheet "stacks.xlsx" reactSheet = ExcelImport.Imported d.
Proof.
  split.
  - apply (convert_skips_header_plus_one_row reactSheet); reflexivity.
  - eexists; reflexivity.
Defined.

(** ** Project cells and topic keys at concrete inputs *)

(** C2, where the import path departs from it: a projects cell with two
    lines becomes one project whose name is the whole cell; and in the
    upload path the first row of a topic keeps a repeated token twice. *)
Theorem projects_cell_not_split_on_import :
  importedItems "stacks.xlsx" twoProjectsSheet
  = Some [mkItem "Hooks" [] [mkEntry ("App A" ++ JS.sLF ++ "App B")] YetToStart]
  /\ BulkUpload.buildTechStackData (BulkUpload.parse repeatedTokenCsv) "React" ""
     = inr (mkData "React" ""
              (mkHeaders "Topic" "Sub-Topics" "Projects" "Status")
              [mkItem "Hooks" [mkEntry "useState"; mkEntry "useState"]
                      [mkEntry "App"; mkEntry "App"] YetToStart]).
Proof.
  split; reflexivity.
Qed.

(** C8, where the upload path departs from it: two rows whose topic
    cells differ in a trailing space give two records there, with the
    cell texts as topics, and one record in the import path. *)
Theorem padded_topics_two_records_on_upload :
  (exists d, BulkUpload.buildTechStackData (BulkUpload.parse paddedTopicCsv) "React" "" = inr d
             /\ map topic (d_roadmapItems d) = ["Hooks"; "Hooks "])
  /\ option_map (map topic) (importedItems "stacks.xlsx" paddedTopicSheet) = Some ["Hooks"]
  /\ option_map (map topic) (convertedThenUploadedItems paddedTopicSheet)
     = Some ["Hooks"; "Hooks "].
Proof.
  split; [eexists; split; reflexivity | split; reflexivity].
Qed.

(** ** Maps in insertion order *)

Lemma get_set {V : Type} (m : JSMap.t V) (k q : string) (v : V) :
  JSMap.get (JSMap.set m k v) q = if k =? q then Some v else JSMap.get m q.
Proof.
  induction m as [| [k' v'] m IH]; simpl.
  - destruct (String.eqb_spec k q); reflexivity.
  - destruct (String.eqb_spec k' k) as [-> | Hk]; simpl.
    + destruct (String.eqb_spec k q); reflexivity.
    + destruct (String.eqb_spec k' q) as [-> | Hq].
      * destruct (String.eqb_spec k q); [congruence | reflexivity].
      * exact IH.
Qed.

Lemma keys_set {V : Type} (m : JSMap.t V) (k : string) (v : V) :
  JSMap.keys (JSMap.set m k v) = pushKey (JSMap.keys m) k.
Proof.
  unfold pushKey. induction m as [| [k' v'] m IH]; simpl; [reflexivity |].
  destruct (k' =? k); simpl; [reflexivity |].
  rewrite IH. now destruct (existsb _ (JSMap.keys m)).
Qed.

Lemma has_keys {V : Type} (m : JSMap.t V) (k : string) :
  JSMap.has m k = existsb (fun x => x =? k) (JSMap.keys m).
Proof.
  unfold JSMap.has, JSMap.keys. induction m as [| [k' v'] m IH]; simpl; congruence.
Qed.

Lemma get_has {V : Type} (m : JSMap.t V) (k : string) :
  JSMap.has m k = match JSMap.get m k with Some _ => true | None => false end.
Proof.
  unfold JSMap.has. induction m as [| [k' v'] m IH]; simpl; [reflexivity |].
  now destruct (k' =? k).
Qed.

Lemma keys_set_present {V : Type} (m : JSMap.t V) (k : string) (v v' : V) :
  JSMap.get m k = Some v -> JSMap.keys (JSMap.set m k v') = JSMap.keys m.
Proof.
  intros G. rewrite keys_set. unfold pushKey.
  now rewrite <- has_keys, get_has, G.
Qed.

Lemma set_set {V : Type} (m : JSMap.t V) (k : string) (v v' : V) :
  JSMap.set (JSMap.set m k v) k v' = JSMap.set m k v'.
Proof.
  induction m as [| [k' w] m IH]; simpl.
  - now rewrite String.eqb_refl.
  - destruct (k' =? k) eqn:E; simpl; rewrite E; [reflexivity | now rewrite IH].
Qed.

Lemma existsb_eqb_In (l : list string) (k : string) :
  existsb (fun x => x =? k) l = true <-> In k l.
Proof.
  rewrite existsb_exists. split.
  - intros [x [Hx E]]. apply String.eqb_eq in E. now subst.
  - intros H. exists k. split; [exact H | apply String.eqb_refl].
Qed.

Lemma NoDup_pushKey (l : list string) (k : string) :
  NoDup l -> NoDup (pushKey l k).
Proof.
  intros H. unfold pushKey.
  destruct (existsb (fun x => x =? k) l) eqn:E; [exact H |].
  apply NoDup_app; [exact H | repeat constructor; auto | ].
  intros x Hx [<- | []].
  apply existsb_eqb_In in Hx. congruence.
Qed.

Lemma NoDup_fold_pushKey (ks l : list string) :
  NoDup l -> NoDup (fold_left pushKey ks l).
Proof.
  revert l; induction ks as [| k ks IH]; intros l H; simpl; [exact H |].
  apply IH, NoDup_pushKey, H.
Qed.

Lemma keyed_set (m : JSMap.t RoadmapItem) (k : string) (v : RoadmapItem) :
  keyed m -> topic v = k -> keyed (JSMap.set m k v).
Proof.
  unfold keyed. intros H Hv. induction H as [| [k' v'] m Hk Hm IH]; simpl.
  - now repeat constructor.
  - destruct (String.eqb_spec k' k) as [-> | Hne]; constructor; auto.
Qed.

Lemma keyed_get (m : JSMap.t RoadmapItem) (k : string) (v : RoadmapItem) :
  keyed m -> JSMap.get m k = Some v -> topic v = k.
Proof.
  unfold keyed. intros H. induction H as [| [k' v'] m Hk Hm IH]; simpl; [discriminate |].
  destruct (String.eqb_spec k' k) as [-> | Hne]; [| exact IH].
  intros E; injection E as <-. exact Hk.
Qed.

Lemma keyed_topics (m : JSMap.t RoadmapItem) :
  keyed m -> map topic (JSMap.values m) = JSMap.keys m.
Proof.
  unfold keyed, JSMap.values, JSMap.keys. intros H.
  induction H as [| [k v] m Hk Hm IH]; simpl; [reflexivity |].
  simpl in Hk. now rewrite Hk, IH.
Qed.

(** ** The aggregation loops: keys *)

Section ImportRows.
Variable tIdx : nat.
Variables sIdx pIdx stIdx : option nat.

Lemma import_update_topic (row : Row) (o : RoadmapItem) :
  topic (ExcelImport.updateTopic sIdx pIdx stIdx row o) = topic o.
Proof.
  unfold ExcelImport.updateTopic, ExcelImport.updateStatus,
    ExcelImport.addProject, ExcelImport.addSubTopics.
  repeat match goal with |- context [if ?b then _ else _] => destruct b end;
    reflexivity.
Qed.

Lemma import_update_status (row : Row) (o : RoadmapItem) :
  completionStatus (ExcelImport.updateTopic sIdx pIdx stIdx row o)
  = if nonBlank (JS.at_ row stIdx)
    then mergeStatus (completionStatus o) (normalizeStatus (JS.at_ row stIdx))
    else completionStatus o.
Proof.
  unfold ExcelImport.updateTopic, ExcelImport.updateStatus,
    ExcelImport.addProject, ExcelImport.addSubTopics.
  repeat match goal with |- context [if ?b then _ else _] => destruct b end;
    reflexivity.
Qed.

Lemma enterTopic_keys (st : ExcelImport.Loop) (row : Row) :
  JSMap.keys (ExcelImport.topicMap (ExcelImport.enterTopic tIdx stIdx st row))
  = fold_left pushKey (importKey tIdx row) (JSMap.keys (ExcelImport.topicMap st)).
Proof.
  unfold ExcelImport.enterTopic, importKey.
  destruct (nonBlank (nth_error row tIdx)); simpl; [| reflexivity].
  rewrite has_keys.
  destruct (existsb _ (JSMap.keys (ExcelImport.topicMap st))) eqn:E; simpl.
  - unfold pushKey. now rewrite E.
  - apply keys_set.
Qed.

Lemma enterTopic_keyed (st : ExcelImport.Loop) (row : Row) :
  keyed (ExcelImport.topicMap st) ->
  keyed (ExcelImport.topicMap (ExcelImport.enterTopic tIdx stIdx st row)).
Proof.
  intros H. unfold ExcelImport.enterTopic.
  destruct (nonBlank (nth_error row tIdx)); simpl; [| exact H].
  destruct (negb _); [| exact H].
  now apply keyed_set.
Qed.

Lemma import_rowStep_keys (st : ExcelImport.Loop) (row : Row) :
  JSMap.keys (ExcelImport.topicMap (ExcelImport.rowStep tIdx sIdx pIdx stIdx st row))
  = fold_left pushKey (importKey tIdx row) (JSMap.keys (ExcelImport.topicMap st)).
Proof.
  rewrite <- enterTopic_keys. unfold ExcelImport.rowStep.
  set (st1 := ExcelImport.enterTopic tIdx stIdx st row).
  destruct (negb (JS.truthyO (ExcelImport.currentTopic st1))); [reflexivity |].
  destruct (JSMap.get _ _) as [o |] eqn:G; [| reflexivity].
  simpl. now apply keys_set_present with (v := o).
Qed.

Lemma import_rowStep_keyed (st : ExcelImport.Loop) (row : Row) :
  keyed (ExcelImport.topicMap st) ->
  keyed (ExcelImport.topicMap (ExcelImport.rowStep tIdx sIdx pIdx stIdx st row)).
Proof.
  intros H. apply (enterTopic_keyed st row) in H. unfold ExcelImport.rowStep.
  set (st1 := ExcelImport.enterTopic tIdx stIdx st row) in *.
  destruct (negb (JS.truthyO (ExcelImport.currentTopic st1))); [exact H |].
  destruct (JSMap.get _ _) as [o |] eqn:G; [| exact H].
  simpl. apply keyed_set; [exact H |].
  rewrite import_update_topic.
  now apply keyed_get with (m := ExcelImport.topicMap st1).
Qed.

Lemma import_runRows_keys (rows : list Row) (st : ExcelImport.Loop) :
  JSMap.keys (ExcelImport.topicMap (ExcelImport.runRows tIdx sIdx pIdx stIdx st rows))
  = fold_left pushKey (flat_map (importKey tIdx) rows)
              (JSMap.keys (ExcelImport.topicMap st)).
Proof.
  unfold ExcelImport.runRows. revert st.
  induction rows as [| row rows IH]; intros st; simpl; [reflexivity |].
  now rewrite IH, import_rowStep_keys, fold_left_app.
Qed.

Lemma import_runRows_keyed (rows : list Row) (st : ExcelImport.Loop) :
  keyed (ExcelImport.topicMap st) ->
  keyed (ExcelImport.topicMap (ExcelImport.runRows tIdx sIdx pIdx stIdx st rows)).
Proof.
  unfold ExcelImport.runRows. revert st.
  induction rows as [| row rows IH]; intros st H; simpl; [exact H |].
  apply IH, import_rowStep_keyed, H.
Qed.

Lemma import_aggregate_topics (rows : list Row) :
  map topic (ExcelImport.aggregate tIdx sIdx pIdx stIdx rows)
  = firstOccurrences (flat_map (importKey tIdx) rows).
Proof.
  unfold ExcelImport.aggregate.
  rewrite keyed_topics by (apply import_runRows_keyed; constructor).
  apply import_runRows_keys.
Qed.
End ImportRows.

Section UploadRows.
Variable hm : BulkUpload.HeaderMapping.

Lemma upload_rowStep_keys (m : JSMap.t RoadmapItem) (row : BulkUpload.Obj) :
  JSMap.keys (BulkUpload.rowStep hm m row)
  = fold_left pushKey (csvKey hm row) (JSMap.keys m).
Proof.
  unfold BulkUpload.rowStep, csvKey.
  destruct (JS.truthyO _); simpl; [| reflexivity].
  destruct (JSMap.get m _); apply keys_set.
Qed.

Lemma upload_rowStep_keyed (m : JSMap.t RoadmapItem) (row : BulkUpload.Obj) :
  keyed m -> keyed (BulkUpload.rowStep hm m row).
Proof.
  intros H. unfold BulkUpload.rowStep.
  destruct (JS.truthyO _); simpl; [| exact H].
  destruct (JSMap.get m _) as [e |] eqn:G; apply keyed_set; auto.
  simpl. now apply keyed_get with (m := m).
Qed.

Lemma upload_fold_keys (data : list BulkUpload.Obj) (m : JSMap.t RoadmapItem) :
  JSMap.keys (fold_left (BulkUpload.rowStep hm) data m)
  = fold_left pushKey (flat_map (csvKey hm) data) (JSMap.keys m).
Proof.
  revert m. induction data as [| row data IH]; intros m; simpl; [reflexivity |].
  now rewrite IH, upload_rowStep_keys, fold_left_app.
Qed.

Lemma upload_fold_keyed (data : list BulkUpload.Obj) (m : JSMap.t RoadmapItem) :
  keyed m -> keyed (fold_left (BulkUpload.rowStep hm) data m).
Proof.
  revert m. induction data as [| row data IH]; intros m H; simpl; [exact H |].
  apply IH, upload_rowStep_keyed, H.
Qed.

Lemma upload_aggregate_topics (data : list BulkUpload.Obj) :
  map topic (BulkUpload.aggregate hm data)
  = firstOccurrences (flat_map (csvKey hm) data).
Proof.
  unfold BulkUpload.aggregate.
  rewrite keyed_topics by (apply upload_fold_keyed; constructor).
  apply upload_fold_keys.
Qed.
End UploadRows.

Lemma NoDup_firstOccurrences (l : list string) : NoDup (firstOccurrences l).
Proof.
  apply NoDup_fold_pushKey. constructor.
Qed.

(** ** Status merging *)

Lemma rank_mergeStatus (current status : Status) :
  rank current <= rank (mergeStatus current status).
Proof.
  destruct current, status; simpl; lia.
Qed.

Lemma rank_Completed (s : Status) : 2 <= rank s -> s = Completed.
Proof.
  destruct s; simpl; intros; [lia | lia | reflexivity].
Qed.

Section ImportStatus.
Variable tIdx : nat.
Variables sIdx pIdx stIdx : option nat.

Lemma enterTopic_get (st : ExcelImport.Loop) (row : Row) (k : string) (it : RoadmapItem) :
  JSMap.get (ExcelImport.topicMap st) k = Some it ->
  JSMap.get (ExcelImport.topicMap (ExcelImport.enterTopic tIdx stIdx st row)) k = Some it.
Proof.
  intros G. unfold ExcelImport.enterTopic.
  destruct (nonBlank (nth_error row tIdx)); simpl; [| exact G].
  destruct (JSMap.has _ _) eqn:Hh; simpl; [exact G |].
  rewrite get_set.
  destruct (String.eqb_spec (JS.trim (JS.text (nth_error row tIdx))) k) as [E | _];
    [| exact G].
  rewrite get_has, E, G in Hh. discriminate.
Qed.

Lemma import_rowStep_status (st : ExcelImport.Loop) (row : Row) (k : string)
      (it : RoadmapItem) :
  JSMap.get (ExcelImport.topicMap st) k = Some it ->
  exists it',
    JSMap.get (ExcelImport.topicMap (ExcelImport.rowStep tIdx sIdx pIdx stIdx st row)) k
    = Some it'
    /\ rank (completionStatus it) <= rank (completionStatus it').
Proof.
  intros G. apply (enterTopic_get st row) in G. unfold ExcelImport.rowStep.
  set (st1 := ExcelImport.enterTopic tIdx stIdx st row) in *.
  destruct (negb (JS.truthyO (ExcelImport.currentTopic st1)));
    [exists it; split; [exact G | lia] |].
  destruct (JSMap.get _ (JS.text _)) as [o |] eqn:Go;
    [| exists it; split; [exact G | lia]].
  simpl. rewrite get_set.
  destruct (String.eqb_spec (JS.text (ExcelImport.currentTopic st1)) k) as [E | _];
    [| exists it; split; [exact G | lia]].
  rewrite E, G in Go. injection Go as <-.
  eexists; split; [reflexivity |].
  rewrite import_update_status.
  destruct (nonBlank _); [apply rank_mergeStatus | lia].
Qed.

Lemma import_runRows_status (rows : list Row) (st : ExcelImport.Loop) (k : string)
      (it : RoadmapItem) :
  JSMap.get (ExcelImport.topicMap st) k = Some it ->
  exists it',
    JSMap.get (ExcelImport.topicMap (ExcelImport.runRows tIdx sIdx pIdx stIdx st rows)) k
    = Some it'
    /\ rank (completionStatus it) <= rank (completionStatus it').
Proof.
  unfold ExcelImport.runRows. revert st it.
  induction rows as [| row rows IH]; intros st it G; simpl.
  - exists it; split; [exact G | lia].
  - destruct (import_rowStep_status st row k it G) as [it1 [G1 R1]].
    destruct (IH _ it1 G1) as [it2 [G2 R2]].
    exists it2; split; [exact G2 | lia].
Qed.
End ImportStatus.

Section UploadStatus.
Variable hm : BulkUpload.HeaderMapping.

Lemma upload_rowStep_status (m : JSMap.t RoadmapItem) (row : BulkUpload.Obj)
      (k : string) (it : RoadmapItem) :
  JSMap.get m k = Some it ->
  exists it',
    JSMap.get (BulkUpload.rowStep hm m row) k = Some it'
    /\ rank (completionStatus it) <= rank (completionStatus it').
Proof.
  intros G. unfold BulkUpload.rowStep.
  destruct (negb _); [exists it; split; [exact G | lia] |].
  destruct (JSMap.get m (JS.text _)) as [e |] eqn:Ge; rewrite get_set;
    destruct (String.eqb_spec (JS.text (BulkUpload.cell row (BulkUpload.m_topic hm))) k)
      as [E | _];
    try (exists it; split; [exact G | lia]).
  - rewrite E, G in Ge. injection Ge as <-.
    eexists; split; [reflexivity |]. simpl. apply rank_mergeStatus.
  - rewrite E, G in Ge. discriminate.
Qed.

Lemma upload_fold_status (data : list BulkUpload.Obj) (m : JSMap.t RoadmapItem)
      (k : string) (it : RoadmapItem) :
  JSMap.get m k = Some it ->
  exists it',
    JSMap.get (fold_left (BulkUpload.rowStep hm) data m) k = Some it'
    /\ rank (completionStatus it) <= rank (completionStatus it').
Proof.
  revert m it. induction data as [| row data IH]; intros m it G; simpl.
  - exists it; split; [exact G | lia].
  - destruct (upload_rowStep_status m row k it G) as [it1 [G1 R1]].
    destruct (IH _ it1 G1) as [it2 [G2 R2]].
    exists it2; split; [exact G2 | lia].
Qed.
End UploadStatus.

(** C4: status merging is monotone in the priority order.  In both
    ingestion paths, whatever rows follow, the record of a topic stays in
    the map and its status does not go down in rank; so a "Completed"
    status stays "Completed", and a status above "Yet to Start" stays
    above it.  Merging a "Yet to Start" signal changes nothing. *)
Theorem status_merge_monotone :
  (forall current, mergeStatus current YetToStart = current)
  /\ (forall tIdx sIdx pIdx stIdx st rows k it,
         JSMap.get (ExcelImport.topicMap st) k = Some it ->
         exists it',
           JSMap.get (ExcelImport.topicMap
                        (ExcelImport.runRows tIdx sIdx pIdx stIdx st rows)) k = Some it'
           /\ rank (completionStatus it) <= rank (completionStatus it')
           /\ (completionStatus it = Completed -> completionStatus it' = Completed)
           /\ (completionStatus it = InProgress -> completionStatus it' <> YetToStart))
  /\ (forall hm m data k it,
         JSMap.get m k = Some it ->
         exists it',
           JSMap.get (fold_left (BulkUpload.rowStep hm) data m) k = Some it'
           /\ rank (completionStatus it) <= rank (completionStatus it')
           /\ (completionStatus it = Completed -> completionStatus it' = Completed)
           /\ (completionStatus it = InProgress -> completionStatus it' <> YetToStart)).
Proof.
  split; [intros []; reflexivity |].
  split.
  - intros tIdx sIdx pIdx stIdx st rows k it G.
    destruct (import_runRows_status tIdx sIdx pIdx stIdx rows st k it G) as [it' [G' R]].
    exists it'. repeat split; auto.
    + intros E. rewrite E in R. now apply rank_Completed.
    + intros E E'. rewrite E, E' in R. simpl in R. lia.
  - intros hm m data k it G.
    destruct (upload_fold_status hm data m k it G) as [it' [G' R]].
    exists it'. repeat split; auto.
    + intros E. rewrite E in R. now apply rank_Completed.
    + intros E E'. rewrite E, E' in R. simpl in R. lia.
Qed.

(** A map in which "Hooks" is completed, and rows that report it as in
    progress and as not started. *)
Lemma status_merge_monotone_witness :
  exists it',
    JSMap.get (ExcelImport.topicMap
                 (ExcelImport.runRows 0 (Some 1) (Some 2) (Some 3)
                    (ExcelImport.mkLoop [("Hooks", mkItem "Hooks" [] [] Completed)] None)
                    [["Hooks"; ""; ""; "In Progress"]; [""; ""; ""; "Yet to Start"]]))
              "Hooks" = Some it'
    /\ completionStatus it' = Completed.
Proof.
  destruct (proj1 (proj2 status_merge_monotone) 0 (Some 1) (Some 2) (Some 3)
              (ExcelImport.mkLoop [("Hooks", mkItem "Hooks" [] [] Completed)] None)
              [["Hooks"; ""; ""; "In Progress"]; [""; ""; ""; "Yet to Start"]]
              "Hooks" (mkItem "Hooks" [] [] Completed) eq_refl)
    as [it' [G [_ [C _]]]].
  exists it'. split; [exact G | exact (C eq_refl)].
Defined.

(** ** Strings: blank texts and line breaks *)

Lemma trimEnd_allSpace (s : string) : allSpace s = true -> JS.trimEnd s = "".
Proof.
  induction s as [| c r IH]; simpl; [reflexivity |].
  intros H. apply andb_true_iff in H. destruct H as [Hc Hr].
  now rewrite (IH Hr), Hc.
Qed.

Lemma trimEnd_empty (s : string) : JS.trimEnd s = "" -> allSpace s = true.
Proof.
  induction s as [| c r IH]; simpl; [reflexivity |].
  destruct (JS.trimEnd r); [| discriminate].
  destruct (JS.isSpace c); [| discriminate].
  intros _. now rewrite IH.
Qed.

Lemma trimStart_allSpace (s : string) : allSpace s = true -> JS.trimStart s = "".
Proof.
  induction s as [| c r IH]; simpl; [reflexivity |].
  intros H. apply andb_true_iff in H. destruct H as [Hc Hr].
  rewrite Hc. exact (IH Hr).
Qed.

Lemma allSpace_trimStart (s : string) :
  allSpace (JS.trimStart s) = true -> allSpace s = true.
Proof.
  induction s as [| c r IH]; simpl; [reflexivity |].
  destruct (JS.isSpace c) eqn:Hc; simpl.
  - exact IH.
  - now rewrite Hc.
Qed.

Lemma trim_empty_iff (s : string) : JS.trim s = "" <-> allSpace s = true.
Proof.
  unfold JS.trim. split.
  - intros H. apply allSpace_trimStart, trimEnd_empty, H.
  - intros H. now rewrite (trimStart_allSpace s H).
Qed.

Lemma splitLines_allSpace (s : string) :
  allSpace s = true -> Forall (fun t => allSpace t = true) (JS.splitLines s).
Proof.
  induction s as [| c r IH]; simpl; [repeat constructor |].
  intros H. apply andb_true_iff in H. destruct H as [Hc Hr].
  specialize (IH Hr).
  destruct (Ascii.eqb c JS.LF); [constructor; [reflexivity | exact IH] |].
  destruct (Ascii.eqb c JS.CR && JS.startsWithLF r); [exact IH |].
  destruct (JS.splitLines r) as [| t ts].
  - repeat constructor. simpl. now rewrite Hc.
  - inversion IH; subst. constructor; [simpl; now rewrite Hc | assumption].
Qed.

Lemma splitTokens_blank (s : string) : JS.trim s = "" -> splitTokens s = [].
Proof.
  intros H. apply trim_empty_iff, splitLines_allSpace in H.
  unfold splitTokens. induction H as [| t ts Ht Hts IH]; simpl; [reflexivity |].
  apply trim_empty_iff in Ht. now rewrite Ht.
Qed.

Lemma includes_LF_cons (c : ascii) (r : string) :
  JS.includes (String c r) JS.sLF = false ->
  Ascii.eqb c JS.LF = false /\ JS.includes r JS.sLF = false.
Proof.
  cbn [JS.includes]. intros H. apply orb_false_iff in H. destruct H as [Hp Hr].
  split; [| exact Hr].
  destruct (Ascii.eqb_spec c JS.LF) as [-> | ]; [| reflexivity].
  unfold JS.sLF in Hp. cbn [prefix] in Hp.
  destruct (ascii_dec JS.LF JS.LF) as [_ | N]; [| now elim N].
  destruct r; discriminate Hp.
Qed.

Lemma splitLines_no_LF (s : string) :
  JS.includes s JS.sLF = false -> JS.splitLines s = [s].
Proof.
  induction s as [| c r IH]; [reflexivity |].
  intros H. apply includes_LF_cons in H. destruct H as [Hc Hr].
  cbn [JS.splitLines]. rewrite Hc.
  assert (Hs : JS.startsWithLF r = false).
  { destruct r as [| c' r']; [reflexivity |].
    apply includes_LF_cons in Hr. exact (proj1 Hr). }
  rewrite Hs, andb_false_r, (IH Hr). reflexivity.
Qed.

Lemma splitTokens_single (s : string) :
  JS.includes s JS.sLF = false -> JS.trim s <> "" -> splitTokens s = [JS.trim s].
Proof.
  intros H Ht. unfold splitTokens. rewrite (splitLines_no_LF s H). simpl.
  unfold JS.nonEmpty. destruct (String.eqb_spec (JS.trim s) ""); [contradiction | reflexivity].
Qed.

Lemma isSpace_lowerChar (c : ascii) : JS.isSpace c = true -> JS.lowerChar c = c.
Proof.
  destruct c as [b0 b1 b2 b3 b4 b5 b6 b7].
  destruct b0, b1, b2, b3, b4, b5, b6, b7; intros H;
    first [discriminate H | reflexivity].
Qed.

Lemma allSpace_toLowerCase (s : string) : allSpace s = true -> JS.toLowerCase s = s.
Proof.
  induction s as [| c r IH]; simpl; [reflexivity |].
  intros H. apply andb_true_iff in H. destruct H as [Hc Hr].
  now rewrite (isSpace_lowerChar c Hc), (IH Hr).
Qed.

Lemma includes_allSpace (s : string) (c : ascii) (k : string) :
  allSpace s = true -> JS.isSpace c = false -> JS.includes s (String c k) = false.
Proof.
  intros Hs Hc. induction s as [| a r IH]; [reflexivity |].
  simpl in Hs. apply andb_true_iff in Hs. destruct Hs as [Ha Hr].
  cbn [JS.includes prefix]. rewrite (IH Hr), orb_false_r.
  destruct (ascii_dec c a) as [-> | ]; [congruence | reflexivity].
Qed.

Lemma normalizeStatus_blank (s : string) :
  JS.trim s = "" -> normalizeStatus (Some s) = YetToStart.
Proof.
  intros H. apply trim_empty_iff in H. unfold normalizeStatus.
  destruct (negb (JS.truthyO (Some s))); [reflexivity |].
  cbn [JS.text]. rewrite (allSpace_toLowerCase s H).
  now rewrite !(includes_allSpace s _ _ H) by reflexivity.
Qed.

Lemma normalizeStatus_statusText (x : Status) :
  normalizeStatus (Some (statusText x)) = x.
Proof.
  destruct x; reflexivity.
Qed.

Lemma normalizeStatus_text (v : option string) :
  normalizeStatus v = normalizeStatus (Some (JS.text v)).
Proof.
  destruct v; reflexivity.
Qed.

Lemma truthyO_text (v : option string) : JS.truthyO v = JS.truthy (JS.text v).
Proof.
  destruct v; reflexivity.
Qed.

Lemma orElse_empty (v : option string) : JS.orElse v "" = JS.text v.
Proof.
  unfold JS.orElse. rewrite truthyO_text. unfold JS.truthy.
  destruct (String.eqb_spec (JS.text v) "") as [-> | ]; reflexivity.
Qed.

Lemma cellOr_text (row : Row) (idx : option nat) :
  Converter.cellOr row idx = JS.text (JS.at_ row idx).
Proof.
  destruct idx; [apply orElse_empty | reflexivity].
Qed.

Lemma truthy_false (s : string) : JS.truthy s = false -> s = "".
Proof.
  unfold JS.truthy. destruct (String.eqb_spec s ""); [auto | discriminate].
Qed.

(** ** Appending entries that are absent *)

Lemma fold_push_names (toks : list string) (acc : list Entry) :
  fold_left (fun arr e => pushIfAbsent arr (name e)) (map mkEntry toks) acc
  = fold_left pushIfAbsent toks acc.
Proof.
  revert acc. induction toks as [| x toks IH]; intros acc; simpl; [reflexivity |].
  apply IH.
Qed.

Lemma someNamed_app (a b : list Entry) (x : string) :
  someNamed (a ++ b) x = someNamed a x || someNamed b x.
Proof.
  unfold someNamed. apply existsb_app.
Qed.

(** ** The round trip on sheets with a topic in every row *)

Lemma item_ext (x y : RoadmapItem) :
  topic x = topic y -> subTopics x = subTopics y -> projects x = projects y ->
  completionStatus x = completionStatus y -> x = y.
Proof.
  destruct x, y; simpl; congruence.
Qed.

Lemma nonBlank_text (v : option string) :
  nonBlank v = JS.truthy (JS.text v) && negb (JS.trim (JS.text v) =? "").
Proof.
  unfold nonBlank. now rewrite truthyO_text.
Qed.

Section RoundTrip.
Variable tIdx : nat.
Variables sIdx pIdx stIdx : option nat.

(** The header names of the converted file, distinct, as the upload
    script maps them. *)
Variables a b c d : string.
Hypothesis distinct : nodupb [a; b; c; d] = true.

Local Abbreviation hm := (BulkUpload.mkMapping (Some a) (Some b) (Some c) (Some d)).
Local Abbreviation converted := (convertedRow tIdx sIdx pIdx stIdx).
Local Abbreviation obj := (readBack a b c d tIdx sIdx pIdx stIdx).

Lemma distinct_names :
  (a =? b) = false /\ (a =? c) = false /\ (a =? d) = false
  /\ (b =? c) = false /\ (b =? d) = false /\ (c =? d) = false.
Proof.
  pose proof distinct as H. simpl in H.
  rewrite !orb_false_r in H.
  repeat (apply andb_true_iff in H; destruct H as [? H]).
  repeat match goal with
         | X : negb _ = true |- _ => apply negb_true_iff in X
         | X : _ || _ = false |- _ => apply orb_false_iff in X; destruct X
         end.
  repeat split; rewrite String.eqb_sym; assumption.
Qed.

Lemma buildObj_four (t s p x : string) :
  BulkUpload.buildObj [a; b; c; d] [t; s; p; x] = [(a, t); (b, s); (c, p); (d, x)].
Proof.
  destruct distinct_names as [ab [ac [ad [bc [bd cd]]]]].
  unfold BulkUpload.buildObj. simpl.
  rewrite ab. simpl. rewrite ac, bc. simpl. now rewrite ad, bd, cd.
Qed.

Lemma obj_cells (row : Row) :
  obj row = [ (a, JS.text (nth_error row tIdx)); (b, JS.text (JS.at_ row sIdx));
              (c, JS.text (JS.at_ row pIdx));
              (d, statusText (normalizeStatus (Some (JS.text (JS.at_ row stIdx))))) ].
Proof.
  apply buildObj_four.
Qed.

Lemma obj_topic (row : Row) :
  BulkUpload.cell (obj row) (BulkUpload.m_topic hm) = Some (JS.text (nth_error row tIdx)).
Proof.
  rewrite obj_cells. simpl. now rewrite String.eqb_refl.
Qed.

Lemma obj_subtopic (row : Row) :
  BulkUpload.cell (obj row) (BulkUpload.m_subtopic hm) = Some (JS.text (JS.at_ row sIdx)).
Proof.
  destruct distinct_names as [ab _].
  rewrite obj_cells. simpl. now rewrite ab, String.eqb_refl.
Qed.

Lemma obj_project (row : Row) :
  BulkUpload.cell (obj row) (BulkUpload.m_project hm) = Some (JS.text (JS.at_ row pIdx)).
Proof.
  destruct distinct_names as [_ [ac [_ [bc _]]]].
  rewrite obj_cells. simpl. now rewrite ac, bc, String.eqb_refl.
Qed.

Lemma obj_status (row : Row) :
  BulkUpload.cell (obj row) (BulkUpload.m_status hm)
  = Some (statusText (normalizeStatus (Some (JS.text (JS.at_ row stIdx))))).
Proof.
  destruct distinct_names as [_ [_ [ad [_ [bd cd]]]]].
  rewrite obj_cells. simpl. now rewrite ad, bd, cd, String.eqb_refl.
Qed.

Lemma convertRow_with_topic (row : Row) :
  JS.truthy (JS.text (nth_error row tIdx)) = true ->
  Converter.convertRow tIdx sIdx pIdx stIdx row = Some (converted row).
Proof.
  intros H. unfold Converter.convertRow, convertedRow.
  rewrite truthyO_text, H. simpl.
  rewrite orElse_empty, !cellOr_text.
  destruct stIdx; [now rewrite orElse_empty | reflexivity].
Qed.

Lemma upload_subTopicsOf (row : Row) :
  BulkUpload.subTopicsOf hm (obj row)
  = map mkEntry (splitTokens (JS.text (JS.at_ row sIdx))).
Proof.
  unfold BulkUpload.subTopicsOf. rewrite obj_subtopic. simpl.
  destruct (JS.truthy _) eqn:T; [reflexivity |].
  now rewrite (truthy_false _ T).
Qed.

Lemma upload_statusOf (row : Row) :
  BulkUpload.statusOf hm (obj row)
  = normalizeStatus (Some (JS.text (JS.at_ row stIdx))).
Proof.
  unfold BulkUpload.statusOf. rewrite obj_status.
  set (y := normalizeStatus (Some (JS.text (JS.at_ row stIdx)))).
  rewrite normalizeStatus_statusText. now destruct y.
Qed.

Lemma import_update_subTopics (row : Row) (e : RoadmapItem) :
  subTopics (ExcelImport.updateTopic sIdx pIdx stIdx row e)
  = fold_left pushIfAbsent (splitTokens (JS.text (JS.at_ row sIdx))) (subTopics e).
Proof.
  transitivity (subTopics (ExcelImport.addSubTopics sIdx row e)).
  { unfold ExcelImport.updateTopic, ExcelImport.updateStatus, ExcelImport.addProject.
    repeat match goal with |- context [if ?x then _ else _] => destruct x end;
      reflexivity. }
  unfold ExcelImport.addSubTopics. rewrite nonBlank_text.
  set (q := JS.text (JS.at_ row sIdx)).
  destruct (JS.truthy q) eqn:T; simpl.
  - destruct (String.eqb_spec (JS.trim q) "") as [B | NB]; simpl.
    + now rewrite (splitTokens_blank q B).
    + destruct (JS.includes q JS.sLF) eqn:L; simpl; [reflexivity |].
      rewrite (splitTokens_single q L NB).
      now destruct (JS.includes q JS.sCR).
  - now rewrite (truthy_false _ T).
Qed.

Lemma import_update_projects (row : Row) (e : RoadmapItem) :
  projects (ExcelImport.updateTopic sIdx pIdx stIdx row e)
  = if nonBlank (JS.at_ row pIdx)
    then pushIfAbsent (projects e) (JS.trim (JS.text (JS.at_ row pIdx)))
    else projects e.
Proof.
  unfold ExcelImport.updateTopic, ExcelImport.updateStatus, ExcelImport.addProject,
    ExcelImport.addSubTopics.
  repeat match goal with |- context [if ?x then _ else _] => destruct x end;
    reflexivity.
Qed.

Lemma import_status_merge (row : Row) (cur : Status) :
  (if nonBlank (JS.at_ row stIdx)
   then mergeStatus cur (normalizeStatus (JS.at_ row stIdx))
   else cur)
  = mergeStatus cur (normalizeStatus (Some (JS.text (JS.at_ row stIdx)))).
Proof.
  rewrite nonBlank_text, <- normalizeStatus_text.
  rewrite (normalizeStatus_text (JS.at_ row stIdx)).
  set (q := JS.text (JS.at_ row stIdx)).
  destruct (JS.truthy q) eqn:T; simpl.
  - destruct (String.eqb_spec (JS.trim q) "") as [B | NB]; simpl; [| reflexivity].
    rewrite (normalizeStatus_blank q B). now destruct cur.
  - rewrite (truthy_false _ T). now destruct cur.
Qed.

Lemma upload_projectsOf (row : Row) :
  plainProject pIdx row ->
  BulkUpload.projectsOf hm (obj row)
  = if nonBlank (JS.at_ row pIdx)
    then [mkEntry (JS.trim (JS.text (JS.at_ row pIdx)))]
    else [].
Proof.
  intros [L E]. unfold BulkUpload.projectsOf.
  rewrite obj_project, nonBlank_text. simpl. rewrite L.
  destruct E as [-> | NB]; [reflexivity |].
  destruct (String.eqb_spec (JS.trim (JS.text (JS.at_ row pIdx))) "");
    [contradiction |].
  destruct (JS.truthy _) eqn:T; [reflexivity |].
  apply truthy_false in T. rewrite T in NB. now elim NB.
Qed.

(** A row that repeats a topic: both loops change the record alike. *)
Lemma update_is_merge (row : Row) (e : RoadmapItem) :
  plainProject pIdx row ->
  ExcelImport.updateTopic sIdx pIdx stIdx row e = BulkUpload.mergeInto hm e (obj row).
Proof.
  intros P. apply item_ext; unfold BulkUpload.mergeInto; simpl.
  - apply import_update_topic.
  - now rewrite import_update_subTopics, upload_subTopicsOf, fold_push_names.
  - rewrite import_update_projects, (upload_projectsOf row P).
    now destruct (nonBlank _).
  - now rewrite import_update_status, upload_statusOf, import_status_merge.
Qed.

End RoundTrip.

Lemma optNat_eqb_eq (x y : option nat) : optNat_eqb x y = true -> x = y.
Proof.
  destruct x, y; simpl; try discriminate; auto.
  intros H. apply Nat.eqb_eq in H. now subst.
Qed.

Lemma optString_eqb_eq (x : option string) (y : string) :
  optString_eqb x y = true -> x = Some y.
Proof.
  destruct x; simpl; [| discriminate].
  intros H. apply String.eqb_eq in H. now subst.
Qed.

Lemma matchedHeader_truthy (headers alternatives : list string) (h : string) :
  BulkUpload.matchedHeader headers alternatives = Some h -> JS.truthy h = true.
Proof.
  unfold BulkUpload.matchedHeader.
  destruct (find _ headers) as [x |]; [| discriminate].
  destruct (JS.truthy x) eqn:T; [| discriminate].
  intros E; injection E as <-. exact T.
Qed.

Lemma fold_pushKey_length (ks acc : list string) :
  length acc <= length (fold_left pushKey ks acc).
Proof.
  revert acc. induction ks as [| k ks IH]; intros acc; simpl; [lia |].
  etransitivity; [| apply IH].
  unfold pushKey. destruct (existsb _ acc); [lia |].
  rewrite length_app. simpl. lia.
Qed.

Lemma memb_In (x : string) (l : list string) : In x l -> memb x l = true.
Proof.
  intros H. unfold memb. now apply existsb_eqb_In.
Qed.

Lemma sameSet_refl (l : list string) : sameSet l l = true.
Proof.
  unfold sameSet.
  assert (H : forallb (fun x => memb x l) l = true)
    by (apply forallb_forall; intros x Hx; now apply memb_In).
  now rewrite H.
Qed.

Lemma Status_eqb_refl (x : Status) : Status_eqb x x = true.
Proof.
  now destruct x.
Qed.


(** * Further properties of the scripts and the controller *)

(** ** Status: the merge is the join of the priority order *)

Lemma rank_mergeStatus_max (a b : Status) :
  rank (mergeStatus a b) = Nat.max (rank a) (rank b).
Proof.
  destruct a, b; reflexivity.
Qed.

Lemma rank_inj (a b : Status) : rank a = rank b -> a = b.
Proof.
  destruct a, b; simpl; intros H; try reflexivity; discriminate H.
Qed.

Lemma mergeStatus_comm (a b : Status) : mergeStatus a b = mergeStatus b a.
Proof.
  apply rank_inj. rewrite !rank_mergeStatus_max. apply Nat.max_comm.
Qed.

Lemma mergeStatus_assoc (a b c : Status) :
  mergeStatus (mergeStatus a b) c = mergeStatus a (mergeStatus b c).
Proof.
  apply rank_inj. rewrite !rank_mergeStatus_max. symmetry. apply Nat.max_assoc.
Qed.

Lemma fold_mergeStatus_perm (l l' : list Status) (a : Status) :
  Permutation l l' -> fold_left mergeStatus l a = fold_left mergeStatus l' a.
Proof.
  intros P. revert a. induction P; intros a; simpl.
  - reflexivity.
  - apply IHP.
  - f_equal. rewrite !mergeStatus_assoc. f_equal. apply mergeStatus_comm.
  - now rewrite IHP1.
Qed.

Lemma fold_mergeStatus_upper (l : list Status) (a : Status) :
  rank a <= rank (fold_left mergeStatus l a)
  /\ forall s, In s l -> rank s <= rank (fold_left mergeStatus l a).
Proof.
  revert a. induction l as [| x l IH]; intros a; simpl.
  - split; [lia | intros s []].
  - destruct (IH (mergeStatus a x)) as [Ha Hl].
    pose proof (rank_mergeStatus_max a x) as M.
    split; [lia |]. intros s [<- | Hs]; [lia | now apply Hl].
Qed.

Lemma fold_mergeStatus_attained (l : list Status) (a : Status) :
  fold_left mergeStatus l a = a \/ In (fold_left mergeStatus l a) l.
Proof.
  revert a. induction l as [| x l IH]; intros a; simpl; [now left |].
  destruct (IH (mergeStatus a x)) as [E | Hin]; [| now right; right].
  rewrite E. destruct a, x; simpl; auto.
Qed.

Lemma keyed_lookup (m : JSMap.t RoadmapItem) (it : RoadmapItem) :
  keyed m -> NoDup (JSMap.keys m) -> In it (JSMap.values m) ->
  JSMap.get m (topic it) = Some it.
Proof.
  unfold keyed, JSMap.keys, JSMap.values.
  induction m as [| [k v] m IH]; simpl; intros K ND Hin; [contradiction |].
  inversion K as [| ? ? Kv Km]; subst. inversion ND as [| ? ? Hnot ND']; subst.
  simpl in Kv. destruct Hin as [-> | Hin].
  - now rewrite Kv, String.eqb_refl.
  - destruct (String.eqb_spec k (topic it)) as [E | _]; [| now apply IH].
    exfalso. apply Hnot. rewrite E.
    apply in_map_iff in Hin. destruct Hin as [[k' v'] [Ev Hin]]. simpl in Ev. subst v'.
    assert (Ek : topic it = k').
    { rewrite Forall_forall in Km. exact (Km _ Hin). }
    rewrite Ek. apply in_map_iff. exists (k', it). auto.
Qed.

Section UploadStatusExact.
Variable hm : BulkUpload.HeaderMapping.

Lemma upload_rowStep_status_exact (m : JSMap.t RoadmapItem) (row : BulkUpload.Obj)
      (k : string) :
  match JSMap.get (BulkUpload.rowStep hm m row) k with
  | Some it' =>
      completionStatus it'
      = fold_left mergeStatus (map (BulkUpload.statusOf hm) (rowsOfTopic hm k [row]))
          (match JSMap.get m k with
           | Some it => completionStatus it
           | None => YetToStart
           end)
  | None => JSMap.get m k = None /\ rowsOfTopic hm k [row] = []
  end.
Proof.
  unfold BulkUpload.rowStep, rowsOfTopic. simpl.
  destruct (JS.truthyO (BulkUpload.cell row (BulkUpload.m_topic hm))) eqn:T; simpl.
  - set (t := JS.text (BulkUpload.cell row (BulkUpload.m_topic hm))).
    destruct (JSMap.get m t) as [e |] eqn:G; rewrite get_set;
      destruct (String.eqb_spec t k) as [E | NE]; simpl.
    + rewrite <- E, G. reflexivity.
    + destruct (JSMap.get m k); auto.
    + rewrite <- E, G. simpl. now destruct (BulkUpload.statusOf hm row).
    + destruct (JSMap.get m k); auto.
  - destruct (JSMap.get m k); auto.
Qed.

Lemma upload_fold_status_exact (data : list BulkUpload.Obj) (m : JSMap.t RoadmapItem)
      (k : string) (it' : RoadmapItem) :
  JSMap.get (fold_left (BulkUpload.rowStep hm) data m) k = Some it' ->
  completionStatus it'
  = fold_left mergeStatus (map (BulkUpload.statusOf hm) (rowsOfTopic hm k data))
      (match JSMap.get m k with
       | Some it => completionStatus it
       | None => YetToStart
       end).
Proof.
  revert m. induction data as [| row data IH]; intros m G; simpl in *.
  - now rewrite G.
  - rewrite (IH _ G). clear IH G.
    pose proof (upload_rowStep_status_exact m row k) as S.
    unfold rowsOfTopic in *. simpl in *.
    destruct (JSMap.get (BulkUpload.rowStep hm m row) k) as [it1 |].
    + destruct (JS.truthyO _ && _); simpl in *; now rewrite S.
    + destruct S as [-> S].
      destruct (JS.truthyO _ && _); [discriminate S | reflexivity].
Qed.
End UploadStatusExact.

(** X1: in the upload path the final status of every emitted topic is
    the merge, from "Yet to Start", of the statuses of the rows of that
    topic; it is at least as high in priority as each of them, it is
    "Yet to Start" or the status of one of them, and it does not depend
    on the order of the rows. *)
Theorem upload_status_is_highest (hm : BulkUpload.HeaderMapping)
        (data : list BulkUpload.Obj) (it : RoadmapItem) :
  In it (BulkUpload.aggregate hm data) ->
  let statuses := map (BulkUpload.statusOf hm) (rowsOfTopic hm (topic it) data) in
  completionStatus it = fold_left mergeStatus statuses YetToStart
  /\ (forall s, In s statuses -> rank s <= rank (completionStatus it))
  /\ (completionStatus it = YetToStart \/ In (completionStatus it) statuses)
  /\ (forall data' it',
         Permutation data data' ->
         In it' (BulkUpload.aggregate hm data') ->
         topic it' = topic it ->
         completionStatus it' = completionStatus it).
Proof.
  intros Hin statuses.
  assert (Exact : forall d x, In x (BulkUpload.aggregate hm d) ->
            completionStatus x
            = fold_left mergeStatus
                (map (BulkUpload.statusOf hm) (rowsOfTopic hm (topic x) d)) YetToStart).
  { intros d x Hx. unfold BulkUpload.aggregate in Hx.
    apply keyed_lookup in Hx.
    - now rewrite (upload_fold_status_exact hm d [] (topic x) x Hx).
    - apply upload_fold_keyed. constructor.
    - rewrite upload_fold_keys. apply NoDup_fold_pushKey. constructor. }
  pose proof (Exact data it Hin) as E. fold statuses in E.
  split; [exact E |]. split; [| split].
  - intros s Hs. rewrite E. now apply fold_mergeStatus_upper.
  - rewrite E. apply fold_mergeStatus_attained.
  - intros data' it' P Hin' Et.
    rewrite (Exact data' it' Hin'), E, Et. subst statuses.
    apply fold_mergeStatus_perm. apply Permutation_map. symmetry.
    unfold rowsOfTopic. clear -P. induction P; simpl.
    + constructor.
    + destruct (JS.truthyO _ && _); [now constructor | assumption].
    + destruct (JS.truthyO _ && _), (JS.truthyO _ && _);
        try apply Permutation_refl; apply perm_swap.
    + now transitivity
        (filter (fun row => JS.truthyO (BulkUpload.cell row (BulkUpload.m_topic hm))
                            && (JS.text (BulkUpload.cell row (BulkUpload.m_topic hm))
                                =? topic it)) l').
Qed.

Lemma upload_status_is_highest_witness :
  completionStatus (mkItem "Hooks" [mkEntry "useState"] [] Completed) = Completed.
Proof.
  refine (_ : completionStatus (mkItem "Hooks" [mkEntry "useState"] [] Completed)
              = fold_left mergeStatus [InProgress; Completed; YetToStart] YetToStart).
  exact (proj1 (upload_status_is_highest
                  (BulkUpload.mkMapping (Some "Topic") (Some "Sub-Topics") None (Some "Status"))
                  [ [("Topic", "Hooks"); ("Sub-Topics", "useState"); ("Status", "ongoing")];
                    [("Topic", "Hooks"); ("Sub-Topics", ""); ("Status", "Done")];
                    [("Topic", "Hooks"); ("Sub-Topics", ""); ("Status", "")] ]
                  (mkItem "Hooks" [mkEntry "useState"] [] Completed)
                  (or_introl eq_refl))).
Defined.

(** ** The normalizer matches substrings *)

Lemma toLowerCase_app (a b : string) :
  JS.toLowerCase (a ++ b) = (JS.toLowerCase a ++ JS.toLowerCase b)%string.
Proof.
  induction a as [| c a IH]; simpl; [reflexivity | now rewrite IH].
Qed.

Lemma prefix_app (w post : string) : prefix w (w ++ post)%string = true.
Proof.
  induction w as [| c w IH]; simpl; [now destruct post |].
  destruct (ascii_dec c c) as [_ | N]; [exact IH | now elim N].
Qed.

Lemma includes_prefix (hay w : string) : prefix w hay = true -> JS.includes hay w = true.
Proof.
  intros H. destruct hay; simpl in *; now rewrite H.
Qed.

Lemma includes_app_l (pre hay w : string) :
  JS.includes hay w = true -> JS.includes (pre ++ hay)%string w = true.
Proof.
  intros H. induction pre as [| c pre IH]; simpl; [exact H |].
  rewrite IH. apply orb_true_r.
Qed.

Lemma includes_middle (pre w post : string) :
  JS.includes (pre ++ w ++ post)%string w = true.
Proof.
  apply includes_app_l, includes_prefix, prefix_app.
Qed.

Lemma lowerChar_idem (c : ascii) : JS.lowerChar (JS.lowerChar c) = JS.lowerChar c.
Proof.
  destruct c as [b0 b1 b2 b3 b4 b5 b6 b7].
  destruct b0, b1, b2, b3, b4, b5, b6, b7; reflexivity.
Qed.

Lemma toLowerCase_idem (s : string) :
  JS.toLowerCase (JS.toLowerCase s) = JS.toLowerCase s.
Proof.
  induction s as [| c s IH]; simpl; [reflexivity |].
  now rewrite lowerChar_idem, IH.
Qed.

Lemma truthy_toLowerCase (s : string) : JS.truthy (JS.toLowerCase s) = JS.truthy s.
Proof.
  now destruct s.
Qed.

(** X2: the normalizer looks for its key words anywhere in the text and
    without regard to case.  A text that holds "complete", "done" or
    "finish" in any spelling of case, with anything before and after it
    (so also "Incomplete" or "Not done"), is "Completed"; lower-casing a
    text does not change its status; and the text of a status normalizes
    to that status, so normalizing twice is normalizing once. *)
Theorem normalizeStatus_substring :
  (forall pre w post,
      In (JS.toLowerCase w) ["complete"; "done"; "finish"] ->
      normalizeStatus (Some (pre ++ w ++ post)%string) = Completed)
  /\ (forall s, normalizeStatus (Some (JS.toLowerCase s)) = normalizeStatus (Some s))
  /\ (forall v, normalizeStatus (Some (statusText (normalizeStatus v)))
                = normalizeStatus v).
Proof.
  split; [| split].
  - intros pre w post Hw. unfold normalizeStatus.
    assert (T : JS.truthyO (Some (pre ++ w ++ post)%string) = true).
    { simpl. destruct w as [| c w]; [simpl in Hw; intuition discriminate |].
      now destruct pre. }
    rewrite T. cbn [negb JS.text].
    rewrite !toLowerCase_app.
    simpl in Hw. destruct Hw as [E | [E | [E | []]]]; rewrite <- E.
    + now rewrite includes_middle.
    + now rewrite includes_middle, orb_true_r.
    + now rewrite includes_middle, !orb_true_r.
  - intros s. unfold normalizeStatus. cbn [JS.truthyO JS.text].
    now rewrite truthy_toLowerCase, toLowerCase_idem.
  - intros v. apply normalizeStatus_statusText.
Qed.

Lemma normalizeStatus_substring_witness :
  normalizeStatus (Some "Incomplete") = Completed
  /\ normalizeStatus (Some "Not DONE yet") = Completed.
Proof.
  split.
  - apply (proj1 normalizeStatus_substring "In" "complete" "").
    simpl. auto.
  - apply (proj1 normalizeStatus_substring "Not " "DONE" " yet").
    simpl. auto.
Defined.

(** ** Texts: concatenation and containment *)

Lemma sapp_assoc (a b c : string) : ((a ++ b) ++ c = a ++ (b ++ c))%string.
Proof.
  induction a as [| x a IH]; simpl; [reflexivity | now rewrite IH].
Qed.

Lemma sapp_nil_r (a : string) : (a ++ "")%string = a.
Proof.
  induction a as [| x a IH]; simpl; [reflexivity | now rewrite IH].
Qed.

Lemma prefix_split (w hay : string) :
  prefix w hay = true -> exists post, hay = (w ++ post)%string.
Proof.
  revert hay. induction w as [| c w IH]; intros hay H.
  - now exists hay.
  - destruct hay as [| x hay]; simpl in H; [discriminate H |].
    destruct (ascii_dec c x) as [-> | ]; [| discriminate H].
    destruct (IH hay H) as [post ->]. now exists post.
Qed.

Lemma includes_split (hay w : string) :
  JS.includes hay w = true <-> exists pre post, hay = (pre ++ w ++ post)%string.
Proof.
  split.
  - induction hay as [| x hay IH]; cbn [JS.includes]; intros H.
    + rewrite orb_false_r in H. destruct (prefix_split _ _ H) as [post E].
      now exists "", post.
    + apply orb_true_iff in H. destruct H as [H | H].
      * destruct (prefix_split _ _ H) as [post E]. now exists "", post.
      * destruct (IH H) as [pre [post ->]]. now exists (String x pre), post.
  - intros [pre [post ->]]. apply includes_middle.
Qed.

Lemma includes_trans (a b c : string) :
  JS.includes a b = true -> JS.includes b c = true -> JS.includes a c = true.
Proof.
  intros Hab Hbc.
  apply includes_split in Hab. destruct Hab as [p1 [q1 ->]].
  apply includes_split in Hbc. destruct Hbc as [p2 [q2 ->]].
  apply includes_split. exists (p1 ++ p2)%string, (q2 ++ q1)%string.
  now rewrite !sapp_assoc.
Qed.

Lemma includes_nonempty (hay w : string) :
  JS.includes hay w = true -> w <> "" -> hay <> "".
Proof.
  intros H Hw ->. destruct w; [now elim Hw | discriminate H].
Qed.

Lemma toLowerCase_nonempty (s : string) : JS.toLowerCase s <> "" -> s <> "".
Proof.
  now destruct s.
Qed.

(** ** The file name of a converted sheet *)

Lemma sanitize_chars (s : string) :
  forallb (fun c => negb (Converter.invalidInFileName c))
          (list_ascii_of_string (Converter.sanitize s)) = true.
Proof.
  induction s as [| c s IH]; simpl; [reflexivity |].
  rewrite IH, andb_true_r.
  destruct (Converter.invalidInFileName c) eqn:E; [reflexivity | now rewrite E].
Qed.

Lemma sanitize_fixed (s : string) :
  Converter.sanitize s = s
  <-> forallb (fun c => negb (Converter.invalidInFileName c)) (list_ascii_of_string s) = true.
Proof.
  induction s as [| c s IH]; simpl; [tauto |].
  destruct (Converter.invalidInFileName c) eqn:E; simpl.
  - split; [| discriminate]. intros H. injection H as H _. rewrite <- H in E.
    discriminate E.
  - rewrite <- IH. split; [intros H; now injection H | intros ->; reflexivity].
Qed.

(** X3: the file name of a sheet has the length of the sheet name and
    none of the characters that the converter replaces; sanitizing is
    idempotent and leaves exactly the names without such characters
    unchanged. *)
Theorem sanitize_file_name (s : string) :
  String.length (Converter.sanitize s) = String.length s
  /\ forallb (fun c => negb (Converter.invalidInFileName c))
             (list_ascii_of_string (Converter.sanitize s)) = true
  /\ Converter.sanitize (Converter.sanitize s) = Converter.sanitize s
  /\ (Converter.sanitize s = s
      <-> forallb (fun c => negb (Converter.invalidInFileName c))
                  (list_ascii_of_string s) = true).
Proof.
  split; [| split; [| split]].
  - induction s as [| c s IH]; simpl; [reflexivity | now rewrite IH].
  - apply sanitize_chars.
  - apply sanitize_fixed, sanitize_chars.
  - apply sanitize_fixed.
Qed.

(** ** The rows that the converter writes *)

Lemma convertRows_shape (tIdx : nat) (sIdx pIdx stIdx : option nat) (rows : list Row) :
  Forall (fun r => exists t s p st, r = [t; s; p; statusText st] /\ t <> "")
         (Converter.convertRows tIdx sIdx pIdx stIdx rows)
  /\ length (Converter.convertRows tIdx sIdx pIdx stIdx rows) <= length rows.
Proof.
  induction rows as [| row rows [IHf IHl]]; simpl; [split; [constructor | lia] |].
  unfold Converter.convertRow.
  destruct (JS.truthyO (nth_error row tIdx)) eqn:T; simpl; [| split; [exact IHf | lia]].
  split; [| lia]. constructor; [| exact IHf].
  exists (JS.orElse (nth_error row tIdx) ""), (Converter.cellOr row sIdx),
    (Converter.cellOr row pIdx),
    (match stIdx with
     | Some _ => normalizeStatus (Some (JS.orElse (JS.at_ row stIdx) ""))
     | None => YetToStart
     end).
  split; [now destruct stIdx |].
  unfold JS.orElse. rewrite T. destruct (nth_error row tIdx) as [t |]; [| discriminate].
  simpl in *. intros ->. discriminate T.
Qed.

(** X4: every file that the converter writes for a sheet is named by the
    sanitized sheet name and holds a header line and at least one data
    line, each of exactly four cells; every data line has a non-empty
    topic cell and one of the three status texts in its last cell, and
    there are no more data lines than data rows in the sheet. *)
Theorem converted_file_shape (s : Sheet) (fileName : string) (csvData : list Row) :
  Converter.convertSheet s = Converter.Converted fileName csvData ->
  fileName = (Converter.sanitize (sheetName s) ++ ".csv")%string
  /\ 2 <= length csvData
  /\ Forall (fun r => length r = 4) csvData
  /\ Forall (fun r => exists t sub p st, r = [t; sub; p; statusText st] /\ t <> "")
            (tl csvData)
  /\ length (tl csvData) <= length (tl (jsonData s)).
Proof.
  unfold Converter.convertSheet.
  destruct (skippedByName _); [discriminate |].
  destruct (range_e_r s <? 2)%nat; [discriminate |].
  destruct (length (jsonData s) <? 2)%nat; [discriminate |].
  destruct (Converter.topicsColIdx _) as [t |]; [| discriminate].
  set (rows := Converter.convertRows _ _ _ _ _).
  destruct (length (_ :: rows) <=? 1)%nat eqn:L; [discriminate |].
  intros E. injection E as <- <-.
  apply Nat.leb_gt in L. simpl in L.
  destruct (convertRows_shape t
              (Converter.subTopicsColIdx (cleanHeaders (hd [] (jsonData s))))
              (Converter.projectsColIdx (cleanHeaders (hd [] (jsonData s))))
              (Converter.statusColIdx (cleanHeaders (hd [] (jsonData s))))
              (tl (jsonData s))) as [F Len].
  fold rows in F, Len.
  split; [reflexivity |]. split; [simpl; lia |]. split; [| split; [exact F | exact Len]].
  constructor; [reflexivity |].
  eapply Forall_impl; [| exact F].
  intros r [a [b [c [d [-> _]]]]]. reflexivity.
Qed.

Lemma converted_file_shape_witness :
  2 <= length [ ["Topic"; "Sub-Topics"; "Projects"; "Status"];
                ["Hooks"; "useState"; "Counter App"; "In Progress"] ].
Proof.
  exact (proj1 (proj2 (converted_file_shape carrySheet "React.csv"
                         [ ["Topic"; "Sub-Topics"; "Projects"; "Status"];
                           ["Hooks"; "useState"; "Counter App"; "In Progress"] ]
                         eq_refl))).
Defined.

(** ** Column resolution by substring *)

Lemma find_at_findIndex {A : Type} (p : A -> bool) (l : list A) :
  find p l = JS.at_ l (JS.findIndex p l).
Proof.
  induction l as [| a l IH]; simpl; [reflexivity |].
  destruct (p a); [reflexivity |].
  rewrite IH. now destruct (JS.findIndex p l).
Qed.

Lemma findIndex_weaken {A : Type} (p q : A -> bool) (l : list A) (j : nat) :
  (forall x, p x = true -> q x = true) ->
  JS.findIndex p l = Some j ->
  exists i, JS.findIndex q l = Some i /\ i <= j.
Proof.
  intros W. revert j. induction l as [| a l IH]; intros j; simpl; [discriminate |].
  destruct (p a) eqn:Pa.
  - intros E; injection E as <-. rewrite (W a Pa). exists 0; auto.
  - destruct (JS.findIndex p l) as [k |]; simpl; [| discriminate].
    intros E; injection E as <-.
    destruct (q a); [exists 0; split; [reflexivity | lia] |].
    destruct (IH k eq_refl) as [i [-> Hi]]. exists (S i). simpl. split; [reflexivity | lia].
Qed.

Lemma matchesAny_nonempty (names : list string) (h : string) :
  Forall (fun n => n <> "") names -> matchesAny names h = true -> h <> "".
Proof.
  intros F M. unfold matchesAny in M. apply existsb_exists in M.
  destruct M as [n [Hn I]]. rewrite Forall_forall in F.
  apply toLowerCase_nonempty. apply (includes_nonempty _ _ I).
  intros E. apply (F n Hn). now destruct n.
Qed.

Lemma matchesAny_map (names : list string) (h : string) :
  matchesAny names h
  = existsb (JS.includes (JS.toLowerCase h)) (map JS.toLowerCase names).
Proof.
  unfold matchesAny. induction names as [| n names IH]; simpl; [reflexivity |].
  now rewrite IH.
Qed.

Lemma subtopic_names_are_topic_names (h : string) :
  matchesAny ["sub-topics"; "subtopics"; "sub-topic"; "subtopic"] h = true ->
  matchesAny ["topics"; "topic"; "technology"] h = true.
Proof.
  rewrite !matchesAny_map.
  change (map JS.toLowerCase ["sub-topics"; "subtopics"; "sub-topic"; "subtopic"])
    with ["sub-topics"; "subtopics"; "sub-topic"; "subtopic"].
  change (map JS.toLowerCase ["topics"; "topic"; "technology"])
    with ["topics"; "topic"; "technology"].
  cbn [existsb]. rewrite !orb_false_r. intros H.
  assert (T : JS.includes (JS.toLowerCase h) "topic" = true).
  { repeat (apply orb_true_iff in H; destruct H as [H | H]);
      apply (includes_trans _ _ _ H); reflexivity. }
  now rewrite T, orb_true_r.
Qed.

(** X5: the helper [findColumn] of the upload script returns the header
    at the index that [findColumnIndex] of the converter returns; and for
    lists of non-empty names, such as those of the script, it returns the
    header that the inline matching of [processCSVFile] selects. *)
Theorem findColumn_agrees (headers possibleNames : list string) :
  BulkUploadHelpers.findColumn headers possibleNames
  = JS.at_ headers (Converter.findColumnIndex headers possibleNames)
  /\ (Forall (fun n => n <> "") possibleNames ->
      BulkUpload.matchedHeader headers possibleNames
      = BulkUploadHelpers.findColumn headers possibleNames).
Proof.
  split; [apply find_at_findIndex |].
  intros F. unfold BulkUpload.matchedHeader, BulkUploadHelpers.findColumn.
  destruct (find _ headers) as [h |] eqn:E; [| reflexivity].
  apply find_some in E. destruct E as [_ M].
  pose proof (matchesAny_nonempty possibleNames h F M) as NE.
  unfold JS.truthy. destruct (String.eqb_spec h ""); [contradiction | reflexivity].
Qed.

Lemma findColumn_agrees_witness :
  BulkUpload.matchedHeader ["Topic"; "Sub-Topics"] ["topics"; "topic"; "technology"]
  = BulkUploadHelpers.findColumn ["Topic"; "Sub-Topics"] ["topics"; "topic"; "technology"].
Proof.
  apply (proj2 (findColumn_agrees ["Topic"; "Sub-Topics"] ["topics"; "topic"; "technology"])).
  repeat constructor; discriminate.
Defined.

Lemma matchedHeader_find (headers alternatives : list string) :
  BulkUpload.matchedHeader headers alternatives
  = match find (matchesAny alternatives) headers with
    | Some h => if JS.truthy h then Some h else None
    | None => None
    end.
Proof.
  reflexivity.
Qed.

(** X6: in the converter and in the upload script every header that
    matches a sub-topics name also matches a topic name, since each of
    them contains "topic".  So the topics column of the converter is never
    to the right of its sub-topics column, and a file in which the upload
    script finds a sub-topics header is never rejected for a missing topic
    column. *)
Theorem subtopics_header_matches_topic (headers : list string) :
  (forall j, Converter.subTopicsColIdx headers = Some j ->
             exists i, Converter.topicsColIdx headers = Some i /\ i <= j)
  /\ (BulkUpload.m_subtopic (BulkUpload.headerMapping headers) <> None ->
      BulkUpload.m_topic (BulkUpload.headerMapping headers) <> None).
Proof.
  split.
  - intros j. apply findIndex_weaken. exact subtopic_names_are_topic_names.
  - unfold BulkUpload.headerMapping.
    cbn [BulkUpload.m_subtopic BulkUpload.m_topic].
    rewrite !matchedHeader_find. intros H.
    destruct (find (matchesAny ["sub-topics"; "subtopics"; "sub-topic"; "subtopic"]) headers)
      as [h |] eqn:Es; [| now elim H].
    apply find_some in Es. destruct Es as [Hin Ms].
    apply subtopic_names_are_topic_names in Ms.
    destruct (find (matchesAny ["topics"; "topic"; "technology"]) headers)
      as [h' |] eqn:Et.
    + apply find_some in Et. destruct Et as [_ Mt].
      assert (NE : h' <> "").
      { apply (matchesAny_nonempty ["topics"; "topic"; "technology"] h');
          [repeat constructor; discriminate | exact Mt]. }
      unfold JS.truthy. destruct (String.eqb_spec h' ""); [contradiction | discriminate].
    + exfalso. pose proof (find_none _ _ Et h Hin) as N. congruence.
Qed.

Lemma subtopics_header_matches_topic_witness :
  Converter.topicsColIdx ["Sub-Topics"; "Topic"] = Some 0.
Proof.
  destruct (proj1 (subtopics_header_matches_topic ["Sub-Topics"; "Topic"]) 0 eq_refl)
    as [i [E L]].
  assert (i = 0) as -> by lia. exact E.
Defined.

(** X7: in the import path the topic column is never the sub-topics
    column: a header that contains "sub-topic" or "subtopic" contains
    "sub", which the topic test excludes. *)
Theorem import_topic_is_not_subtopics (headers : list string) (i : nat) :
  ExcelImport.topicIndex headers = Some i ->
  ExcelImport.subTopicsIndex headers <> Some i.
Proof.
  intros Ht Hs.
  apply findIndex_Some in Ht. destruct Ht as [[h [Hh Ph]] _].
  apply findIndex_Some in Hs. destruct Hs as [[h' [Hh' Ph']] _].
  rewrite Hh in Hh'. injection Hh' as <-.
  apply andb_true_iff in Ph. destruct Ph as [_ Ph]. apply negb_true_iff in Ph.
  assert (S : JS.includes (JS.toLowerCase h) "sub" = true).
  { apply orb_true_iff in Ph'. destruct Ph' as [H | H];
      apply (includes_trans _ _ _ H); reflexivity. }
  congruence.
Qed.

Lemma import_topic_is_not_subtopics_witness :
  ExcelImport.subTopicsIndex ["Sub-Topics"; "Topic"] <> Some 1.
Proof.
  apply (import_topic_is_not_subtopics ["Sub-Topics"; "Topic"] 1). reflexivity.
Defined.

(** ** Display labels *)

Lemma orElse_truthy (v : option string) (d : string) :
  d <> "" -> JS.orElse v d <> "".
Proof.
  intros Hd. unfold JS.orElse. destruct (JS.truthyO v) eqn:T; [| exact Hd].
  destruct v as [s |]; [| discriminate]. simpl in *.
  intros ->. discriminate T.
Qed.

Lemma headerOr_nonempty (headers names : list string) (d : string) :
  Forall (fun n => n <> "") names -> d <> "" ->
  Converter.headerOr headers (Converter.findColumnIndex headers names) d <> "".
Proof.
  intros F Hd. unfold Converter.headerOr.
  destruct (Converter.findColumnIndex headers names) as [i |] eqn:E; [| exact Hd].
  apply findIndex_Some in E. destruct E as [[h [Hh M]] _].
  simpl. rewrite Hh. simpl. exact (matchesAny_nonempty names h F M).
Qed.

Lemma orDefault_nonempty (headers names : list string) (d : string) :
  d <> "" -> BulkUpload.orDefault (BulkUpload.matchedHeader headers names) d <> "".
Proof.
  intros Hd. destruct (BulkUpload.matchedHeader headers names) as [h |] eqn:E; [| exact Hd].
  simpl. apply matchedHeader_truthy in E. intros ->. discriminate E.
Qed.

(** X8: in all three scripts each of the four display labels of a tech
    stack is a non-empty text, whatever the header row: a matched header
    is not empty, and an unmatched field gets its default label. *)
Theorem display_labels_nonempty (headers : list string) :
  let nonEmptyLabels (h : Headers) :=
    h_topic h <> "" /\ h_subTopics h <> "" /\ h_projects h <> "" /\ h_status h <> "" in
  nonEmptyLabels (ExcelImport.customHeaders headers)
  /\ nonEmptyLabels (Converter.customHeaders headers)
  /\ nonEmptyLabels (BulkUpload.customHeaders (BulkUpload.headerMapping headers)).
Proof.
  intros nonEmptyLabels. unfold nonEmptyLabels.
  split; [| split].
  - unfold ExcelImport.customHeaders. simpl.
    repeat split; apply orElse_truthy; discriminate.
  - unfold Converter.customHeaders. simpl.
    split; [apply orElse_truthy; discriminate |].
    repeat split; apply headerOr_nonempty;
      first [discriminate | repeat constructor; discriminate].
  - unfold BulkUpload.customHeaders, BulkUpload.headerMapping. simpl.
    repeat split; apply orDefault_nonempty; discriminate.
Qed.

(** ** Trimmed texts *)

Lemma trimEnd_cons (c : ascii) (r : string) :
  JS.trimEnd (String c r)
  = match JS.trimEnd r with
    | EmptyString => if JS.isSpace c then EmptyString else String c EmptyString
    | String x y => String c (String x y)
    end.
Proof.
  reflexivity.
Qed.

Lemma trimEnd_idem (s : string) : JS.trimEnd (JS.trimEnd s) = JS.trimEnd s.
Proof.
  induction s as [| c r IH]; [reflexivity |].
  rewrite trimEnd_cons.
  destruct (JS.trimEnd r) as [| x y] eqn:E.
  - destruct (JS.isSpace c) eqn:Sp; [reflexivity |].
    rewrite trimEnd_cons. simpl. now rewrite Sp.
  - rewrite trimEnd_cons, IH. reflexivity.
Qed.

Lemma trimStart_length (s : string) :
  String.length (JS.trimStart s) <= String.length s.
Proof.
  induction s as [| c r IH]; simpl; [lia |].
  destruct (JS.isSpace c); simpl; lia.
Qed.

Lemma trimStart_fixed_head (c : ascii) (r : string) :
  JS.trimStart (String c r) = String c r -> JS.isSpace c = false.
Proof.
  simpl. destruct (JS.isSpace c); [| reflexivity].
  intros E. pose proof (trimStart_length r) as L. rewrite E in L. simpl in L. lia.
Qed.

Lemma trimStart_idem (s : string) : JS.trimStart (JS.trimStart s) = JS.trimStart s.
Proof.
  induction s as [| c r IH]; simpl; [reflexivity |].
  destruct (JS.isSpace c) eqn:Sp; [exact IH |]. simpl. now rewrite Sp.
Qed.

Lemma trimStart_trimEnd (s : string) :
  JS.trimStart s = s -> JS.trimStart (JS.trimEnd s) = JS.trimEnd s.
Proof.
  destruct s as [| c r]; [reflexivity |].
  intros H. apply trimStart_fixed_head in H. rewrite trimEnd_cons.
  destruct (JS.trimEnd r); [rewrite H |]; simpl; now rewrite H.
Qed.

Lemma trim_idem (s : string) : JS.trim (JS.trim s) = JS.trim s.
Proof.
  unfold JS.trim.
  rewrite (trimStart_trimEnd (JS.trimStart s) (trimStart_idem s)).
  apply trimEnd_idem.
Qed.

Lemma splitTokens_clean (s t : string) :
  In t (splitTokens s) -> t <> "" /\ trimmed t.
Proof.
  unfold splitTokens. rewrite filter_In, in_map_iff.
  intros [[x [<- _]] NE]. split.
  - unfold JS.nonEmpty in NE. apply negb_true_iff in NE. now apply String.eqb_neq.
  - apply trim_idem.
Qed.

(** ** The entries of the emitted items *)

Lemma someNamed_false (acc : list Entry) (x : string) :
  someNamed acc x = false -> ~ In x (map name acc).
Proof.
  intros H Hin. apply in_map_iff in Hin. destruct Hin as [e [<- He]].
  unfold someNamed in H.
  assert (T : existsb (fun s => name s =? name e) acc = true).
  { apply existsb_exists. exists e. split; [exact He | apply String.eqb_refl]. }
  congruence.
Qed.

Lemma pushIfAbsent_clean (acc : list Entry) (x : string) :
  cleanEntries acc -> x <> "" -> trimmed x -> cleanEntries (pushIfAbsent acc x).
Proof.
  intros [ND F] NE T. unfold pushIfAbsent.
  destruct (someNamed acc x) eqn:E; simpl; [now split |].
  split.
  - rewrite map_app. simpl. apply NoDup_app; [exact ND | repeat constructor; auto |].
    intros y Hy [E' | []]. subst y. now apply (someNamed_false acc x E).
  - apply Forall_app. split; [exact F | repeat constructor; auto].
Qed.

Lemma fold_push_clean (toks : list string) (acc : list Entry) :
  cleanEntries acc ->
  (forall t, In t toks -> t <> "" /\ trimmed t) ->
  cleanEntries (fold_left pushIfAbsent toks acc).
Proof.
  revert acc. induction toks as [| t toks IH]; intros acc C H; simpl; [exact C |].
  apply IH; [| intros u Hu; apply H; now right].
  destruct (H t (or_introl eq_refl)). now apply pushIfAbsent_clean.
Qed.

Lemma nonBlank_trim (v : option string) :
  nonBlank v = true -> JS.trim (JS.text v) <> "".
Proof.
  unfold nonBlank. intros H. apply andb_true_iff in H. destruct H as [_ H].
  apply negb_true_iff in H. now apply String.eqb_neq.
Qed.

Lemma Forall_values_set {V : Type} (Q : V -> Prop) (m : JSMap.t V) (k : string) (v : V) :
  Forall Q (JSMap.values m) -> Q v -> Forall Q (JSMap.values (JSMap.set m k v)).
Proof.
  unfold JSMap.values. intros F Hv.
  induction m as [| [k' v'] m IH]; simpl in *; [repeat constructor; exact Hv |].
  inversion F; subst.
  destruct (k' =? k); simpl; constructor; auto.
Qed.

Lemma Forall_values_get {V : Type} (Q : V -> Prop) (m : JSMap.t V) (k : string) (v : V) :
  Forall Q (JSMap.values m) -> JSMap.get m k = Some v -> Q v.
Proof.
  unfold JSMap.values. intros F.
  induction m as [| [k' v'] m IH]; simpl in *; [discriminate |].
  inversion F; subst.
  destruct (k' =? k); [intros E; injection E as <-; assumption | auto].
Qed.

Section ImportClean.
Variable tIdx : nat.
Variables sIdx pIdx stIdx : option nat.

Lemma import_updateTopic_clean (row : Row) (e : RoadmapItem) :
  cleanItem e -> cleanItem (ExcelImport.updateTopic sIdx pIdx stIdx row e).
Proof.
  intros [T1 [T2 [Cs Cp]]]. unfold cleanItem.
  rewrite import_update_topic. split; [exact T1 |]. split; [exact T2 |]. split.
  - rewrite import_update_subTopics. apply fold_push_clean; [exact Cs |].
    intros t. apply splitTokens_clean.
  - rewrite import_update_projects.
    destruct (nonBlank (JS.at_ row pIdx)) eqn:NB; [| exact Cp].
    apply pushIfAbsent_clean; [exact Cp | now apply nonBlank_trim | apply trim_idem].
Qed.

Lemma import_rowStep_clean (st : ExcelImport.Loop) (row : Row) :
  Forall cleanItem (JSMap.values (ExcelImport.topicMap st)) ->
  Forall cleanItem
         (JSMap.values (ExcelImport.topicMap
                          (ExcelImport.rowStep tIdx sIdx pIdx stIdx st row))).
Proof.
  intros F.
  assert (F1 : Forall cleanItem
                 (JSMap.values (ExcelImport.topicMap
                                  (ExcelImport.enterTopic tIdx stIdx st row)))).
  { unfold ExcelImport.enterTopic.
    destruct (nonBlank (nth_error row tIdx)) eqn:NB; simpl; [| exact F].
    destruct (negb _); [| exact F].
    apply Forall_values_set; [exact F |].
    repeat split; simpl; try constructor.
    - now apply nonBlank_trim.
    - apply trim_idem. }
  unfold ExcelImport.rowStep.
  set (st1 := ExcelImport.enterTopic tIdx stIdx st row) in *.
  destruct (negb (JS.truthyO (ExcelImport.currentTopic st1))); [exact F1 |].
  destruct (JSMap.get _ _) as [o |] eqn:G; [| exact F1].
  simpl. apply Forall_values_set; [exact F1 |].
  apply import_updateTopic_clean.
  exact (Forall_values_get cleanItem _ _ _ F1 G).
Qed.

Lemma import_aggregate_clean (rows : list Row) :
  Forall cleanItem (ExcelImport.aggregate tIdx sIdx pIdx stIdx rows).
Proof.
  unfold ExcelImport.aggregate, ExcelImport.runRows.
  assert (H : forall st, Forall cleanItem (JSMap.values (ExcelImport.topicMap st)) ->
                         Forall cleanItem
                                (JSMap.values
                                   (ExcelImport.topicMap
                                      (fold_left (ExcelImport.rowStep tIdx sIdx pIdx stIdx)
                                                 rows st)))).
  { induction rows as [| row rows IH]; intros st F; simpl; [exact F |].
    apply IH, import_rowStep_clean, F. }
  apply H. constructor.
Qed.
End ImportClean.

(** X9: every roadmap item that the import path emits has a non-empty,
    trimmed topic, and its subtopics and its projects have non-empty,
    trimmed and pairwise distinct names: the item is as the schema of
    the store asks it, and no name occurs twice in an item. *)
Theorem import_items_clean (fileBase : string) (s : Sheet) (d : TechStackData) :
  ExcelImport.processSheet fileBase s = ExcelImport.Imported d ->
  d_name d = sheetName s
  /\ d_roadmapItems d <> []
  /\ Forall cleanItem (d_roadmapItems d).
Proof.
  unfold ExcelImport.processSheet.
  destruct (skippedByName _); [discriminate |].
  destruct (length (jsonData s) <=? 1)%nat; [discriminate |].
  destruct (ExcelImport.topicIndex _) as [t |]; [| discriminate].
  destruct (length _ =? 0)%nat eqn:L; [discriminate |].
  intros E; injection E as <-. simpl.
  split; [reflexivity |]. split.
  - intros E. rewrite E in L. discriminate L.
  - apply import_aggregate_clean.
Qed.

Lemma import_items_clean_witness :
  exists d, ExcelImport.processSheet "stacks.xlsx" flatSheetExample = ExcelImport.Imported d
            /\ Forall cleanItem (d_roadmapItems d).
Proof.
  eexists. split; [reflexivity |].
  apply (import_items_clean "stacks.xlsx" flatSheetExample). reflexivity.
Defined.

(** ** The entries of the upload path *)

Lemma fold_push_entries_all (R : string -> Prop) (es acc : list Entry) :
  namesAll R acc -> namesAll R es ->
  namesAll R (fold_left (fun arr e => pushIfAbsent arr (name e)) es acc).
Proof.
  unfold namesAll. revert acc.
  induction es as [| e es IH]; intros acc Fa Fe; simpl; [exact Fa |].
  inversion Fe; subst. apply IH; [| assumption].
  unfold pushIfAbsent. destruct (negb _); [| exact Fa].
  apply Forall_app. split; [exact Fa | repeat constructor; assumption].
Qed.

Lemma namesAll_tokens (R : string -> Prop) (s : string) :
  (forall t, t <> "" -> trimmed t -> R t) ->
  namesAll R (map mkEntry (splitTokens s)).
Proof.
  intros H. unfold namesAll. rewrite Forall_map. apply Forall_forall.
  intros t Ht. simpl. destruct (splitTokens_clean s t Ht). auto.
Qed.

Section UploadClean.
Variable hm : BulkUpload.HeaderMapping.

Lemma upload_subTopicsOf_clean (row : BulkUpload.Obj) :
  namesAll (fun n => n <> "" /\ trimmed n) (BulkUpload.subTopicsOf hm row).
Proof.
  unfold BulkUpload.subTopicsOf. destruct (JS.truthyO _); [| constructor].
  apply namesAll_tokens. auto.
Qed.

Lemma upload_projectsOf_trimmed (row : BulkUpload.Obj) :
  namesAll trimmed (BulkUpload.projectsOf hm row).
Proof.
  unfold BulkUpload.projectsOf. destruct (JS.truthyO _); [| constructor].
  destruct (JS.includes _ JS.sLF).
  - apply namesAll_tokens. auto.
  - repeat constructor. apply trim_idem.
Qed.

Lemma upload_rowStep_good (m : JSMap.t RoadmapItem) (row : BulkUpload.Obj) :
  Forall uploadedItemOk (JSMap.values m) ->
  Forall uploadedItemOk (JSMap.values (BulkUpload.rowStep hm m row)).
Proof.
  intros F. unfold BulkUpload.rowStep.
  destruct (JS.truthyO (BulkUpload.cell row (BulkUpload.m_topic hm))) eqn:T; simpl;
    [| exact F].
  assert (NE : JS.text (BulkUpload.cell row (BulkUpload.m_topic hm)) <> "").
  { rewrite truthyO_text in T. intros E. rewrite E in T. discriminate T. }
  destruct (JSMap.get m _) as [e |] eqn:G; apply Forall_values_set; try exact F.
  - destruct (Forall_values_get uploadedItemOk _ _ _ F G) as [T1 [Gs Gp]].
    unfold uploadedItemOk, BulkUpload.mergeInto. simpl. split; [exact T1 |]. split.
    + apply fold_push_entries_all; [exact Gs | apply upload_subTopicsOf_clean].
    + apply fold_push_entries_all; [exact Gp | apply upload_projectsOf_trimmed].
  - unfold uploadedItemOk. simpl. split; [exact NE |].
    split; [apply upload_subTopicsOf_clean | apply upload_projectsOf_trimmed].
Qed.

Lemma upload_aggregate_good (data : list BulkUpload.Obj) :
  Forall uploadedItemOk (BulkUpload.aggregate hm data).
Proof.
  unfold BulkUpload.aggregate.
  assert (H : forall m, Forall uploadedItemOk (JSMap.values m) ->
                        Forall uploadedItemOk
                               (JSMap.values (fold_left (BulkUpload.rowStep hm) data m))).
  { induction data as [| row data IH]; intros m F; simpl; [exact F |].
    apply IH, upload_rowStep_good, F. }
  apply H. constructor.
Qed.
End UploadClean.

(** X10: every roadmap item that the upload path emits has a non-empty
    topic, subtopics with non-empty, trimmed names and projects with
    trimmed names. *)
Theorem upload_items_ok (csv : list Row) (techStackName description : string)
        (d : TechStackData) :
  BulkUpload.buildTechStackData (BulkUpload.parse csv) techStackName description = inr d ->
  d_name d = techStackName
  /\ d_description d = description
  /\ Forall uploadedItemOk (d_roadmapItems d).
Proof.
  unfold BulkUpload.buildTechStackData.
  destruct (negb _); [discriminate |].
  intros E; injection E as <-. simpl.
  repeat split. apply upload_aggregate_good.
Qed.

Lemma upload_items_ok_witness :
  exists d, BulkUpload.buildTechStackData (BulkUpload.parse paddedTopicCsv) "React" "" = inr d
            /\ Forall uploadedItemOk (d_roadmapItems d).
Proof.
  eexists. split; [reflexivity |].
  apply (upload_items_ok paddedTopicCsv "React" ""). reflexivity.
Defined.

(** X11: a projects cell that is not empty but blank, without a line
    feed, gives in the upload path a project whose name is empty: the row
    that brings a new topic stores it in the record of the topic.  The
    import path adds no project for such a cell. *)
Theorem blank_projects_cell (hm : BulkUpload.HeaderMapping) (row : BulkUpload.Obj)
        (p : string) :
  BulkUpload.cell row (BulkUpload.m_project hm) = Some p ->
  p <> "" -> JS.trim p = "" -> JS.includes p JS.sLF = false ->
  BulkUpload.projectsOf hm row = [mkEntry ""]
  /\ (forall m,
         JS.truthyO (BulkUpload.cell row (BulkUpload.m_topic hm)) = true ->
         JSMap.get m (JS.text (BulkUpload.cell row (BulkUpload.m_topic hm))) = None ->
         exists it,
           JSMap.get (BulkUpload.rowStep hm m row)
                     (JS.text (BulkUpload.cell row (BulkUpload.m_topic hm))) = Some it
           /\ projects it = [mkEntry ""])
  /\ (forall sIdx pIdx stIdx xlsRow e,
         JS.at_ xlsRow pIdx = Some p ->
         projects (ExcelImport.updateTopic sIdx pIdx stIdx xlsRow e) = projects e).
Proof.
  intros C NE B L.
  assert (P : BulkUpload.projectsOf hm row = [mkEntry ""]).
  { unfold BulkUpload.projectsOf. rewrite C. simpl. rewrite L, B.
    unfold JS.truthy. destruct (String.eqb_spec p ""); [contradiction | reflexivity]. }
  split; [exact P |]. split.
  - intros m T G. unfold BulkUpload.rowStep. rewrite T, G. simpl.
    rewrite get_set, String.eqb_refl. eexists. split; [reflexivity |]. exact P.
  - intros sIdx pIdx stIdx xlsRow e A.
    rewrite import_update_projects. unfold nonBlank. rewrite A. simpl. rewrite B.
    now rewrite andb_false_r.
Qed.

Lemma blank_projects_cell_witness :
  BulkUpload.projectsOf
    (BulkUpload.mkMapping (Some "Topic") None (Some "Projects") None)
    [("Topic", "Hooks"); ("Projects", "  ")]
  = [mkEntry ""].
Proof.
  apply (proj1 (blank_projects_cell
                  (BulkUpload.mkMapping (Some "Topic") None (Some "Projects") None)
                  [("Topic", "Hooks"); ("Projects", "  ")] "  "
                  eq_refl ltac:(discriminate) eq_refl eq_refl)).
Defined.

(** ** Rows without a topic in the import path *)

Lemma firstOccurrences_nil (l : list string) : firstOccurrences l = [] -> l = [].
Proof.
  destruct l as [| k l]; [reflexivity |].
  unfold firstOccurrences. simpl. intros E.
  pose proof (fold_pushKey_length l (pushKey [] k)) as L.
  rewrite E in L. simpl in L. lia.
Qed.

Lemma import_rowStep_no_topic (tIdx : nat) (sIdx pIdx stIdx : option nat)
      (m : JSMap.t RoadmapItem) (row : Row) :
  nonBlank (nth_error row tIdx) = false ->
  ExcelImport.rowStep tIdx sIdx pIdx stIdx (ExcelImport.mkLoop m None) row
  = ExcelImport.mkLoop m None.
Proof.
  intros H. unfold ExcelImport.rowStep, ExcelImport.enterTopic. now rewrite H.
Qed.

Lemma import_leading_rows (tIdx : nat) (sIdx pIdx stIdx : option nat)
      (pre rows : list Row) :
  (forall row, In row pre -> nonBlank (nth_error row tIdx) = false) ->
  ExcelImport.aggregate tIdx sIdx pIdx stIdx (pre ++ rows)
  = ExcelImport.aggregate tIdx sIdx pIdx stIdx rows.
Proof.
  intros H. unfold ExcelImport.aggregate, ExcelImport.runRows.
  rewrite fold_left_app. f_equal. f_equal. f_equal.
  induction pre as [| row pre IH]; simpl; [reflexivity |].
  rewrite import_rowStep_no_topic by (apply H; now left).
  apply IH. intros r Hr. apply H. now right.
Qed.

Lemma present_rows (r : RawSheet) :
  tl (jsonData (present r)) = map (map cellText) (tl (cells r)).
Proof.
  unfold jsonData, present. simpl. now destruct (cells r).
Qed.

Lemma cell_nonBlank (row : list Cell) (i : nat) :
  nonBlank (nth_error (map cellText row) i) = Cell.nonBlank (nth_error row i).
Proof.
  rewrite nth_error_map. destruct (nth_error row i) as [c |]; [| reflexivity].
  unfold nonBlank, Cell.nonBlank, cellText. cbn [option_map JS.truthyO JS.text].
  destruct (Cell.truthy c) eqn:T; [| reflexivity].
  unfold JS.truthy.
  destruct (String.eqb_spec (Cell.toString c) "") as [E | NE]; [| reflexivity].
  now rewrite E.
Qed.

(** X12: in the import path the data rows that come before the first
    row with a topic value change nothing; and a sheet with data and a
    topic column is skipped for having no roadmap items exactly when the
    topic cell of every data row is absent, falsy (the empty text, the
    number 0, [false]) or blank. *)
Theorem import_rows_without_topic (fileBase : string) (r : RawSheet) (tIdx : nat) :
  let s := present r in
  let headers := cleanHeaders (hd [] (jsonData s)) in
  (forall sIdx pIdx stIdx pre rows,
      (forall row, In row pre -> nonBlank (nth_error row tIdx) = false) ->
      ExcelImport.aggregate tIdx sIdx pIdx stIdx (pre ++ rows)
      = ExcelImport.aggregate tIdx sIdx pIdx stIdx rows)
  /\ (skippedByName (rawName r) = false ->
      2 <= length (cells r) ->
      ExcelImport.topicIndex headers = Some tIdx ->
      (ExcelImport.processSheet fileBase s = ExcelImport.SkippedNoItems
       <-> forall row, In row (tl (cells r)) -> Cell.nonBlank (nth_error row tIdx) = false)).
Proof.
  intros s headers. split; [intros; now apply import_leading_rows |].
  intros Hname Hlen Ht. unfold ExcelImport.processSheet.
  change (sheetName s) with (rawName r). rewrite Hname.
  assert (Ls : length (jsonData s) = length (cells r)) by apply length_map.
  destruct (length (jsonData s) <=? 1)%nat eqn:L; [apply Nat.leb_le in L; lia |].
  fold headers. rewrite Ht.
  set (items := ExcelImport.aggregate tIdx _ _ _ _).
  assert (R : (forall row, In row (tl (jsonData s)) -> nonBlank (nth_error row tIdx) = false)
              <-> (forall row, In row (tl (cells r))
                               -> Cell.nonBlank (nth_error row tIdx) = false)).
  { unfold s. rewrite present_rows. split.
    - intros H row Hin. rewrite <- cell_nonBlank. apply H. now apply in_map.
    - intros H row Hin. apply in_map_iff in Hin. destruct Hin as [raw [<- Hin]].
      rewrite cell_nonBlank. now apply H. }
  assert (K : items = [] <->
              forall row, In row (tl (jsonData s)) -> nonBlank (nth_error row tIdx) = false).
  { split.
    - intros E row Hin.
      assert (T : map topic items = []) by now rewrite E.
      unfold items in T. rewrite import_aggregate_topics in T.
      apply firstOccurrences_nil in T.
      destruct (nonBlank (nth_error row tIdx)) eqn:NB; [| reflexivity].
      assert (I : In (JS.trim (JS.text (nth_error row tIdx)))
                     (flat_map (importKey tIdx) (tl (jsonData s)))).
      { apply in_flat_map. exists row. split; [exact Hin |].
        unfold importKey. rewrite NB. now left. }
      rewrite T in I. contradiction.
    - intros H. unfold items.
      rewrite <- (app_nil_r (tl (jsonData s))).
      now rewrite import_leading_rows. }
  rewrite <- R.
  destruct (length items =? 0)%nat eqn:Z.
  - apply Nat.eqb_eq in Z. split; [intros _ | reflexivity].
    apply K. now destruct items.
  - apply Nat.eqb_neq in Z. split; [discriminate |].
    intros H. apply K in H. rewrite H in Z. now elim Z.
Qed.

(** A sheet whose topic cells are the number 0, [false], the empty text
    and a blank text. *)
Lemma import_rows_without_topic_witness :
  ExcelImport.processSheet "stacks.xlsx"
    (present (mkRawSheet "React"
                [ [CText "Topic"; CText "Status"];
                  [CNumber "0"; CText "Done"];
                  [CBoolean false; CNumber "1"];
                  [CText ""; CText "Done"];
                  [CText "  "; CText ""] ]))
  = ExcelImport.SkippedNoItems.
Proof.
  apply (proj2 (import_rows_without_topic "stacks.xlsx"
                  (mkRawSheet "React"
                     [ [CText "Topic"; CText "Status"];
                       [CNumber "0"; CText "Done"];
                       [CBoolean false; CNumber "1"];
                       [CText ""; CText "Done"];
                       [CText "  "; CText ""] ]) 0)).
  - reflexivity.
  - simpl; lia.
  - reflexivity.
  - intros row [<- | [<- | [<- | [<- | []]]]]; reflexivity.
Defined.
(** ** Files without data lines in the upload path *)

(** X13: a CSV file that has no data line, or only empty ones, is
    rejected by the upload script for a missing topic column, whatever
    its header line is, because the header names are read off the first
    parsed row; nothing is stored. *)
Theorem upload_rejects_header_only (header : Row) (lines : list Row)
        (techStackName description : string) (st : Store.t) (born now : nat) :
  forallb BulkUpload.emptyLine lines = true ->
  BulkUpload.processCSVFile (header :: lines) techStackName description st born now
  = inl (BulkUpload.ErrorMessage "CSV must have a column for Topics")
  /\ BulkUpload.processCSVFile [] techStackName description st born now
     = inl (BulkUpload.ErrorMessage "CSV must have a column for Topics").
Proof.
  intros H. split; [| reflexivity].
  unfold BulkUpload.processCSVFile, BulkUpload.parse.
  assert (E : filter (fun l => negb (BulkUpload.emptyLine l)) lines = []).
  { induction lines as [| l lines IH]; simpl in *; [reflexivity |].
    apply andb_true_iff in H. destruct H as [Hl H]. rewrite Hl. simpl. now apply IH. }
  now rewrite E.
Qed.

Lemma upload_rejects_header_only_witness :
  BulkUpload.processCSVFile [["Topic"; "Sub-Topics"; "Status"]; [""]] "React" ""
                            emptyStore 0 0
  = inl (BulkUpload.ErrorMessage "CSV must have a column for Topics").
Proof.
  apply (proj1 (upload_rejects_header_only ["Topic"; "Sub-Topics"; "Status"] [[""]]
                  "React" "" emptyStore 0 0 eq_refl)).
Defined.

(** ** Identifiers of the store *)

Lemma digit_inj (a b : nat) :
  a < 10 -> b < 10 -> ascii_of_nat (48 + a) = ascii_of_nat (48 + b) -> a = b.
Proof.
  intros Ha Hb E.
  assert (N : nat_of_ascii (ascii_of_nat (48 + a)) = nat_of_ascii (ascii_of_nat (48 + b)))
    by now rewrite E.
  rewrite !nat_ascii_embedding in N by lia. lia.
Qed.

Lemma String_inj (a b : ascii) (s t : string) :
  String a s = String b t -> a = b /\ s = t.
Proof.
  intros E. now injection E.
Qed.

Lemma digits_S (f n : nat) (acc : string) :
  Store.digits (S f) n acc
  = if (n <? 10)%nat then String (ascii_of_nat (48 + n mod 10)) acc
    else Store.digits f (n / 10) (String (ascii_of_nat (48 + n mod 10)) acc).
Proof.
  reflexivity.
Qed.

Lemma digits_longer (f n : nat) (acc : string) :
  0 < f -> String.length acc < String.length (Store.digits f n acc).
Proof.
  revert n acc. induction f as [| f IH]; intros n acc Hf; [lia |].
  simpl. destruct (n <? 10)%nat; [simpl; lia |].
  destruct f as [| f']; [simpl; lia |].
  etransitivity; [| apply IH; lia]. simpl. lia.
Qed.

Lemma digits_inj (n : nat) :
  forall f1 f2 m acc1 acc2,
    n < f1 -> m < f2 -> String.length acc1 = String.length acc2 ->
    Store.digits f1 n acc1 = Store.digits f2 m acc2 ->
    n = m /\ acc1 = acc2.
Proof.
  induction n as [n IH] using (well_founded_induction lt_wf).
  intros f1 f2 m acc1 acc2 H1 H2 L E.
  destruct f1 as [| f1]; [lia |]. destruct f2 as [| f2]; [lia |].
  rewrite !digits_S in E.
  destruct (n <? 10)%nat eqn:Bn; destruct (m <? 10)%nat eqn:Bm.
  - apply Nat.ltb_lt in Bn, Bm. apply String_inj in E. destruct E as [Ed Ea].
    rewrite !Nat.mod_small in Ed by lia.
    split; [now apply digit_inj | exact Ea].
  - exfalso. apply Nat.ltb_ge in Bm.
    assert (Q : m / 10 < f2) by (pose proof (Nat.div_lt m 10); lia).
    pose proof (digits_longer f2 (m / 10)
                  (String (ascii_of_nat (48 + m mod 10)) acc2)) as D.
    rewrite <- E in D. simpl in D. lia.
  - exfalso. apply Nat.ltb_ge in Bn.
    assert (Q : n / 10 < f1) by (pose proof (Nat.div_lt n 10); lia).
    pose proof (digits_longer f1 (n / 10)
                  (String (ascii_of_nat (48 + n mod 10)) acc1)) as D.
    rewrite E in D. simpl in D. lia.
  - apply Nat.ltb_ge in Bn, Bm.
    assert (Qn : n / 10 < n) by (apply Nat.div_lt; lia).
    assert (Qm : m / 10 < m) by (apply Nat.div_lt; lia).
    assert (L' : String.length (String (ascii_of_nat (48 + n mod 10)) acc1)
                 = String.length (String (ascii_of_nat (48 + m mod 10)) acc2))
      by (simpl; now rewrite L).
    assert (B1 : n / 10 < f1) by lia.
    assert (B2 : m / 10 < f2) by lia.
    destruct (IH (n / 10) Qn f1 f2 (m / 10) _ _ B1 B2 L' E) as [Eq Ea].
    apply String_inj in Ea. destruct Ea as [Ed Ea].
    assert (Em : n mod 10 = m mod 10).
    { apply digit_inj; [apply Nat.mod_upper_bound; lia
                       | apply Nat.mod_upper_bound; lia | exact Ed]. }
    split; [| exact Ea].
    rewrite (Nat.div_mod_eq n 10), (Nat.div_mod_eq m 10). now rewrite Eq, Em.
Qed.

Lemma freshId_inj (n m : nat) : Store.freshId n = Store.freshId m -> n = m.
Proof.
  unfold Store.freshId. intros E.
  exact (proj1 (digits_inj n (S n) (S m) m "" "" ltac:(lia) ltac:(lia) eq_refl E)).
Qed.

(** ** The schema: setters and validators *)

Lemma settled_trim (s : string) : Schema.settled (JS.trim s) = true.
Proof. unfold Schema.settled. rewrite trim_idem. apply String.eqb_refl. Qed.

Lemma settled_eq (s : string) : Schema.settled s = true -> JS.trim s = s.
Proof. unfold Schema.settled. apply String.eqb_eq. Qed.

Lemma settledEntry_cast (e : Entry) : Schema.settledEntry (Schema.castEntry e) = true.
Proof. apply settled_trim. Qed.

Lemma castEntry_fixed (e : Entry) :
  Schema.settledEntry e = true -> Schema.castEntry e = e.
Proof.
  destruct e as [n]. unfold Schema.settledEntry, Schema.castEntry. simpl.
  intros H. now rewrite (settled_eq _ H).
Qed.

Lemma map_fixed {A : Type} (f : A -> A) (p : A -> bool) (l : list A) :
  (forall x, p x = true -> f x = x) -> forallb p l = true -> map f l = l.
Proof.
  intros H. induction l as [| a l IH]; simpl; [reflexivity |].
  intros F. apply andb_true_iff in F. destruct F as [Fa Fl].
  now rewrite (H a Fa), (IH Fl).
Qed.

Lemma forallb_map_all {A B : Type} (f : A -> B) (p : B -> bool) (l : list A) :
  (forall x, p (f x) = true) -> forallb p (map f l) = true.
Proof.
  intros H. induction l as [| a l IH]; simpl; [reflexivity |].
  now rewrite H, IH.
Qed.

Lemma settledItem_cast (it : RoadmapItem) : Schema.settledItem (Schema.castItem it) = true.
Proof.
  unfold Schema.settledItem, Schema.castItem. simpl.
  rewrite settled_trim.
  now rewrite !(forallb_map_all Schema.castEntry Schema.settledEntry _ settledEntry_cast).
Qed.

Lemma castItem_fixed (it : RoadmapItem) :
  Schema.settledItem it = true -> Schema.castItem it = it.
Proof.
  destruct it as [t subs projs st]. unfold Schema.settledItem, Schema.castItem. simpl.
  intros H. apply andb_true_iff in H. destruct H as [H P].
  apply andb_true_iff in H. destruct H as [T S].
  rewrite (settled_eq _ T).
  now rewrite (map_fixed _ _ subs castEntry_fixed S), (map_fixed _ _ projs castEntry_fixed P).
Qed.

Lemma settledDoc_cast (d : Store.TechStack) : Store.settledDoc (Store.castDoc d) = true.
Proof.
  unfold Store.settledDoc, Store.castDoc. simpl. rewrite !settled_trim. simpl.
  apply forallb_map_all. intros x. apply settledItem_cast.
Qed.

Lemma castItemDoc_fixed (i : Store.ItemDoc) :
  Schema.settledItem (Store.body i) = true -> Store.castItemDoc i = i.
Proof.
  destruct i as [k b]. unfold Store.castItemDoc. simpl. intros H.
  now rewrite (castItem_fixed _ H).
Qed.

Lemma castDoc_fixed (d : Store.TechStack) :
  Store.settledDoc d = true -> Store.castDoc d = d.
Proof.
  destruct d as [i n de h items c u]. unfold Store.settledDoc, Store.castDoc. simpl.
  intros H. apply andb_true_iff in H. destruct H as [H I].
  apply andb_true_iff in H. destruct H as [N D].
  rewrite (settled_eq _ N), (settled_eq _ D).
  now rewrite (map_fixed _ _ items castItemDoc_fixed I).
Qed.

Lemma storable_stamp_cast (d : Store.TechStack) (now : nat) :
  Store.storable (Store.stamp (Store.castDoc d) now)
  = Store.validDoc (Store.stamp (Store.castDoc d) now).
Proof.
  unfold Store.storable.
  change (Store.settledDoc (Store.stamp (Store.castDoc d) now))
    with (Store.settledDoc (Store.castDoc d)).
  rewrite settledDoc_cast. apply andb_true_r.
Qed.

(** ** The store: what the collection holds *)

Lemma held_In (st : Store.t) (d : Store.TechStack) :
  In d (Store.docs st) -> Store.storable d = true.
Proof.
  intros H. pose proof (Store.held st) as F. rewrite forallb_forall in F. now apply F.
Qed.

Lemma mk_Some (ds : list Store.TechStack) (n : nat) :
  forallb Store.storable ds = true ->
  exists st, Store.mk ds n = Some st /\ Store.docs st = ds /\ Store.nextId st = n.
Proof.
  intros H. unfold Store.mk.
  destruct (Bool.bool_dec (forallb Store.storable ds) true) as [ok | no];
    [| now elim no].
  eexists; split; [reflexivity |]. split; reflexivity.
Qed.

Lemma mk_docs (ds : list Store.TechStack) (n : nat) (st : Store.t) :
  Store.mk ds n = Some st -> Store.docs st = ds /\ Store.nextId st = n.
Proof.
  unfold Store.mk.
  destruct (Bool.bool_dec (forallb Store.storable ds) true) as [ok | no];
    [| discriminate].
  intros E. injection E as <-. split; reflexivity.
Qed.

Lemma mk_None (ds : list Store.TechStack) (n : nat) :
  forallb Store.storable ds = false -> Store.mk ds n = None.
Proof.
  intros H. unfold Store.mk.
  destruct (Bool.bool_dec (forallb Store.storable ds) true) as [ok | no];
    [congruence | reflexivity].
Qed.

Lemma forallb_replaceById (p : Store.TechStack -> bool) (ds : list Store.TechStack)
      (d : Store.TechStack) :
  forallb p ds = true -> p d = true -> forallb p (Store.replaceById ds d) = true.
Proof.
  intros F Pd. induction ds as [| x ds IH]; simpl in *; [reflexivity |].
  apply andb_true_iff in F. destruct F as [Fx Fr].
  destruct (Store.id x =? Store.id d); simpl.
  - now rewrite Pd, Fr.
  - now rewrite Fx, IH.
Qed.

Lemma forallb_removeById (p : Store.TechStack -> bool) (ds : list Store.TechStack)
      (i : string) :
  forallb p ds = true -> forallb p (TechStackController.removeById ds i) = true.
Proof.
  intros F. induction ds as [| x ds IH]; simpl in *; [reflexivity |].
  apply andb_true_iff in F. destruct F as [Fx Fr].
  destruct (Store.id x =? i); simpl; [exact Fr | now rewrite Fx, IH].
Qed.

Lemma findById_In (st : Store.t) (i : string) (d : Store.TechStack) :
  Store.findById st i = Some d -> In d (Store.docs st) /\ Store.id d = i.
Proof.
  unfold Store.findById. intros H. apply find_some in H. destruct H as [Hin E].
  apply String.eqb_eq in E. auto.
Qed.

(** [save] succeeds exactly when the document passes the validators
    after the setters, and then writes that document in place. *)
Lemma save_valid (st : Store.t) (d : Store.TechStack) (now : nat) :
  Store.validDoc (Store.castDoc d) = true ->
  exists st',
    Store.save st d now = Some (st', Store.stamp (Store.castDoc d) now)
    /\ Store.docs st'
       = Store.replaceById (Store.docs st) (Store.stamp (Store.castDoc d) now)
    /\ Store.nextId st' = Store.nextId st.
Proof.
  intros V. unfold Store.save.
  change (Store.validDoc (Store.stamp (Store.castDoc d) now))
    with (Store.validDoc (Store.castDoc d)).
  rewrite V.
  destruct (mk_Some (Store.replaceById (Store.docs st) (Store.stamp (Store.castDoc d) now))
              (Store.nextId st)) as [st' [E [D N]]].
  { apply forallb_replaceById; [apply Store.held |].
    rewrite storable_stamp_cast. exact V. }
  exists st'. rewrite E. simpl. auto.
Qed.

Lemma save_invalid (st : Store.t) (d : Store.TechStack) (now : nat) :
  Store.validDoc (Store.castDoc d) = false -> Store.save st d now = None.
Proof.
  intros V. unfold Store.save.
  change (Store.validDoc (Store.stamp (Store.castDoc d) now))
    with (Store.validDoc (Store.castDoc d)).
  now rewrite V.
Qed.

Lemma forallb_filter_sub {A : Type} (p q : A -> bool) (l : list A) :
  forallb p l = true -> forallb p (filter q l) = true.
Proof.
  induction l as [| a l IH]; simpl; [reflexivity |].
  intros F. apply andb_true_iff in F. destruct F as [Fa Fl].
  destruct (q a); simpl; [now rewrite Fa, IH | now apply IH].
Qed.

Lemma storable_parts (d : Store.TechStack) :
  Store.storable d = true ->
  Schema.required (Store.name d) = true
  /\ Schema.settled (Store.name d) = true
  /\ Schema.settled (Store.description d) = true
  /\ forallb (fun i => Schema.validItem (Store.body i)) (Store.roadmapItems d) = true
  /\ forallb (fun i => Schema.settledItem (Store.body i)) (Store.roadmapItems d) = true.
Proof.
  unfold Store.storable, Store.validDoc, Store.settledDoc. intros H.
  apply andb_true_iff in H. destruct H as [V S].
  apply andb_true_iff in V. destruct V as [R VI].
  apply andb_true_iff in S. destruct S as [S SI].
  apply andb_true_iff in S. destruct S as [SN SD]. auto.
Qed.

(** A stored document with some of its roadmap items left out is as the
    collection can hold it, and the setters leave it as it is. *)
Lemma withItems_filter_storable (d : Store.TechStack) (q : Store.ItemDoc -> bool) :
  Store.storable d = true ->
  Store.castDoc (Store.withItems d (filter q (Store.roadmapItems d)))
  = Store.withItems d (filter q (Store.roadmapItems d))
  /\ Store.validDoc (Store.withItems d (filter q (Store.roadmapItems d))) = true.
Proof.
  intros H. destruct (storable_parts d H) as [R [SN [SD [VI SI]]]].
  split.
  - apply castDoc_fixed. unfold Store.settledDoc, Store.withItems. simpl.
    rewrite SN, SD. simpl. now apply forallb_filter_sub.
  - unfold Store.validDoc, Store.withItems. simpl. rewrite R. simpl.
    now apply forallb_filter_sub.
Qed.

(** ** Deleting a roadmap item *)

Lemma findById_replaceById (ds : list Store.TechStack) (i : string)
      (old new : Store.TechStack) :
  find (fun x => Store.id x =? i) ds = Some old ->
  Store.id new = Store.id old ->
  find (fun x => Store.id x =? i) (Store.replaceById ds new) = Some new.
Proof.
  intros F Hid. induction ds as [| x ds IH]; simpl in *; [discriminate |].
  destruct (String.eqb_spec (Store.id x) i) as [E | NE].
  - injection F as <-. rewrite Hid, String.eqb_refl. simpl.
    now rewrite Hid, E, String.eqb_refl.
  - assert (Ho : Store.id old = i).
    { apply find_some in F. destruct F as [_ F]. now apply String.eqb_eq in F. }
    rewrite Hid, Ho.
    destruct (String.eqb_spec (Store.id x) i); [contradiction |].
    simpl. destruct (String.eqb_spec (Store.id x) i); [contradiction | auto].
Qed.

Lemma filter_all {A : Type} (p : A -> bool) (l : list A) :
  (forall x, In x l -> p x = true) -> filter p l = l.
Proof.
  induction l as [| a l IH]; simpl; intros H; [reflexivity |].
  rewrite (H a (or_introl eq_refl)). f_equal. apply IH. intros x Hx. apply H. now right.
Qed.

(** What [deleteRoadmapItem] does on a tech stack that exists: the
    [save] of the document without the item goes through. *)
Lemma deleteRoadmapItem_found (st : Store.t) (id itemId : string) (now : nat)
      (techStack : Store.TechStack) :
  Store.findById st id = Some techStack ->
  let saved :=
    Store.stamp (Store.withItems techStack
                   (filter (fun item => negb (Store._id item =? itemId))
                           (Store.roadmapItems techStack))) now in
  exists st',
    Controller.deleteRoadmapItem st id itemId now
    = (st', Controller.mkResponse 200 true (Some saved) None)
    /\ Store.docs st' = Store.replaceById (Store.docs st) saved
    /\ Store.nextId st' = Store.nextId st.
Proof.
  intros F saved. subst saved.
  destruct (findById_In st id techStack F) as [Hin _].
  destruct (withItems_filter_storable techStack
              (fun item => negb (Store._id item =? itemId)) (held_In st techStack Hin))
    as [C V].
  unfold Controller.deleteRoadmapItem. rewrite F. cbv zeta.
  rewrite <- C in V.
  destruct (save_valid st _ now V) as [st' [E [D N]]].
  rewrite E. rewrite C in *. exists st'. auto.
Qed.

(** C10: deleting a roadmap item of a tech stack that exists always
    succeeds, at whatever time.  The response is the 200 success envelope
    with the tech stack, whose roadmap items are the previous ones
    without those whose identifier is [itemId]; the tech stack is stored
    so; and if no item has that identifier the roadmap items are
    unchanged. *)
Theorem deleteRoadmapItem_succeeds (st : Store.t) (id itemId : string) (now : nat)
        (techStack : Store.TechStack) :
  Store.findById st id = Some techStack ->
  let st' := fst (Controller.deleteRoadmapItem st id itemId now) in
  let res := snd (Controller.deleteRoadmapItem st id itemId now) in
  Controller.status res = 200
  /\ Controller.success res = true
  /\ Controller.error res = None
  /\ exists techStack',
      Controller.data res = Some techStack'
      /\ Store.findById st' id = Some techStack'
      /\ Store.name techStack' = Store.name techStack
      /\ Store.roadmapItems techStack'
         = filter (fun item => negb (Store._id item =? itemId))
                  (Store.roadmapItems techStack)
      /\ (forall item, In item (Store.roadmapItems techStack') <->
                       In item (Store.roadmapItems techStack)
                       /\ Store._id item <> itemId)
      /\ ((forall item, In item (Store.roadmapItems techStack) ->
                        Store._id item <> itemId) ->
          Store.roadmapItems techStack' = Store.roadmapItems techStack).
Proof.
  intros F st' res. subst st' res.
  destruct (deleteRoadmapItem_found st id itemId now techStack F) as [st' [E [D N]]].
  rewrite E. cbn [fst snd Controller.status Controller.success Controller.error
                  Controller.data].
  repeat split.
  eexists; split; [reflexivity |].
  split; [| split; [reflexivity | split; [reflexivity | split]]].
  - unfold Store.findById in *. rewrite D.
    now apply findById_replaceById with (old := techStack).
  - intros item. simpl. rewrite filter_In. split.
    + intros [Hin Hne]. split; [exact Hin |].
      apply negb_true_iff in Hne. now apply String.eqb_neq in Hne.
    + intros [Hin Hne]. split; [exact Hin |].
      apply negb_true_iff. now apply String.eqb_neq.
  - intros Hnone. simpl. apply filter_all.
    intros x Hx. apply negb_true_iff, String.eqb_neq. now apply Hnone.
Qed.

(** Deleting an identifier that no item of the stored "React" has. *)
Lemma deleteRoadmapItem_succeeds_witness :
  Controller.status (snd (Controller.deleteRoadmapItem storedReact "0" "7" 9)) = 200
  /\ Controller.success (snd (Controller.deleteRoadmapItem storedReact "0" "7" 9)) = true.
Proof.
  destruct (deleteRoadmapItem_succeeds storedReact "0" "7" 9 reactDoc eq_refl)
    as [S [Su _]].
  split; [exact S | exact Su].
Defined.

(** ** The sink of the ingestion scripts *)

Lemma body_castItems (n : nat) (items : list RoadmapItem) :
  map Store.body (Store.castItems n items) = items.
Proof.
  revert n. induction items as [| it items IH]; intros n; simpl; [reflexivity |].
  now rewrite IH.
Qed.

Lemma castItems_cast (n : nat) (items : list RoadmapItem) :
  map Store.castItemDoc (Store.castItems n items)
  = Store.castItems n (map Schema.castItem items).
Proof.
  revert n. induction items as [| it items IH]; intros n; simpl; [reflexivity |].
  now rewrite IH.
Qed.

Lemma forallb_castItems (p : RoadmapItem -> bool) (n : nat) (items : list RoadmapItem) :
  forallb (fun i => p (Store.body i)) (Store.castItems n items) = forallb p items.
Proof.
  revert n. induction items as [| it items IH]; intros n; simpl; [reflexivity |].
  now rewrite IH.
Qed.

Lemma forallb_map_comp {A B : Type} (f : A -> B) (p : B -> bool) (l : list A) :
  forallb p (map f l) = forallb (fun x => p (f x)) l.
Proof.
  induction l as [| a l IH]; simpl; [reflexivity | now rewrite IH].
Qed.

Lemma length_castItems (n : nat) (items : list RoadmapItem) :
  length (Store.castItems n items) = length items.
Proof.
  revert n. induction items as [| it items IH]; intros n; simpl; [reflexivity |].
  now rewrite IH.
Qed.

Lemma find_name_In (ds : list Store.TechStack) (n : string) (d : Store.TechStack) :
  find (fun x => Store.name x =? n) ds = Some d -> In d ds /\ Store.name d = n.
Proof.
  intros H. apply find_some in H. destruct H as [Hin E].
  apply String.eqb_eq in E. auto.
Qed.

Lemma findOne_replaceById (ds : list Store.TechStack) (n : string)
      (old new : Store.TechStack) :
  NoDup (map Store.id ds) ->
  find (fun x => Store.name x =? n) ds = Some old ->
  Store.id new = Store.id old ->
  Store.name new = n ->
  find (fun x => Store.name x =? n) (Store.replaceById ds new) = Some new
  /\ length (Store.replaceById ds new) = length ds.
Proof.
  intros ND F Hid Hname. induction ds as [| x ds IH]; simpl in *; [discriminate |].
  inversion ND as [| ? ? Hnotin ND']; subst.
  destruct (String.eqb_spec (Store.name x) (Store.name new)) as [E | NE].
  - injection F as <-. rewrite Hid, String.eqb_refl. simpl.
    now rewrite String.eqb_refl.
  - destruct (String.eqb_spec (Store.id x) (Store.id new)) as [Ei | NEi].
    + exfalso. apply Hnotin. rewrite Ei, Hid.
      apply in_map. now apply find_name_In in F.
    + simpl. destruct (String.eqb_spec (Store.name x) (Store.name new)); [contradiction |].
      destruct (IH ND' F) as [F' L]. now rewrite F', L.
Qed.

Lemma findOne_app_new (ds : list Store.TechStack) (n : string) (d : Store.TechStack) :
  find (fun x => Store.name x =? n) ds = None ->
  Store.name d = n ->
  find (fun x => Store.name x =? n) (ds ++ [d]) = Some d.
Proof.
  intros F E. induction ds as [| x ds IH]; simpl in *.
  - now rewrite E, String.eqb_refl.
  - destruct (Store.name x =? n); [discriminate | auto].
Qed.

Lemma existsb_find_none {A : Type} (p : A -> bool) (l : list A) :
  find p l = None -> existsb p l = false.
Proof.
  induction l as [| a l IH]; simpl; [reflexivity |].
  destruct (p a); [discriminate | exact IH].
Qed.

(** The document that the sink writes over a stored one, and the one it
    creates. *)
Lemma upsert_found (st : Store.t) (d : TechStackData) (born now : nat)
      (old : Store.TechStack) :
  Store.findOne st (d_name d) = Some old ->
  Store.name old = JS.trim (d_name d)
  /\ Schema.required (JS.trim (d_name d)) = true
  /\ (Schema.accepts d = false -> Store.upsert st d born now = None)
  /\ (Schema.accepts d = true ->
      exists st',
        Store.upsert st d born now = Some st'
        /\ Store.docs st'
           = Store.replaceById (Store.docs st)
               (Store.mkDoc (Store.id old) (Store.name old) (JS.trim (d_description d))
                  (d_headers d)
                  (Store.castItems (Store.nextId st)
                                   (map Schema.castItem (d_roadmapItems d)))
                  (Store.createdAt old) now)
        /\ Store.nextId st' = Store.nextId st + length (d_roadmapItems d)).
Proof.
  intros F. pose proof F as F0. unfold Store.findOne in F0.
  destruct (find_name_In _ _ _ F0) as [Hin En].
  destruct (storable_parts old (held_In st old Hin)) as [R [SN _]].
  split; [exact En |]. split; [now rewrite <- En |].
  set (doc0 := Store.mkDoc (Store.id old) (Store.name old) (d_description d)
                 (d_headers d) (Store.castItems (Store.nextId st) (d_roadmapItems d))
                 (Store.createdAt old) (Store.updatedAt old)).
  assert (C : Store.castDoc doc0
              = Store.mkDoc (Store.id old) (Store.name old) (JS.trim (d_description d))
                  (d_headers d)
                  (Store.castItems (Store.nextId st)
                                   (map Schema.castItem (d_roadmapItems d)))
                  (Store.createdAt old) (Store.updatedAt old)).
  { unfold Store.castDoc, doc0. simpl. now rewrite (settled_eq _ SN), castItems_cast. }
  assert (V : Store.validDoc (Store.castDoc doc0) = Schema.accepts d).
  { rewrite C. unfold Store.validDoc, Schema.accepts. simpl.
    rewrite R, <- En, R. simpl.
    now rewrite forallb_castItems, forallb_map_comp. }
  split.
  - intros A. unfold Store.upsert. rewrite F. cbv zeta. fold doc0.
    rewrite save_invalid; [reflexivity | now rewrite V].
  - intros A. unfold Store.upsert. rewrite F. cbv zeta. fold doc0.
    rewrite <- V in A.
    destruct (save_valid (Store.advance st (length (d_roadmapItems d))) doc0 now A)
      as [st' [E [D N]]].
    rewrite E. simpl. exists st'. split; [reflexivity |].
    rewrite C in D. split; [exact D | exact N].
Qed.

Lemma upsert_new (st : Store.t) (d : TechStackData) (born now : nat) :
  Store.findOne st (d_name d) = None ->
  (Schema.accepts d = false -> Store.upsert st d born now = None)
  /\ (Schema.accepts d = true ->
      exists st',
        Store.upsert st d born now = Some st'
        /\ Store.docs st'
           = Store.docs st
             ++ [Store.mkDoc (Store.freshId (Store.nextId st)) (JS.trim (d_name d))
                   (JS.trim (d_description d)) (d_headers d)
                   (Store.castItems (S (Store.nextId st))
                                    (map Schema.castItem (d_roadmapItems d)))
                   born now]
        /\ Store.nextId st' = S (Store.nextId st) + length (d_roadmapItems d)).
Proof.
  intros F.
  set (doc1 := Store.mkDoc (Store.freshId (Store.nextId st)) (JS.trim (d_name d))
                 (JS.trim (d_description d)) (d_headers d)
                 (Store.castItems (S (Store.nextId st))
                                  (map Schema.castItem (d_roadmapItems d)))
                 born now).
  assert (C : Store.stamp
                (Store.castDoc
                   (Store.mkDoc (Store.freshId (Store.nextId st)) (d_name d)
                      (d_description d) (d_headers d)
                      (Store.castItems (S (Store.nextId st)) (d_roadmapItems d))
                      born born)) now = doc1).
  { unfold Store.stamp, Store.castDoc, doc1. simpl. now rewrite castItems_cast. }
  assert (V : Store.validDoc doc1 = Schema.accepts d).
  { unfold Store.validDoc, Schema.accepts, doc1. simpl.
    now rewrite forallb_castItems, forallb_map_comp. }
  assert (U : existsb (fun x => Store.name x =? Store.name doc1) (Store.docs st) = false).
  { apply existsb_find_none. exact F. }
  unfold Store.upsert. rewrite F. unfold Store.create. cbv zeta. rewrite C, V, U.
  split.
  - intros A. now rewrite A.
  - intros A. rewrite A. cbn [negb andb].
    destruct (mk_Some (Store.docs st ++ [doc1])
                (S (Store.nextId st) + length (d_roadmapItems d))) as [st' [E [D N]]].
    { rewrite forallb_app. rewrite (Store.held st). simpl.
      rewrite andb_true_r. unfold Store.storable. rewrite V, A. simpl.
      rewrite <- C.
      change (Store.settledDoc (Store.stamp ?x now)) with (Store.settledDoc x).
      apply settledDoc_cast. }
    exists st'. auto.
Qed.

(** ** Clean data pass the schema unchanged *)

Lemma cleanEntries_schema (l : list Entry) :
  cleanEntries l ->
  forallb Schema.settledEntry l = true /\ forallb Schema.validEntry l = true.
Proof.
  intros [_ F]. induction F as [| e l [Ne Te] F IH]; simpl; [auto |].
  destruct IH as [IS IV].
  unfold Schema.settledEntry, Schema.settled, Schema.validEntry, Schema.required.
  unfold trimmed in Te. rewrite Te, String.eqb_refl.
  apply String.eqb_neq in Ne. rewrite Ne. simpl. auto.
Qed.

Lemma cleanItem_schema (it : RoadmapItem) :
  cleanItem it -> Schema.castItem it = it /\ Schema.validItem it = true.
Proof.
  intros [Nt [Tt [CS CP]]].
  destruct (cleanEntries_schema _ CS) as [SS VS].
  destruct (cleanEntries_schema _ CP) as [SP VP].
  split.
  - apply castItem_fixed. unfold Schema.settledItem, Schema.settled.
    unfold trimmed in Tt. now rewrite Tt, String.eqb_refl, SS, SP.
  - unfold Schema.validItem, Schema.required.
    apply String.eqb_neq in Nt. now rewrite Nt, VS, VP.
Qed.

Lemma cleanItems_schema (items : list RoadmapItem) :
  Forall cleanItem items ->
  map Schema.castItem items = items
  /\ forallb (fun it => Schema.validItem (Schema.castItem it)) items = true.
Proof.
  induction 1 as [| it items C F [IM IV]]; simpl; [auto |].
  destruct (cleanItem_schema it C) as [E V].
  rewrite E, V, IM, IV. auto.
Qed.

Lemma processSheet_data (fileBase : string) (s : Sheet) (d : TechStackData) :
  ExcelImport.processSheet fileBase s = ExcelImport.Imported d ->
  d_name d = sheetName s /\ Forall cleanItem (d_roadmapItems d).
Proof.
  unfold ExcelImport.processSheet.
  destruct (skippedByName _); [discriminate |].
  destruct (length (jsonData s) <=? 1)%nat; [discriminate |].
  destruct (ExcelImport.topicIndex _) as [t |]; [| discriminate].
  destruct (length _ =? 0)%nat; [discriminate |].
  intros E; injection E as <-. simpl. split; [reflexivity |].
  apply import_aggregate_clean.
Qed.




(** ** The store under the sink *)

Lemma replaceById_ids (ds : list Store.TechStack) (d : Store.TechStack) :
  map Store.id (Store.replaceById ds d) = map Store.id ds.
Proof.
  induction ds as [| x ds IH]; simpl; [reflexivity |].
  destruct (String.eqb_spec (Store.id x) (Store.id d)) as [E | _]; simpl.
  - now rewrite E.
  - now rewrite IH.
Qed.

Lemma replaceById_names (ds : list Store.TechStack) (old new : Store.TechStack) :
  NoDup (map Store.id ds) -> In old ds ->
  Store.id new = Store.id old -> Store.name new = Store.name old ->
  map Store.name (Store.replaceById ds new) = map Store.name ds.
Proof.
  intros ND Hin Ei En. induction ds as [| x ds IH]; simpl in *; [contradiction |].
  inversion ND as [| ? ? Hnot ND']; subst.
  destruct (String.eqb_spec (Store.id x) (Store.id new)) as [E | NE]; simpl.
  - destruct Hin as [-> | Hin]; [now rewrite En |].
    exfalso. apply Hnot. rewrite E, Ei. now apply in_map.
  - destruct Hin as [-> | Hin]; [congruence |]. now rewrite IH.
Qed.

Lemma replaceById_find_other (ds : list Store.TechStack) (old new : Store.TechStack)
      (n' : string) :
  NoDup (map Store.id ds) -> In old ds ->
  Store.id new = Store.id old -> Store.name new = Store.name old ->
  Store.name old <> n' ->
  find (fun x => Store.name x =? n') (Store.replaceById ds new)
  = find (fun x => Store.name x =? n') ds.
Proof.
  intros ND Hin Ei En Hn. induction ds as [| x ds IH]; simpl in *; [reflexivity |].
  inversion ND as [| ? ? Hnot ND']; subst.
  destruct (String.eqb_spec (Store.id x) (Store.id new)) as [E | NE]; simpl.
  - assert (x = old) as ->.
    { destruct Hin as [-> | Hin]; [reflexivity |].
      exfalso. apply Hnot. rewrite E, Ei. now apply in_map. }
    rewrite En. destruct (String.eqb_spec (Store.name old) n'); [contradiction | reflexivity].
  - destruct Hin as [-> | Hin]; [congruence |].
    rewrite (IH ND' Hin). reflexivity.
Qed.

Lemma find_app_other (ds : list Store.TechStack) (d : Store.TechStack) (n' : string) :
  Store.name d <> n' ->
  find (fun x => Store.name x =? n') (ds ++ [d]) = find (fun x => Store.name x =? n') ds.
Proof.
  intros Hn. induction ds as [| x ds IH]; simpl.
  - destruct (String.eqb_spec (Store.name d) n'); [contradiction | reflexivity].
  - now rewrite IH.
Qed.

(** What a run that the schema accepts does to a well-formed store. *)
Lemma upsert_accepted (st : Store.t) (d : TechStackData) (born now : nat) :
  wellFormed st -> Schema.accepts d = true ->
  exists st' doc,
    Store.upsert st d born now = Some st'
    /\ wellFormed st'
    /\ Store.findOne st' (d_name d) = Some doc
    /\ recordOf doc
       = mkData (JS.trim (d_name d)) (JS.trim (d_description d)) (d_headers d)
                (map Schema.castItem (d_roadmapItems d))
    /\ Store.updatedAt doc = now
    /\ (forall n', JS.trim n' <> JS.trim (d_name d) ->
                   Store.findOne st' n' = Store.findOne st n')
    /\ length (Store.docs st')
       = match Store.findOne st (d_name d) with
         | Some _ => length (Store.docs st)
         | None => S (length (Store.docs st))
         end.
Proof.
  intros [NDi [NDn B]] A.
  destruct (Store.findOne st (d_name d)) as [old |] eqn:F.
  - destruct (upsert_found st d born now old F) as [En [_ [_ S]]].
    destruct (S A) as [st' [E [D N]]].
    pose proof F as F0. unfold Store.findOne in F0.
    destruct (find_name_In _ _ _ F0) as [Hin _].
    set (doc := Store.mkDoc (Store.id old) (Store.name old) (JS.trim (d_description d))
                  (d_headers d)
                  (Store.castItems (Store.nextId st)
                                   (map Schema.castItem (d_roadmapItems d)))
                  (Store.createdAt old) now) in *.
    destruct (findOne_replaceById (Store.docs st) (JS.trim (d_name d)) old doc
                NDi F0 eq_refl En) as [F' L].
    exists st', doc. split; [exact E |]. split; [| split; [| split; [| split; [| split]]]].
    + unfold wellFormed. rewrite D, N, replaceById_ids.
      rewrite (replaceById_names (Store.docs st) old doc) by auto.
      split; [exact NDi |]. split; [exact NDn |].
      intros x Hx.
      assert (Hid : In (Store.id x) (map Store.id (Store.docs st))).
      { rewrite <- (replaceById_ids (Store.docs st) doc). now apply in_map. }
      apply in_map_iff in Hid. destruct Hid as [y [Ey Hy]].
      destruct (B y Hy) as [k [Hk Ek]]. exists k. split; [lia | congruence].
    + unfold Store.findOne. now rewrite D.
    + unfold recordOf, doc. simpl. now rewrite body_castItems, En.
    + reflexivity.
    + intros n' Hn'. unfold Store.findOne. rewrite D.
      apply replaceById_find_other with (old := old); auto.
      rewrite En. congruence.
    + now rewrite D.
  - destruct (proj2 (upsert_new st d born now F) A) as [st' [E [D N]]].
    unfold Store.findOne in F.
    set (doc := Store.mkDoc (Store.freshId (Store.nextId st)) (JS.trim (d_name d))
                  (JS.trim (d_description d)) (d_headers d)
                  (Store.castItems (S (Store.nextId st))
                                   (map Schema.castItem (d_roadmapItems d)))
                  born now) in *.
    exists st', doc. split; [exact E |]. split; [| split; [| split; [| split; [| split]]]].
    + unfold wellFormed. rewrite D, N, !map_app. simpl. split; [| split].
      * apply NoDup_app; [exact NDi | repeat constructor; auto |].
        intros i Hi [<- | []].
        apply in_map_iff in Hi. destruct Hi as [y [Ey Hy]].
        destruct (B y Hy) as [k [Hk Ek]]. rewrite Ek in Ey.
        apply freshId_inj in Ey. lia.
      * apply NoDup_app; [exact NDn | repeat constructor; auto |].
        intros n Hn [<- | []].
        apply in_map_iff in Hn. destruct Hn as [y [Ey Hy]].
        pose proof (find_none _ _ F y Hy) as Nn. simpl in Nn.
        rewrite Ey, String.eqb_refl in Nn. discriminate Nn.
      * intros x Hx. apply in_app_iff in Hx. destruct Hx as [Hx | [<- | []]].
        -- destruct (B x Hx) as [k [Hk Ek]]. exists k. split; [lia | exact Ek].
        -- exists (Store.nextId st). simpl. split; [lia | reflexivity].
    + unfold Store.findOne. rewrite D. apply findOne_app_new; [exact F | reflexivity].
    + unfold recordOf, doc. simpl. now rewrite body_castItems.
    + reflexivity.
    + intros n' Hn'. unfold Store.findOne. rewrite D.
      apply find_app_other. simpl. congruence.
    + rewrite D, length_app. simpl. lia.
Qed.

Lemma upsert_refused (st : Store.t) (d : TechStackData) (born now : nat) :
  Schema.accepts d = false -> Store.upsert st d born now = None.
Proof.
  intros A. destruct (Store.findOne st (d_name d)) as [old |] eqn:F.
  - now apply (proj1 (proj2 (proj2 (upsert_found st d born now old F)))).
  - now apply (proj1 (upsert_new st d born now F)).
Qed.

(** X14: the sink keeps the store well formed.  From a store whose
    records have distinct identifiers and distinct names, a run that the
    schema accepts ends in such a store; the records of all other names
    are as they were; and the number of records grows by one exactly when
    the trimmed name was new.  A run that the schema refuses stores
    nothing. *)
Theorem upsert_keeps_store (st : Store.t) (d : TechStackData) (born now : nat) :
  wellFormed st ->
  (Schema.accepts d = false -> Store.upsert st d born now = None)
  /\ (Schema.accepts d = true ->
      exists st',
        Store.upsert st d born now = Some st'
        /\ wellFormed st'
        /\ (forall n', JS.trim n' <> JS.trim (d_name d) ->
                       Store.findOne st' n' = Store.findOne st n')
        /\ length (Store.docs st')
           = match Store.findOne st (d_name d) with
             | Some _ => length (Store.docs st)
             | None => S (length (Store.docs st))
             end).
Proof.
  intros W. split; [apply upsert_refused |].
  intros A. destruct (upsert_accepted st d born now W A)
    as [st' [doc [E [W' [_ [_ [_ [Fr L]]]]]]]].
  exists st'. auto.
Qed.

Lemma wellFormed_storedReact : wellFormed storedReact.
Proof.
  split; [| split].
  - repeat constructor; simpl; tauto.
  - repeat constructor; simpl; tauto.
  - intros d [<- | []]. exists 0. split; [simpl; lia | reflexivity].
Qed.

Lemma upsert_keeps_store_witness :
  exists st',
    Store.upsert storedReact runReactAgain 7 8 = Some st'
    /\ wellFormed st'
    /\ length (Store.docs st') = 1.
Proof.
  destruct (proj2 (upsert_keeps_store storedReact runReactAgain 7 8
                     wellFormed_storedReact) eq_refl)
    as [st' [E [W [_ L]]]].
  exists st'. split; [exact E |]. split; [exact W | exact L].
Defined.

(** ** A whole run of the import *)

Lemma importSheets_run (fileBase : string) (clock : nat -> nat * nat) (wb : Workbook) :
  forall (i : nat) (st : Store.t) (c : nat),
    wellFormed st ->
    let r := ExcelImport.importSheets fileBase clock i wb st c in
    wellFormed (fst r)
    /\ snd r = c + length (filter (isStored fileBase) wb)
    /\ (forall n', (forall s, In s wb -> JS.trim (sheetName s) <> JS.trim n') ->
                   Store.findOne (fst r) n' = Store.findOne st n')
    /\ (forall n, Store.findOne st n <> None -> Store.findOne (fst r) n <> None)
    /\ (forall s, In s wb -> isStored fileBase s = true ->
                  Store.findOne (fst r) (sheetName s) <> None).
Proof.
  induction wb as [| s wb IH]; intros i st c W; simpl.
  - split; [exact W |]. split; [lia |]. split; [reflexivity |].
    split; [auto | intros s []].
  - unfold isStored at 1.
    destruct (ExcelImport.processSheet fileBase s) as [| | | | d] eqn:P.
    1-4: destruct (IH (S i) st c W) as [W' [C' [Fr [Pr Im]]]];
      (split; [exact W' |]); (split; [exact C' |]); (split; [| split]);
      [ intros n' Hn'; apply Fr; intros s' Hs'; apply Hn'; now right
      | exact Pr
      | intros s' [<- | Hs] I';
        [unfold isStored in I'; rewrite P in I'; discriminate I' | now apply Im] ].
    destruct (processSheet_data fileBase s d P) as [Nd Cl].
    destruct (cleanItems_schema _ Cl) as [_ V].
    assert (A : Schema.accepts d = Schema.required (JS.trim (sheetName s))).
    { unfold Schema.accepts. now rewrite V, Nd, andb_true_r. }
    destruct (Schema.required (JS.trim (sheetName s))) eqn:R.
    + destruct (upsert_accepted st d (fst (clock i)) (snd (clock i)) W A)
        as [st' [doc [E [W1 [F1 [_ [_ [Fr1 _]]]]]]]].
      rewrite E.
      destruct (IH (S i) st' (S c) W1) as [W' [C' [Fr [Pr Im]]]].
      split; [exact W' |]. split; [simpl; lia |]. split; [| split].
      * intros n' Hn'. rewrite Fr by (intros s' Hs'; apply Hn'; now right).
        apply Fr1. rewrite Nd. intros Eq. apply (Hn' s); [now left | now symmetry].
      * intros n Hn. apply Pr.
        destruct (String.eqb_spec (JS.trim n) (JS.trim (d_name d))) as [Eq | NE].
        -- unfold Store.findOne in *. rewrite Eq, F1. discriminate.
        -- now rewrite Fr1.
      * intros s' [<- | Hs] I'; [| now apply Im].
        apply Pr. rewrite <- Nd, F1. discriminate.
    + rewrite (upsert_refused st d _ _ A).
      destruct (IH (S i) st c W) as [W' [C' [Fr [Pr Im]]]].
      split; [exact W' |]. split; [exact C' |]. split; [| split].
      * intros n' Hn'. apply Fr. intros s' Hs'. apply Hn'. now right.
      * exact Pr.
      * intros s' [<- | Hs] I'; [| now apply Im].
        unfold isStored in I'. rewrite P, R in I'. discriminate I'.
Qed.

(** X15: a whole run of the import keeps the store well formed, so the
    names of the tech stacks stay distinct.  The count that it returns is
    the number of sheets that were imported under a name that is not
    blank, at most the number of sheets; every such sheet has a record of
    its name afterwards; records that were there stay; and a record whose
    name is the trimmed name of no sheet of the workbook is as it was. *)
Theorem import_run_keeps_store (fileBase : string) (wb : Workbook)
        (clock : nat -> nat * nat) (st : Store.t) :
  wellFormed st ->
  let r := ExcelImport.processExcelFile fileBase wb clock st in
  wellFormed (fst r)
  /\ snd r = length (filter (isStored fileBase) wb)
  /\ snd r <= length wb
  /\ (forall n', (forall s, In s wb -> JS.trim (sheetName s) <> JS.trim n') ->
                 Store.findOne (fst r) n' = Store.findOne st n')
  /\ (forall n, Store.findOne st n <> None -> Store.findOne (fst r) n <> None)
  /\ (forall s, In s wb -> isStored fileBase s = true ->
                Store.findOne (fst r) (sheetName s) <> None).
Proof.
  intros W r.
  destruct (importSheets_run fileBase clock wb 0 st 0 W) as [W' [C [Fr [Pr Im]]]].
  fold (ExcelImport.processExcelFile fileBase wb clock st) in W', C, Fr, Pr, Im.
  split; [exact W' |]. split; [exact C |]. split; [| auto].
  subst r. rewrite C. simpl. apply filter_length_le.
Qed.

(** A workbook with a sheet that is stored, two that are skipped and one
    whose name is blank. *)
Lemma import_run_keeps_store_witness :
  snd (ExcelImport.processExcelFile "stacks.xlsx"
         [flatSheetExample; mkSheet "README" [["Topic"]; ["x"]]; technologySheet;
          mkSheet " " [["Topic"]; ["x"]]]
         (fun i => (i, S i)) storedReact) = 1.
Proof.
  exact (proj1 (proj2 (import_run_keeps_store "stacks.xlsx"
                         [flatSheetExample; mkSheet "README" [["Topic"]; ["x"]];
                          technologySheet; mkSheet " " [["Topic"]; ["x"]]]
                         (fun i => (i, S i)) storedReact wellFormed_storedReact))).
Defined.

(** X16: the last run for a name wins.  After two ingestion runs that
    the schema accepts, for names that are equal once trimmed, the store
    has as many records as after the first, and reading the tech stack by
    that name answers 200 with a record that carries the description, the
    headers and the roadmap items of the second run, as the schema casts
    them, and the time of the second save. *)
Theorem second_run_wins (st : Store.t) (d1 d2 : TechStackData)
        (born1 now1 born2 now2 : nat) :
  wellFormed st ->
  JS.trim (d_name d1) = JS.trim (d_name d2) ->
  Schema.accepts d1 = true -> Schema.accepts d2 = true ->
  exists st1 st2 doc,
    Store.upsert st d1 born1 now1 = Some st1
    /\ Store.upsert st1 d2 born2 now2 = Some st2
    /\ length (Store.docs st2) = length (Store.docs st1)
    /\ TechStackController.getTechStackByName st2 (d_name d2)
       = TechStackController.ok (TechStackController.Doc doc)
    /\ recordOf doc
       = mkData (JS.trim (d_name d2)) (JS.trim (d_description d2)) (d_headers d2)
                (map Schema.castItem (d_roadmapItems d2))
    /\ Store.updatedAt doc = now2.
Proof.
  intros W En A1 A2.
  destruct (upsert_accepted st d1 born1 now1 W A1)
    as [st1 [doc1 [E1 [W1 [F1 _]]]]].
  destruct (upsert_accepted st1 d2 born2 now2 W1 A2)
    as [st2 [doc [E2 [W2 [F2 [R [U [_ L]]]]]]]].
  exists st1, st2, doc. split; [exact E1 |]. split; [exact E2 |].
  assert (F1' : Store.findOne st1 (d_name d2) = Some doc1).
  { unfold Store.findOne in *. now rewrite <- En. }
  rewrite F1' in L. split; [exact L |].
  split; [| auto].
  unfold TechStackController.getTechStackByName. now rewrite F2.
Qed.

Lemma second_run_wins_witness :
  exists st1 st2 doc,
    Store.upsert storedReact runReact 1 2 = Some st1
    /\ Store.upsert st1 runReactAgain 3 4 = Some st2
    /\ TechStackController.getTechStackByName st2 "React "
       = TechStackController.ok (TechStackController.Doc doc)
    /\ recordOf doc
       = mkData "React" "newer" (mkHeaders "Topic" "Sub-Topics" "Projects" "Status")
                [mkItem "Router" [] [mkEntry "Blog"] Completed].
Proof.
  destruct (second_run_wins storedReact runReact runReactAgain 1 2 3 4
              wellFormed_storedReact eq_refl eq_refl eq_refl)
    as [st1 [st2 [doc [E1 [E2 [_ [G [R _]]]]]]]].
  exists st1, st2, doc. auto.
Defined.

(** ** The item handlers of the controller *)

Lemma findById_id (ds : list Store.TechStack) (i : string) (d : Store.TechStack) :
  find (fun x => Store.id x =? i) ds = Some d -> Store.id d = i.
Proof.
  intros F. apply find_some in F. destruct F as [_ F]. now apply String.eqb_eq in F.
Qed.

Lemma replaceById_self (ds : list Store.TechStack) (i : string) (d : Store.TechStack) :
  find (fun x => Store.id x =? i) ds = Some d -> Store.replaceById ds d = ds.
Proof.
  intros F. pose proof (findById_id ds i d F) as Ei.
  induction ds as [| x ds IH]; simpl in *; [reflexivity |].
  rewrite Ei. destruct (String.eqb_spec (Store.id x) i) as [E | NE].
  - now injection F as ->.
  - now rewrite IH.
Qed.

Lemma replaceById_twice (ds : list Store.TechStack) (d d' : Store.TechStack) :
  Store.id d = Store.id d' ->
  Store.replaceById (Store.replaceById ds d) d' = Store.replaceById ds d'.
Proof.
  intros E. induction ds as [| x ds IH]; simpl; [reflexivity |].
  rewrite E. destruct (String.eqb_spec (Store.id x) (Store.id d')) as [Ex | NE]; simpl.
  - now rewrite E, String.eqb_refl.
  - destruct (String.eqb_spec (Store.id x) (Store.id d')); [contradiction |].
    now rewrite IH.
Qed.

Lemma filter_idem {A : Type} (p : A -> bool) (l : list A) :
  filter p (filter p l) = filter p l.
Proof.
  induction l as [| a l IH]; simpl; [reflexivity |].
  destruct (p a) eqn:Pa; simpl; [rewrite Pa; now f_equal | exact IH].
Qed.

Lemma stamp_withItems (d : Store.TechStack) (now : nat) :
  Store.stamp (Store.withItems d (Store.roadmapItems d)) now = Store.stamp d now.
Proof. now destruct d. Qed.

Lemma stamp_same (d : Store.TechStack) : Store.stamp d (Store.updatedAt d) = d.
Proof. now destruct d. Qed.

(** X17: deleting a roadmap item is idempotent up to the time of the
    save: a second request for the same item of the same tech stack is
    answered like the first, with the same tech stack but for its
    [updatedAt], and leaves the store as the first left it but for that
    time; when the clock reads the same, nothing differs. *)
Theorem deleteRoadmapItem_idempotent (st : Store.t) (id itemId : string)
        (now1 now2 : nat) (techStack : Store.TechStack) :
  Store.findById st id = Some techStack ->
  let first := Controller.deleteRoadmapItem st id itemId now1 in
  let second := Controller.deleteRoadmapItem (fst first) id itemId now2 in
  exists doc,
    snd first = Controller.mkResponse 200 true (Some doc) None
    /\ snd second = Controller.mkResponse 200 true (Some (Store.stamp doc now2)) None
    /\ Store.docs (fst second)
       = Store.replaceById (Store.docs (fst first)) (Store.stamp doc now2)
    /\ Store.nextId (fst second) = Store.nextId (fst first)
    /\ (now2 = now1 ->
        snd second = snd first /\ Store.docs (fst second) = Store.docs (fst first)).
Proof.
  intros F first second. subst first second.
  destruct (deleteRoadmapItem_found st id itemId now1 techStack F) as [st1 [E1 [D1 N1]]].
  rewrite E1. cbn [fst snd].
  set (doc := Store.stamp _ now1) in *.
  assert (F1 : Store.findById st1 id = Some doc).
  { unfold Store.findById in *. rewrite D1.
    now apply findById_replaceById with (old := techStack). }
  destruct (deleteRoadmapItem_found st1 id itemId now2 doc F1) as [st2 [E2 [D2 N2]]].
  assert (S2 : Store.stamp
                 (Store.withItems doc
                    (filter (fun item => negb (Store._id item =? itemId))
                            (Store.roadmapItems doc))) now2
               = Store.stamp doc now2).
  { unfold doc at 2. cbn [Store.roadmapItems Store.stamp Store.withItems].
    rewrite filter_idem. reflexivity. }
  rewrite S2 in E2, D2. rewrite E2. cbn [fst snd].
  exists doc. split; [reflexivity |]. split; [reflexivity |].
  split; [exact D2 |]. split; [exact N2 |].
  intros ->.
  assert (S1 : Store.stamp doc now1 = doc) by apply (stamp_same doc).
  rewrite S1 in *. split; [reflexivity |].
  rewrite D2. unfold Store.findById in F1. now apply replaceById_self with (i := id).
Qed.

Lemma deleteRoadmapItem_idempotent_witness :
  exists doc,
    snd (Controller.deleteRoadmapItem storedReact "0" "1" 8)
    = Controller.mkResponse 200 true (Some doc) None
    /\ snd (Controller.deleteRoadmapItem
              (fst (Controller.deleteRoadmapItem storedReact "0" "1" 8)) "0" "1" 9)
       = Controller.mkResponse 200 true (Some (Store.stamp doc 9)) None.
Proof.
  destruct (deleteRoadmapItem_idempotent storedReact "0" "1" 8 9 reactDoc eq_refl)
    as [doc [R1 [R2 _]]].
  exists doc. split; [exact R1 | exact R2].
Defined.

(** ** Saving a stored document with other roadmap items *)

Lemma withItems_save (d : Store.TechStack) (items : list Store.ItemDoc) :
  Store.storable d = true ->
  Store.castDoc (Store.withItems d items)
  = Store.withItems d (map Store.castItemDoc items)
  /\ Store.validDoc (Store.castDoc (Store.withItems d items))
     = forallb (fun i => Schema.validItem (Schema.castItem (Store.body i))) items.
Proof.
  intros H. destruct (storable_parts d H) as [R [SN [SD _]]].
  split.
  - unfold Store.castDoc, Store.withItems. simpl.
    now rewrite (settled_eq _ SN), (settled_eq _ SD).
  - unfold Store.validDoc, Store.castDoc, Store.withItems. simpl.
    rewrite (settled_eq _ SN), R. simpl. now rewrite forallb_map_comp.
Qed.

Lemma stored_items (d : Store.TechStack) :
  Store.storable d = true ->
  map Store.castItemDoc (Store.roadmapItems d) = Store.roadmapItems d
  /\ forallb (fun i => Schema.validItem (Schema.castItem (Store.body i)))
             (Store.roadmapItems d) = true.
Proof.
  intros H. destruct (storable_parts d H) as [_ [_ [_ [VI SI]]]].
  assert (M : map Store.castItemDoc (Store.roadmapItems d) = Store.roadmapItems d).
  { apply (map_fixed _ (fun i => Schema.settledItem (Store.body i)));
      [apply castItemDoc_fixed | exact SI]. }
  split; [exact M |].
  rewrite <- (forallb_map_comp Store.castItemDoc
                (fun i => Schema.validItem (Store.body i))).
  now rewrite M.
Qed.

Lemma setAt_length {A : Type} (l : list A) (i : nat) (x : A) :
  length (TechStackController.setAt l i x) = length l.
Proof.
  revert i. induction l as [| a l IH]; intros i; simpl; [reflexivity |].
  destruct i; simpl; [reflexivity | now rewrite IH].
Qed.

Lemma setAt_nth {A : Type} (l : list A) (i j : nat) (x : A) :
  nth_error (TechStackController.setAt l i x) j
  = if (j =? i)%nat then option_map (fun _ => x) (nth_error l j) else nth_error l j.
Proof.
  revert i j. induction l as [| a l IH]; intros i j; simpl.
  - destruct (j =? i)%nat; destruct j; reflexivity.
  - destruct i, j; simpl; try reflexivity. apply IH.
Qed.

Lemma setAt_map {A B : Type} (f : A -> B) (l : list A) (i : nat) (x : A) :
  map f (TechStackController.setAt l i x) = TechStackController.setAt (map f l) i (f x).
Proof.
  revert i. induction l as [| a l IH]; intros i; simpl; [reflexivity |].
  destruct i; simpl; [reflexivity | now rewrite IH].
Qed.

Lemma setAt_forallb {A : Type} (p : A -> bool) (l : list A) (i : nat) (x y : A) :
  forallb p l = true -> nth_error l i = Some y ->
  forallb p (TechStackController.setAt l i x) = p x.
Proof.
  revert i. induction l as [| a l IH]; intros i F N; [now destruct i |].
  simpl in F. apply andb_true_iff in F. destruct F as [Fa Fl].
  destruct i; simpl in *.
  - now rewrite Fl, andb_true_r.
  - now rewrite Fa, (IH i Fl N).
Qed.

(** X18: adding a roadmap item whose texts pass the schema appends it,
    trimmed and with the next identifier of the store, to the items of
    the tech stack; deleting the item with that identifier afterwards
    gives back the tech stack and the records of the store as they were
    before but for the time of the save, provided no item of the tech
    stack had that identifier.  A body that the schema refuses is
    answered 500 and nothing is stored. *)
Theorem add_then_delete_item (st : Store.t) (id : string) (body : RoadmapItem)
        (now1 now2 : nat) (techStack : Store.TechStack) :
  Store.findById st id = Some techStack ->
  (Schema.validItem (Schema.castItem body) = false ->
   TechStackController.addRoadmapItem st id body now1
   = (st, TechStackController.serverError))
  /\ (Schema.validItem (Schema.castItem body) = true ->
      (forall item, In item (Store.roadmapItems techStack) ->
                    Store._id item <> Store.freshId (Store.nextId st)) ->
      let added := TechStackController.addRoadmapItem st id body now1 in
      let deleted := Controller.deleteRoadmapItem (fst added) id
                       (Store.freshId (Store.nextId st)) now2 in
      exists techStack',
        snd added = TechStackController.ok (TechStackController.Doc techStack')
        /\ Store.findById (fst added) id = Some techStack'
        /\ Store.roadmapItems techStack'
           = Store.roadmapItems techStack
             ++ [Store.mkItemDoc (Store.freshId (Store.nextId st))
                                 (Schema.castItem body)]
        /\ Store.updatedAt techStack' = now1
        /\ Controller.data (snd deleted) = Some (Store.stamp techStack now2)
        /\ Store.docs (fst deleted)
           = Store.replaceById (Store.docs st) (Store.stamp techStack now2)).
Proof.
  intros F.
  destruct (findById_In st id techStack F) as [Hin _].
  pose proof (held_In st techStack Hin) as H.
  set (new := Store.mkItemDoc (Store.freshId (Store.nextId st)) body).
  destruct (withItems_save techStack (Store.roadmapItems techStack ++ [new]) H) as [C V].
  destruct (stored_items techStack H) as [M VI].
  rewrite map_app, M in C. rewrite forallb_app, VI in V. simpl in V, C.
  rewrite andb_true_r in V.
  assert (U : TechStackController.addRoadmapItem st id body now1
              = match Store.save (Store.advance st 1)
                        (Store.withItems techStack (Store.roadmapItems techStack ++ [new]))
                        now1 with
                | Some (st', saved) =>
                    (st', TechStackController.ok (TechStackController.Doc saved))
                | None => (st, TechStackController.serverError)
                end).
  { unfold TechStackController.addRoadmapItem. now rewrite F. }
  split.
  - intros Bad. rewrite U, save_invalid; [reflexivity | now rewrite V].
  - intros Good Fresh added deleted. subst deleted added.
    destruct (save_valid (Store.advance st 1)
                (Store.withItems techStack (Store.roadmapItems techStack ++ [new])) now1)
      as [st1 [E [D N]]]; [now rewrite V |].
    rewrite U, E. cbn [fst snd]. rewrite C in *. clear E.
    set (doc := Store.stamp (Store.withItems techStack _) now1) in *.
    assert (F1 : Store.findById st1 id = Some doc).
    { unfold Store.findById in *. rewrite D.
      now apply findById_replaceById with (old := techStack). }
    exists doc. split; [reflexivity |]. split; [exact F1 |].
    split; [reflexivity |]. split; [reflexivity |].
    destruct (deleteRoadmapItem_found st1 id (Store.freshId (Store.nextId st)) now2 doc F1)
      as [st2 [E2 [D2 N2]]].
    assert (Fl : filter (fun item => negb (Store._id item
                                           =? Store.freshId (Store.nextId st)))
                        (Store.roadmapItems doc)
                 = Store.roadmapItems techStack).
    { unfold doc. cbn [Store.roadmapItems Store.stamp Store.withItems].
      rewrite filter_app. simpl. rewrite String.eqb_refl. simpl. rewrite app_nil_r.
      apply filter_all. intros x Hx. apply negb_true_iff, String.eqb_neq.
      now apply Fresh. }
    rewrite Fl in E2, D2.
    assert (S2 : Store.stamp (Store.withItems doc (Store.roadmapItems techStack)) now2
                 = Store.stamp techStack now2).
    { unfold doc. now destruct techStack. }
    rewrite S2 in E2, D2. rewrite E2. cbn [fst snd Controller.data].
    split; [reflexivity |].
    rewrite D2, D. apply replaceById_twice. unfold doc. now destruct techStack.
Qed.

Lemma add_then_delete_item_witness :
  TechStackController.addRoadmapItem storedReact "0" (mkItem " " [] [] YetToStart) 8
  = (storedReact, TechStackController.serverError)
  /\ exists techStack',
      snd (TechStackController.addRoadmapItem storedReact "0"
             (mkItem " Hooks" [] [] YetToStart) 8)
      = TechStackController.ok (TechStackController.Doc techStack')
      /\ Store.roadmapItems techStack'
         = [Store.mkItemDoc "1" (mkItem "JSX" [] [] Completed);
            Store.mkItemDoc "2" (mkItem "Hooks" [] [] YetToStart)].
Proof.
  split.
  - apply (proj1 (add_then_delete_item storedReact "0" (mkItem " " [] [] YetToStart)
                    8 9 reactDoc eq_refl)).
    reflexivity.
  - destruct (proj2 (add_then_delete_item storedReact "0"
                       (mkItem " Hooks" [] [] YetToStart) 8 9 reactDoc eq_refl)
                eq_refl ltac:(intros item [<- | []]; discriminate))
      as [doc [R [_ [I _]]]].
    exists doc. split; [exact R | exact I].
Defined.

(** X19: updating a roadmap item, unlike deleting one, answers 404 and
    changes nothing when no item of the tech stack has the identifier.
    When an item has it and the item overridden with the fields of the
    request body passes the schema, the answer is 200, the first such
    item is replaced by the overridden one with its texts trimmed, all
    other items stay where they are, and the tech stack is stored so
    with the time of the save; when it does not pass, the answer is 500
    and nothing is stored. *)
Theorem updateRoadmapItem_effect (st : Store.t) (id itemId : string)
        (body : TechStackController.ItemPatch) (now : nat)
        (techStack : Store.TechStack) :
  Store.findById st id = Some techStack ->
  ((forall item, In item (Store.roadmapItems techStack) -> Store._id item <> itemId) ->
   TechStackController.updateRoadmapItem st id itemId body now
   = (st, TechStackController.notFound "Roadmap item not found"))
  /\ (forall i,
         JS.findIndex (fun item => Store._id item =? itemId)
                      (Store.roadmapItems techStack) = Some i ->
         exists item,
           nth_error (Store.roadmapItems techStack) i = Some item
           /\ Store._id item = itemId
           /\ (Schema.validItem
                 (Schema.castItem (Store.body (TechStackController.patchItem item body)))
               = false ->
               TechStackController.updateRoadmapItem st id itemId body now
               = (st, TechStackController.serverError))
           /\ (Schema.validItem
                 (Schema.castItem (Store.body (TechStackController.patchItem item body)))
               = true ->
               exists techStack',
                 snd (TechStackController.updateRoadmapItem st id itemId body now)
                 = TechStackController.ok (TechStackController.Doc techStack')
                 /\ Store.findById
                      (fst (TechStackController.updateRoadmapItem st id itemId body now))
                      id = Some techStack'
                 /\ Store.updatedAt techStack' = now
                 /\ length (Store.roadmapItems techStack')
                    = length (Store.roadmapItems techStack)
                 /\ nth_error (Store.roadmapItems techStack') i
                    = Some (Store.castItemDoc (TechStackController.patchItem item body))
                 /\ forall j, j <> i ->
                              nth_error (Store.roadmapItems techStack') j
                              = nth_error (Store.roadmapItems techStack) j)).
Proof.
  intros F. split.
  - intros Hnone. unfold TechStackController.updateRoadmapItem. rewrite F.
    assert (E : JS.findIndex (fun item => Store._id item =? itemId)
                             (Store.roadmapItems techStack) = None).
    { apply findIndex_None. intros x Hx. apply String.eqb_neq. now apply Hnone. }
    now rewrite E.
  - intros i Hi. pose proof Hi as Hi'.
    apply findIndex_Some in Hi'. destruct Hi' as [[item [Hn Pi]] _].
    apply String.eqb_eq in Pi.
    exists item. split; [exact Hn |]. split; [exact Pi |].
    destruct (findById_In st id techStack F) as [Hin _].
    pose proof (held_In st techStack Hin) as H.
    set (p := TechStackController.patchItem item body).
    destruct (withItems_save techStack
                (TechStackController.setAt (Store.roadmapItems techStack) i p) H)
      as [C V].
    destruct (stored_items techStack H) as [M VI].
    rewrite setAt_map, M in C.
    rewrite (setAt_forallb _ _ i p item VI Hn) in V.
    assert (U : TechStackController.updateRoadmapItem st id itemId body now
                = match Store.save st
                          (Store.withItems techStack
                             (TechStackController.setAt (Store.roadmapItems techStack) i p))
                          now with
                  | Some (st', saved) =>
                      (st', TechStackController.ok (TechStackController.Doc saved))
                  | None => (st, TechStackController.serverError)
                  end).
    { unfold TechStackController.updateRoadmapItem. now rewrite F, Hi, Hn. }
    split.
    + intros Bad. rewrite U, save_invalid; [reflexivity | now rewrite V].
    + intros Good.
      destruct (save_valid st
                  (Store.withItems techStack
                     (TechStackController.setAt (Store.roadmapItems techStack) i p)) now)
        as [st1 [E [D N]]]; [now rewrite V |].
      rewrite U, E. cbn [fst snd]. rewrite C in *.
      eexists. split; [reflexivity |]. split; [| split; [reflexivity | split; [| split]]].
      * unfold Store.findById in *. rewrite D.
        now apply findById_replaceById with (old := techStack).
      * simpl. apply setAt_length.
      * simpl. rewrite setAt_nth, Nat.eqb_refl, Hn. reflexivity.
      * intros j Hj. simpl. rewrite setAt_nth.
        destruct (Nat.eqb_spec j i); [contradiction | reflexivity].
Qed.

Lemma updateRoadmapItem_effect_witness :
  TechStackController.updateRoadmapItem storedReact "0" "7"
    (TechStackController.mkPatch None None None None (Some InProgress)) 8
  = (storedReact, TechStackController.notFound "Roadmap item not found")
  /\ exists item,
      nth_error (Store.roadmapItems reactDoc) 0 = Some item
      /\ TechStackController.updateRoadmapItem storedReact "0" "1"
           (TechStackController.mkPatch None (Some "  ") None None None) 8
         = (storedReact, TechStackController.serverError).
Proof.
  split.
  - apply (proj1 (updateRoadmapItem_effect storedReact "0" "7"
                    (TechStackController.mkPatch None None None None (Some InProgress))
                    8 reactDoc eq_refl)).
    intros item [<- | []]. discriminate.
  - destruct (proj2 (updateRoadmapItem_effect storedReact "0" "1"
                       (TechStackController.mkPatch None (Some "  ") None None None)
                       8 reactDoc eq_refl) 0 eq_refl)
      as [item [Hn [_ [Bad _]]]].
    exists item. split; [exact Hn |]. apply Bad.
    simpl in Hn. injection Hn as <-. reflexivity.
Defined.

(** ** Deleting tech stacks *)

Lemma removeById_find_other (ds : list Store.TechStack) (i i' : string) :
  i <> i' ->
  find (fun x => Store.id x =? i') (TechStackController.removeById ds i)
  = find (fun x => Store.id x =? i') ds.
Proof.
  intros NE. induction ds as [| x ds IH]; simpl; [reflexivity |].
  destruct (String.eqb_spec (Store.id x) i) as [E | N].
  - destruct (String.eqb_spec (Store.id x) i'); [congruence | reflexivity].
  - simpl. now rewrite IH.
Qed.

Lemma removeById_find_same (ds : list Store.TechStack) (i : string) :
  NoDup (map Store.id ds) ->
  find (fun x => Store.id x =? i) (TechStackController.removeById ds i) = None.
Proof.
  intros ND. induction ds as [| x ds IH]; simpl in *; [reflexivity |].
  inversion ND as [| ? ? Hnot ND']; subst.
  destruct (String.eqb_spec (Store.id x) i) as [E | N].
  - destruct (find (fun y => Store.id y =? i) ds) as [y |] eqn:Fy; [| reflexivity].
    exfalso. apply Hnot. apply find_some in Fy. destruct Fy as [Hy Ey].
    apply String.eqb_eq in Ey. rewrite E, <- Ey. now apply in_map.
  - simpl. destruct (String.eqb_spec (Store.id x) i); [contradiction | now apply IH].
Qed.

Lemma removeById_length (ds : list Store.TechStack) (i : string) (d : Store.TechStack) :
  find (fun x => Store.id x =? i) ds = Some d ->
  S (length (TechStackController.removeById ds i)) = length ds.
Proof.
  induction ds as [| x ds IH]; simpl; [discriminate |].
  destruct (Store.id x =? i); [reflexivity |]. intros F. simpl. now rewrite IH.
Qed.

(** X20: deleting a tech stack that exists answers 200 and removes
    exactly that record: the store has one record less, every tech stack
    with another identifier is read as before, reading the deleted one
    answers 404, and so does deleting it again, which leaves the store
    unchanged.  Deleting all tech stacks leaves none to list. *)
Theorem deleteTechStack_effect (st : Store.t) (id : string) (techStack : Store.TechStack) :
  NoDup (map Store.id (Store.docs st)) ->
  Store.findById st id = Some techStack ->
  let st' := fst (TechStackController.deleteTechStack st id) in
  snd (TechStackController.deleteTechStack st id)
  = TechStackController.ok TechStackController.EmptyObject
  /\ S (length (Store.docs st')) = length (Store.docs st)
  /\ (forall id', id <> id' ->
                  TechStackController.getTechStackById st' id'
                  = TechStackController.getTechStackById st id')
  /\ TechStackController.getTechStackById st' id
     = TechStackController.notFound "Tech stack not found"
  /\ TechStackController.deleteTechStack st' id
     = (st', TechStackController.notFound "Tech stack not found")
  /\ TechStackController.count
       (TechStackController.getAllTechStacks
          (fst (TechStackController.deleteAllTechStacks st))) = Some 0.
Proof.
  intros ND F st'. subst st'.
  destruct (mk_Some (TechStackController.removeById (Store.docs st) id) (Store.nextId st)
              (forallb_removeById _ _ id (Store.held st))) as [st1 [M [D1 N1]]].
  assert (D : TechStackController.deleteTechStack st id
              = (st1, TechStackController.ok TechStackController.EmptyObject)).
  { unfold TechStackController.deleteTechStack. now rewrite F, M. }
  rewrite D. cbn [fst snd].
  assert (G : Store.findById st1 id = None).
  { unfold Store.findById. rewrite D1. now apply removeById_find_same. }
  split; [reflexivity |]. split; [| split; [| split; [| split]]].
  - rewrite D1. unfold Store.findById in F. now apply removeById_length with (d := techStack).
  - intros id' NE. unfold TechStackController.getTechStackById, Store.findById. rewrite D1.
    now rewrite removeById_find_other.
  - unfold TechStackController.getTechStackById. now rewrite G.
  - unfold TechStackController.deleteTechStack. now rewrite G.
  - reflexivity.
Qed.

Lemma deleteTechStack_effect_witness :
  TechStackController.getTechStackById
    (fst (TechStackController.deleteTechStack storedReact "0")) "0"
  = TechStackController.notFound "Tech stack not found".
Proof.
  apply (proj1 (proj2 (proj2 (proj2
           (deleteTechStack_effect storedReact "0" reactDoc
              ltac:(repeat constructor; simpl; tauto) eq_refl))))).
Defined.

(** ** The text of the CSV file determines the table *)

Lemma includes_char_cons (ch x : ascii) (r : string) :
  JS.includes (String ch r) (String x "")
  = Ascii.eqb ch x || JS.includes r (String x "").
Proof.
  cbn [JS.includes prefix].
  destruct (ascii_dec x ch) as [-> | N].
  - rewrite Ascii.eqb_refl. now destruct r.
  - destruct (Ascii.eqb ch x) eqn:E; [| reflexivity].
    apply Ascii.eqb_eq in E. now elim N.
Qed.

Lemma readCsv_after_field (s : string) (m : ReadMode) (f : string) (row : Row)
      (rows : list Row) :
  endsField s = true -> m <> InQuoted ->
  readCsv s m f row rows = readCsv s AtStart f row rows.
Proof.
  intros E M. destruct s as [| ch r]; [reflexivity |].
  cbn [endsField] in E. cbn [readCsv].
  destruct m; try (now elim M); try reflexivity;
    destruct (Ascii.eqb ch ","); try reflexivity;
    destruct (Ascii.eqb ch JS.LF); try reflexivity; discriminate E.
Qed.

Lemma readCsv_plain (c s : string) :
  JS.includes c "," = false -> JS.includes c CsvText.sDQ = false ->
  JS.includes c JS.sLF = false ->
  forall m f row rows, m = AtStart \/ m = InPlain ->
    exists m', m' <> InQuoted
               /\ readCsv (c ++ s) m f row rows = readCsv s m' (f ++ c)%string row rows.
Proof.
  induction c as [| ch c IH]; intros C Q L m f row rows M.
  - exists m. rewrite sapp_nil_r. split; [| reflexivity].
    destruct M as [-> | ->]; discriminate.
  - unfold CsvText.sDQ, JS.sLF in *.
    rewrite includes_char_cons in C, Q, L.
    apply orb_false_iff in C, Q, L.
    destruct C as [C1 C2], Q as [Q1 Q2], L as [L1 L2].
    destruct (IH C2 Q2 L2 InPlain (f ++ String ch "")%string row rows (or_intror eq_refl))
      as [m' [M' R]].
    exists m'. split; [exact M' |].
    rewrite sapp_assoc in R. cbn [append] in R. rewrite <- R.
    change (String ch c ++ s)%string with (String ch (c ++ s)).
    cbn [readCsv]. rewrite C1, L1, Q1.
    now destruct M as [-> | ->].
Qed.

Lemma readCsv_quoted (c s : string) (f : string) (row : Row) (rows : list Row) :
  readCsv (CsvText.doubleQuotes c ++ CsvText.sDQ ++ s) InQuoted f row rows
  = readCsv s AfterQuote (f ++ c)%string row rows.
Proof.
  revert f. induction c as [| ch c IH]; intros f.
  - rewrite sapp_nil_r. cbn [CsvText.doubleQuotes append CsvText.sDQ readCsv].
    now rewrite Ascii.eqb_refl.
  - cbn [CsvText.doubleQuotes].
    replace (f ++ String ch c)%string with ((f ++ String ch "") ++ c)%string
      by (rewrite sapp_assoc; reflexivity).
    destruct (Ascii.eqb ch CsvText.DQ) eqn:E.
    + apply Ascii.eqb_eq in E. subst ch.
      cbn [append readCsv]. rewrite Ascii.eqb_refl.
      change (Ascii.eqb CsvText.DQ ",") with false.
      change (Ascii.eqb CsvText.DQ JS.LF) with false.
      cbv iota. apply IH.
    + cbn [append readCsv]. rewrite E. apply IH.
Qed.

Lemma readCsv_cell (c s : string) (row : Row) (rows : list Row) :
  endsField s = true ->
  readCsv (CsvText.escapeCell c ++ s) AtStart "" row rows
  = readCsv s AtStart c row rows.
Proof.
  intros E. unfold CsvText.escapeCell.
  destruct (JS.includes c "," || JS.includes c CsvText.sDQ
            || JS.includes c JS.sLF || JS.includes c JS.sCR) eqn:I.
  - rewrite !sapp_assoc.
    change (CsvText.sDQ ++ CsvText.doubleQuotes c ++ CsvText.sDQ ++ s)%string
      with (String CsvText.DQ (CsvText.doubleQuotes c ++ CsvText.sDQ ++ s)).
    cbn [readCsv].
    change (Ascii.eqb CsvText.DQ ",") with false.
    change (Ascii.eqb CsvText.DQ JS.LF) with false.
    rewrite Ascii.eqb_refl. cbv iota.
    rewrite readCsv_quoted. cbn [append].
    apply readCsv_after_field; [exact E | discriminate].
  - apply orb_false_iff in I. destruct I as [I _].
    apply orb_false_iff in I. destruct I as [I L].
    apply orb_false_iff in I. destruct I as [C Q].
    destruct (readCsv_plain c s C Q L AtStart "" row rows (or_introl eq_refl))
      as [m' [M' R]].
    rewrite R. cbn [append]. now apply readCsv_after_field.
Qed.

Lemma csvLine_cons (c c' : string) (cs : Row) :
  CsvText.csvLine (c :: c' :: cs)
  = (CsvText.escapeCell c ++ String "," (CsvText.csvLine (c' :: cs)))%string.
Proof. reflexivity. Qed.

Lemma readCsv_line (cs : Row) :
  forall (c : string) (row : Row) (rows : list Row),
    readCsv (CsvText.csvLine (c :: cs)) AtStart "" row rows
    = rows ++ [row ++ c :: cs]
    /\ forall s, readCsv (CsvText.csvLine (c :: cs) ++ String JS.LF s) AtStart "" row rows
                 = readCsv s AtStart "" [] (rows ++ [row ++ c :: cs]).
Proof.
  induction cs as [| c' cs IH]; intros c row rows.
  - change (CsvText.csvLine [c]) with (CsvText.escapeCell c). split.
    + rewrite <- (sapp_nil_r (CsvText.escapeCell c)).
      now rewrite readCsv_cell.
    + intros s. rewrite readCsv_cell.
      * cbn [readCsv]. change (Ascii.eqb JS.LF ",") with false.
        now rewrite Ascii.eqb_refl.
      * cbn [endsField]. rewrite Ascii.eqb_refl. apply orb_true_r.
  - rewrite csvLine_cons.
    destruct (IH c' (row ++ [c]) rows) as [A B].
    replace (row ++ c :: c' :: cs) with ((row ++ [c]) ++ c' :: cs)
      by (now rewrite <- app_assoc).
    split.
    + rewrite readCsv_cell by reflexivity.
      cbn [readCsv]. rewrite Ascii.eqb_refl. exact A.
    + intros s. rewrite sapp_assoc. cbn [append].
      rewrite readCsv_cell by reflexivity.
      cbn [readCsv]. rewrite Ascii.eqb_refl. apply B.
Qed.

Lemma csvContent_cons (r r' : Row) (g : list Row) :
  CsvText.csvContent (r :: r' :: g)
  = (CsvText.csvLine r ++ String JS.LF (CsvText.csvContent (r' :: g)))%string.
Proof. reflexivity. Qed.

Lemma readCsv_csvContent (g : list Row) :
  forall (r : Row) (rows : list Row),
    r <> [] -> Forall (fun r => r <> []) g ->
    readCsv (CsvText.csvContent (r :: g)) AtStart "" [] rows = rows ++ r :: g.
Proof.
  induction g as [| r' g IH]; intros r rows R F.
  - destruct r as [| c cs]; [now elim R |].
    change (CsvText.csvContent [c :: cs]) with (CsvText.csvLine (c :: cs)).
    apply (proj1 (readCsv_line cs c [] rows)).
  - rewrite csvContent_cons.
    destruct r as [| c cs]; [now elim R |].
    rewrite (proj2 (readCsv_line cs c [] rows)).
    change ([] ++ c :: cs) with (c :: cs).
    inversion F as [| ? ? R' F']; subst.
    rewrite (IH r' (rows ++ [c :: cs]) R' F').
    now rewrite <- app_assoc.
Qed.

(** X21: the text that the converter writes determines the table written:
    read with commas as field breaks, line feeds as line breaks and double
    quotes around a field with doubled quotes inside, the text of a table
    with at least one row and no row without cells gives back that table,
    whatever commas, double quotes and line breaks its cells hold; so two
    such tables with the same text are equal. *)
Theorem csv_text_determines_table (g1 g2 : list Row) :
  g1 <> [] -> Forall (fun r => r <> []) g1 ->
  g2 <> [] -> Forall (fun r => r <> []) g2 ->
  readCsv (CsvText.csvContent g1) AtStart "" [] [] = g1
  /\ (CsvText.csvContent g1 = CsvText.csvContent g2 -> g1 = g2).
Proof.
  intros N1 F1 N2 F2.
  assert (R : forall g, g <> [] -> Forall (fun r : Row => r <> []) g ->
                        readCsv (CsvText.csvContent g) AtStart "" [] [] = g).
  { intros [| r g] N F; [now elim N |].
    inversion F; subst. now apply readCsv_csvContent. }
  split; [now apply R |].
  intros E. rewrite <- (R g1 N1 F1), <- (R g2 N2 F2). now rewrite E.
Qed.

Lemma csv_text_determines_table_witness :
  readCsv (CsvText.csvContent awkwardTable) AtStart "" [] [] = awkwardTable.
Proof.
  exact (proj1 (csv_text_determines_table awkwardTable awkwardTable
                  ltac:(discriminate)
                  ltac:(repeat constructor; discriminate)
                  ltac:(discriminate)
                  ltac:(repeat constructor; discriminate))).
Defined.

(** ** Rows without a topic belong to the topic above *)

Lemma nth_error_setCell_same (i : nat) (v : string) (row : Row) :
  nth_error (setCell i v row) i = Some v.
Proof.
  revert row. induction i as [| i IH]; intros [| c r]; simpl; auto.
Qed.

Lemma nth_error_setCell_other (i j : nat) (v : string) (row : Row) :
  j <> i ->
  nth_error (setCell i v row) j = nth_error row j
  \/ (nth_error row j = None /\ nth_error (setCell i v row) j = Some "").
Proof.
  revert j row. induction i as [| i IH]; intros j row N.
  - destruct j as [| j]; [now elim N |]. destruct row as [| c r]; simpl; auto.
    left. now destruct j.
  - destruct j as [| j].
    + destruct row as [| c r]; simpl; auto.
    + assert (N' : j <> i) by lia.
      destruct row as [| c r]; simpl.
      * destruct (IH j [] N') as [E | [E1 E2]]; [left | right].
        -- rewrite E. now destruct j.
        -- split; [reflexivity | exact E2].
      * apply IH, N'.
Qed.

Lemma at_setCell_other (i : nat) (idx : option nat) (v : string) (row : Row) :
  idx <> Some i ->
  JS.at_ (setCell i v row) idx = JS.at_ row idx
  \/ (JS.at_ row idx = None /\ JS.at_ (setCell i v row) idx = Some "").
Proof.
  destruct idx as [j |]; simpl; [| auto].
  intros N. apply nth_error_setCell_other. intros ->. now elim N.
Qed.

Lemma updateTopic_setCell (tIdx : nat) (sIdx pIdx stIdx : option nat)
      (c : string) (row : Row) (topicObj : RoadmapItem) :
  sIdx <> Some tIdx -> pIdx <> Some tIdx -> stIdx <> Some tIdx ->
  ExcelImport.updateTopic sIdx pIdx stIdx (setCell tIdx c row) topicObj
  = ExcelImport.updateTopic sIdx pIdx stIdx row topicObj.
Proof.
  intros Ns Np Nst.
  unfold ExcelImport.updateTopic, ExcelImport.updateStatus, ExcelImport.addProject,
    ExcelImport.addSubTopics.
  destruct (at_setCell_other tIdx sIdx c row Ns) as [-> | [-> ->]];
    destruct (at_setCell_other tIdx pIdx c row Np) as [-> | [-> ->]];
    destruct (at_setCell_other tIdx stIdx c row Nst) as [-> | [-> ->]];
    reflexivity.
Qed.

Lemma has_set_same {V : Type} (m : JSMap.t V) (k : string) (v : V) :
  JSMap.has (JSMap.set m k v) k = true.
Proof.
  unfold JSMap.has.
  induction m as [| [k' v'] m IH]; simpl; [now rewrite String.eqb_refl |].
  destruct (k' =? k) eqn:E; simpl; rewrite E; [reflexivity | exact IH].
Qed.

Lemma has_set_other {V : Type} (m : JSMap.t V) (k k' : string) (v : V) :
  JSMap.has m k' = true -> JSMap.has (JSMap.set m k v) k' = true.
Proof.
  unfold JSMap.has.
  induction m as [| [k0 v0] m IH]; simpl; [discriminate |].
  intros H. destruct (k0 =? k) eqn:E; simpl.
  - exact H.
  - apply orb_true_iff in H. destruct H as [H | H]; [now rewrite H |].
    rewrite (IH H). apply orb_true_r.
Qed.

Lemma has_get {V : Type} (m : JSMap.t V) (k : string) :
  JSMap.has m k = true -> exists v, JSMap.get m k = Some v.
Proof.
  unfold JSMap.has.
  induction m as [| [k0 v0] m IH]; simpl; [discriminate |].
  destruct (k0 =? k); simpl; [now exists v0 | exact IH].
Qed.

Lemma enterTopic_cursor (tIdx : nat) (stIdx : option nat) (st : ExcelImport.Loop)
      (row : Row) :
  goodCursor st -> goodCursor (ExcelImport.enterTopic tIdx stIdx st row).
Proof.
  intros G. unfold ExcelImport.enterTopic.
  destruct (nonBlank (nth_error row tIdx)) eqn:B; [| exact G].
  unfold goodCursor. cbn [ExcelImport.currentTopic ExcelImport.topicMap].
  split; [now apply nonBlank_trim |]. split; [apply trim_idem |].
  destruct (JSMap.has (ExcelImport.topicMap st) _) eqn:H; cbn [negb];
    [exact H | apply has_set_same].
Qed.

Lemma rowStep_currentTopic (tIdx : nat) (sIdx pIdx stIdx : option nat)
      (st : ExcelImport.Loop) (row : Row) :
  ExcelImport.currentTopic (ExcelImport.rowStep tIdx sIdx pIdx stIdx st row)
  = ExcelImport.currentTopic (ExcelImport.enterTopic tIdx stIdx st row).
Proof.
  unfold ExcelImport.rowStep.
  destruct (negb (JS.truthyO _)); [reflexivity |].
  now destruct (JSMap.get _ _).
Qed.

Lemma rowStep_cursor (tIdx : nat) (sIdx pIdx stIdx : option nat)
      (st : ExcelImport.Loop) (row : Row) :
  goodCursor st -> goodCursor (ExcelImport.rowStep tIdx sIdx pIdx stIdx st row).
Proof.
  intros G. apply (enterTopic_cursor tIdx stIdx st row) in G.
  unfold ExcelImport.rowStep.
  destruct (negb (JS.truthyO _)); [exact G |].
  destruct (JSMap.get _ _) as [topicObj |]; [| exact G].
  unfold goodCursor in *. cbn [ExcelImport.currentTopic ExcelImport.topicMap].
  destruct (ExcelImport.currentTopic (ExcelImport.enterTopic tIdx stIdx st row))
    as [c |]; [| exact I].
  destruct G as [G1 [G2 G3]]. split; [exact G1 |]. split; [exact G2 |].
  now apply has_set_other.
Qed.

Lemma rowStep_filled (tIdx : nat) (sIdx pIdx stIdx : option nat)
      (st : ExcelImport.Loop) (c : string) (row : Row) :
  sIdx <> Some tIdx -> pIdx <> Some tIdx -> stIdx <> Some tIdx ->
  goodCursor st -> ExcelImport.currentTopic st = Some c ->
  nonBlank (nth_error row tIdx) = false ->
  ExcelImport.rowStep tIdx sIdx pIdx stIdx st (setCell tIdx c row)
  = ExcelImport.rowStep tIdx sIdx pIdx stIdx st row.
Proof.
  intros Ns Np Nst G C B.
  unfold goodCursor in G. rewrite C in G. destruct G as [G1 [G2 G3]].
  assert (E1 : ExcelImport.enterTopic tIdx stIdx st row = st).
  { unfold ExcelImport.enterTopic. now rewrite B. }
  assert (E2 : ExcelImport.enterTopic tIdx stIdx st (setCell tIdx c row) = st).
  { unfold ExcelImport.enterTopic. rewrite nth_error_setCell_same.
    assert (NB : nonBlank (Some c) = true).
    { unfold nonBlank. cbn [JS.truthyO JS.text]. rewrite G2.
      unfold JS.truthy. apply String.eqb_neq in G1. now rewrite G1. }
    rewrite NB. cbn [JS.text]. rewrite G2, G3. cbn [negb].
    destruct st as [m cur]. cbn in C. now rewrite C. }
  unfold ExcelImport.rowStep. rewrite E1, E2.
  destruct (negb (JS.truthyO _)); [reflexivity |].
  destruct (JSMap.get _ _) as [topicObj |]; [| reflexivity].
  now rewrite updateTopic_setCell.
Qed.

Lemma runRows_fillDown (tIdx : nat) (sIdx pIdx stIdx : option nat) (rows : list Row) :
  sIdx <> Some tIdx -> pIdx <> Some tIdx -> stIdx <> Some tIdx ->
  forall st, goodCursor st ->
    ExcelImport.runRows tIdx sIdx pIdx stIdx st
      (fillDown tIdx (ExcelImport.currentTopic st) rows)
    = ExcelImport.runRows tIdx sIdx pIdx stIdx st rows.
Proof.
  intros Ns Np Nst. unfold ExcelImport.runRows.
  induction rows as [| row rows IH]; intros st G; [reflexivity |].
  cbn [fillDown].
  assert (G' := rowStep_cursor tIdx sIdx pIdx stIdx st row G).
  assert (C' := rowStep_currentTopic tIdx sIdx pIdx stIdx st row).
  unfold ExcelImport.enterTopic in C'.
  destruct (nonBlank (nth_error row tIdx)) eqn:B.
  - cbn [fold_left]. cbn [ExcelImport.currentTopic] in C'.
    rewrite <- C'. now apply IH.
  - destruct (ExcelImport.currentTopic st) as [c |] eqn:C.
    + cbn [fold_left]. rewrite (rowStep_filled tIdx sIdx pIdx stIdx st c row); auto.
      rewrite <- C'. now apply IH.
    + cbn [fold_left]. rewrite <- C'. now apply IH.
Qed.

Lemma fillDown_topics (tIdx : nat) (rows : list Row) :
  forall c, nonBlank (Some c) = true ->
    Forall (fun r => nonBlank (nth_error r tIdx) = true) (fillDown tIdx (Some c) rows).
Proof.
  induction rows as [| row rows IH]; intros c NB; cbn [fillDown]; [constructor |].
  destruct (nonBlank (nth_error row tIdx)) eqn:B.
  - constructor; [exact B |]. apply IH.
    unfold nonBlank. cbn [JS.truthyO JS.text]. rewrite trim_idem.
    pose proof (nonBlank_trim _ B) as T. apply String.eqb_neq in T.
    unfold JS.truthy. now rewrite T.
  - constructor; [now rewrite nth_error_setCell_same | now apply IH].
Qed.

(** X22: in the import path a row without a topic value counts for the
    topic of the nearest row above that has one: when the sub-topics,
    projects and status columns are not the topic column, the roadmap items
    of a sheet are those of the sheet with the topic written out in every
    such row; and in that sheet every row from the first one with a topic
    on has a topic. *)
Theorem import_fill_down (tIdx : nat) (sIdx pIdx stIdx : option nat) (rows : list Row) :
  sIdx <> Some tIdx -> pIdx <> Some tIdx -> stIdx <> Some tIdx ->
  ExcelImport.aggregate tIdx sIdx pIdx stIdx (fillDown tIdx None rows)
  = ExcelImport.aggregate tIdx sIdx pIdx stIdx rows
  /\ (forall row rest, nonBlank (nth_error row tIdx) = true ->
        Forall (fun r => nonBlank (nth_error r tIdx) = true)
               (fillDown tIdx None (row :: rest))).
Proof.
  intros Ns Np Nst. split.
  - unfold ExcelImport.aggregate.
    pose proof (runRows_fillDown tIdx sIdx pIdx stIdx rows Ns Np Nst
                  (ExcelImport.mkLoop [] None) I) as R.
    cbn [ExcelImport.currentTopic] in R. now rewrite R.
  - intros row rest B. cbn [fillDown]. rewrite B.
    constructor; [exact B |]. apply fillDown_topics.
    unfold nonBlank. cbn [JS.truthyO JS.text]. rewrite trim_idem.
    pose proof (nonBlank_trim _ B) as T. apply String.eqb_neq in T.
    unfold JS.truthy. now rewrite T.
Qed.

Lemma import_fill_down_witness :
  ExcelImport.aggregate 0 (Some 1) (Some 2) (Some 3)
    [ ["Hooks"; "useState"; "Counter App"; "In Progress"];
      ["Hooks"; "useEffect"; ""; "Done"] ]
  = ExcelImport.aggregate 0 (Some 1) (Some 2) (Some 3)
      [ ["Hooks"; "useState"; "Counter App"; "In Progress"];
        [""; "useEffect"; ""; "Done"] ].
Proof.
  exact (proj1 (import_fill_down 0 (Some 1) (Some 2) (Some 3)
                  [ ["Hooks"; "useState"; "Counter App"; "In Progress"];
                    [""; "useEffect"; ""; "Done"] ]
                  ltac:(discriminate) ltac:(discriminate) ltac:(discriminate))).
Defined.
(** ** Merging a row into the record of its topic *)

Lemma pushIfAbsent_In (acc : list Entry) (t x : string) :
  In x (map name (pushIfAbsent acc t)) <-> In x (map name acc) \/ t = x.
Proof.
  unfold pushIfAbsent. destruct (someNamed acc t) eqn:E; simpl.
  - split; [auto |]. intros [H | <-]; [exact H |].
    unfold someNamed in E. apply existsb_exists in E.
    destruct E as [e [He Hn]]. apply String.eqb_eq in Hn. subst t.
    now apply in_map.
  - rewrite map_app, in_app_iff. simpl. tauto.
Qed.

Lemma fold_push_In (toks : list string) (acc : list Entry) (x : string) :
  In x (map name (fold_left pushIfAbsent toks acc))
  <-> In x (map name acc) \/ In x toks.
Proof.
  revert acc. induction toks as [| t toks IH]; intros acc; simpl; [tauto |].
  rewrite IH, pushIfAbsent_In. tauto.
Qed.

Lemma fold_push_entries_In (es acc : list Entry) (x : string) :
  In x (map name (fold_left (fun arr e => pushIfAbsent arr (name e)) es acc))
  <-> In x (map name acc) \/ In x (map name es).
Proof.
  revert acc. induction es as [| e es IH]; intros acc; simpl; [tauto |].
  rewrite IH, pushIfAbsent_In. tauto.
Qed.

Lemma get_In_values {V : Type} (m : JSMap.t V) (k : string) (v : V) :
  JSMap.get m k = Some v -> In v (JSMap.values m).
Proof.
  unfold JSMap.values. induction m as [| [k' v'] m IH]; simpl; [discriminate |].
  destruct (k' =? k); [intros E; injection E as <-; now left | auto].
Qed.

(** ** The record of a topic is made of its own rows *)

Section ImportProjection.
Variable tIdx : nat.
Variables sIdx pIdx stIdx : option nat.

Lemma import_rowStep_present (st : ExcelImport.Loop) (row : Row) (e : RoadmapItem) :
  nonBlank (nth_error row tIdx) = true ->
  JSMap.get (ExcelImport.topicMap st) (JS.trim (JS.text (nth_error row tIdx))) = Some e ->
  ExcelImport.rowStep tIdx sIdx pIdx stIdx st row
  = ExcelImport.mkLoop
      (JSMap.set (ExcelImport.topicMap st) (JS.trim (JS.text (nth_error row tIdx)))
                 (ExcelImport.updateTopic sIdx pIdx stIdx row e))
      (Some (JS.trim (JS.text (nth_error row tIdx)))).
Proof.
  intros B G. unfold ExcelImport.rowStep, ExcelImport.enterTopic. rewrite B.
  rewrite get_has, G. cbn [negb ExcelImport.currentTopic ExcelImport.topicMap].
  pose proof (nonBlank_trim _ B) as T. apply String.eqb_neq in T.
  cbn [JS.truthyO JS.text]. unfold JS.truthy. rewrite T. cbn [negb].
  now rewrite G.
Qed.

Lemma import_rowStep_carried (st : ExcelImport.Loop) (row : Row) (k : string)
      (e : RoadmapItem) :
  nonBlank (nth_error row tIdx) = false ->
  ExcelImport.currentTopic st = Some k -> k <> "" ->
  JSMap.get (ExcelImport.topicMap st) k = Some e ->
  ExcelImport.rowStep tIdx sIdx pIdx stIdx st row
  = ExcelImport.mkLoop
      (JSMap.set (ExcelImport.topicMap st) k
                 (ExcelImport.updateTopic sIdx pIdx stIdx row e))
      (Some k).
Proof.
  intros B C N G. unfold ExcelImport.rowStep, ExcelImport.enterTopic. rewrite B, C.
  apply String.eqb_neq in N.
  cbn [JS.truthyO JS.text]. unfold JS.truthy. rewrite N. cbn [negb].
  now rewrite G.
Qed.

Lemma import_rowStep_for (k : string) (st : ExcelImport.Loop) (row : Row) :
  goodCursor st ->
  (ExcelImport.currentTopic (ExcelImport.rowStep tIdx sIdx pIdx stIdx st row),
   JSMap.get (ExcelImport.topicMap (ExcelImport.rowStep tIdx sIdx pIdx stIdx st row)) k)
  = importStepFor tIdx sIdx pIdx stIdx k
      (ExcelImport.currentTopic st, JSMap.get (ExcelImport.topicMap st) k) row.
Proof.
  intros G. unfold importStepFor, cursorAfter. cbn [fst snd].
  destruct (nonBlank (nth_error row tIdx)) eqn:B.
  - set (c := JS.trim (JS.text (nth_error row tIdx))).
    destruct (JSMap.get (ExcelImport.topicMap st) c) as [e |] eqn:Gc.
    + rewrite (import_rowStep_present st row e B Gc). fold c.
      cbn [ExcelImport.currentTopic ExcelImport.topicMap]. rewrite get_set.
      destruct (String.eqb_spec c k) as [<- | NE]; [now rewrite Gc | reflexivity].
    + unfold ExcelImport.rowStep, ExcelImport.enterTopic. rewrite B. fold c.
      rewrite get_has, Gc. cbn [negb ExcelImport.currentTopic ExcelImport.topicMap].
      pose proof (nonBlank_trim _ B) as T. fold c in T. apply String.eqb_neq in T.
      cbn [JS.truthyO JS.text]. unfold JS.truthy. rewrite T. cbn [negb].
      rewrite get_set, String.eqb_refl.
      cbn [ExcelImport.currentTopic ExcelImport.topicMap]. rewrite set_set, get_set.
      destruct (String.eqb_spec c k) as [<- | NE].
      * now rewrite Gc.
      * reflexivity.
  - destruct (ExcelImport.currentTopic st) as [c |] eqn:C.
    + unfold goodCursor in G. rewrite C in G. destruct G as [N [_ H]].
      destruct (has_get _ _ H) as [e Gc].
      rewrite (import_rowStep_carried st row c e B C N Gc).
      cbn [ExcelImport.currentTopic ExcelImport.topicMap]. rewrite get_set.
      destruct (String.eqb_spec c k) as [<- | NE]; [now rewrite Gc | reflexivity].
    + unfold ExcelImport.rowStep, ExcelImport.enterTopic. rewrite B, C.
      cbn [JS.truthyO negb]. now rewrite C.
Qed.

Lemma import_runRows_for (k : string) (rows : list Row) :
  forall st, goodCursor st ->
    (ExcelImport.currentTopic (ExcelImport.runRows tIdx sIdx pIdx stIdx st rows),
     JSMap.get (ExcelImport.topicMap (ExcelImport.runRows tIdx sIdx pIdx stIdx st rows)) k)
    = fold_left (importStepFor tIdx sIdx pIdx stIdx k) rows
                (ExcelImport.currentTopic st, JSMap.get (ExcelImport.topicMap st) k).
Proof.
  unfold ExcelImport.runRows.
  induction rows as [| row rows IH]; intros st G; simpl; [reflexivity |].
  rewrite <- import_rowStep_for by exact G.
  apply IH. now apply rowStep_cursor.
Qed.

Lemma import_aggregate_for (rows : list Row) (it : RoadmapItem) :
  In it (ExcelImport.aggregate tIdx sIdx pIdx stIdx rows)
  <-> importRecordOf tIdx sIdx pIdx stIdx (topic it) rows = Some it.
Proof.
  unfold importRecordOf.
  pose proof (import_runRows_for (topic it) rows (ExcelImport.mkLoop [] None) I) as P.
  cbn [ExcelImport.currentTopic ExcelImport.topicMap JSMap.get] in P.
  rewrite <- P. cbn [snd]. unfold ExcelImport.aggregate. split.
  - apply keyed_lookup.
    + apply import_runRows_keyed. constructor.
    + rewrite import_runRows_keys. apply NoDup_fold_pushKey. constructor.
  - apply get_In_values.
Qed.
End ImportProjection.

Section UploadProjection.
Variable hm : BulkUpload.HeaderMapping.

Lemma upload_rowStep_for (k : string) (m : JSMap.t RoadmapItem) (row : BulkUpload.Obj) :
  JSMap.get (BulkUpload.rowStep hm m row) k = uploadStepFor hm k (JSMap.get m k) row.
Proof.
  unfold BulkUpload.rowStep, uploadStepFor.
  destruct (JS.truthyO (BulkUpload.cell row (BulkUpload.m_topic hm))); [| reflexivity].
  cbn [negb andb].
  set (c := JS.text (BulkUpload.cell row (BulkUpload.m_topic hm))).
  destruct (JSMap.get m c) as [e |] eqn:Gc; rewrite get_set;
    (destruct (String.eqb_spec c k) as [<- | NE]; [now rewrite Gc | reflexivity]).
Qed.

Lemma upload_fold_for (k : string) (data : list BulkUpload.Obj) :
  forall m, JSMap.get (fold_left (BulkUpload.rowStep hm) data m) k
            = fold_left (uploadStepFor hm k) data (JSMap.get m k).
Proof.
  induction data as [| row data IH]; intros m; simpl; [reflexivity |].
  now rewrite IH, upload_rowStep_for.
Qed.

Lemma upload_aggregate_for (data : list BulkUpload.Obj) (it : RoadmapItem) :
  In it (BulkUpload.aggregate hm data) <-> uploadRecordOf hm (topic it) data = Some it.
Proof.
  unfold uploadRecordOf, BulkUpload.aggregate.
  change (@None RoadmapItem) with (JSMap.get (@nil (string * RoadmapItem)) (topic it)).
  rewrite <- (upload_fold_for (topic it) data []). split.
  - apply keyed_lookup.
    + apply upload_fold_keyed. constructor.
    + rewrite upload_fold_keys. apply NoDup_fold_pushKey. constructor.
  - apply get_In_values.
Qed.
End UploadProjection.

(** C3: in both ingestion paths the emitted roadmap items have pairwise
    distinct topics, and these are the aggregation keys of the rows in the
    order of their first appearance: a row that repeats a topic adds no
    item.  This holds for every processed sheet and every processed CSV
    table.  The row is merged into the record of its topic: the record
    keeps its topic, its subtopics and its projects become the union by
    name of those it had and those of the row, and its status is merged
    by priority.  In the import path this is what the loop does with
    every row whose topic is in the map, also one that counts for the
    topic of a row above; and in both paths the emitted record of a topic
    is what its own rows give when they are merged in order, whatever
    rows of other topics lie between them. *)
Theorem emitted_topics_unique :
  (forall tIdx sIdx pIdx stIdx rows,
      let items := ExcelImport.aggregate tIdx sIdx pIdx stIdx rows in
      NoDup (map topic items)
      /\ map topic items = firstOccurrences (flat_map (importKey tIdx) rows))
  /\ (forall hm data,
         let items := BulkUpload.aggregate hm data in
         NoDup (map topic items)
         /\ map topic items = firstOccurrences (flat_map (csvKey hm) data))
  /\ (forall fileBase s d,
         ExcelImport.processSheet fileBase s = ExcelImport.Imported d ->
         NoDup (map topic (d_roadmapItems d)))
  /\ (forall csv techStackName description d,
         BulkUpload.buildTechStackData (BulkUpload.parse csv) techStackName description
         = inr d ->
         NoDup (map topic (d_roadmapItems d)))
  /\ (forall sIdx pIdx stIdx row e,
         let e' := ExcelImport.updateTopic sIdx pIdx stIdx row e in
         topic e' = topic e
         /\ (forall x, In x (map name (subTopics e')) <->
                       In x (map name (subTopics e))
                       \/ In x (splitTokens (JS.text (JS.at_ row sIdx))))
         /\ (forall x, In x (map name (projects e')) <->
                       In x (map name (projects e))
                       \/ (nonBlank (JS.at_ row pIdx) = true
                           /\ JS.trim (JS.text (JS.at_ row pIdx)) = x))
         /\ completionStatus e'
            = if nonBlank (JS.at_ row stIdx)
              then mergeStatus (completionStatus e) (normalizeStatus (JS.at_ row stIdx))
              else completionStatus e)
  /\ (forall hm m row e,
         JS.truthyO (BulkUpload.cell row (BulkUpload.m_topic hm)) = true ->
         JSMap.get m (JS.text (BulkUpload.cell row (BulkUpload.m_topic hm))) = Some e ->
         let e' := BulkUpload.mergeInto hm e row in
         BulkUpload.rowStep hm m row
         = JSMap.set m (JS.text (BulkUpload.cell row (BulkUpload.m_topic hm))) e'
         /\ topic e' = topic e
         /\ (forall x, In x (map name (subTopics e')) <->
                       In x (map name (subTopics e))
                       \/ In x (map name (BulkUpload.subTopicsOf hm row)))
         /\ (forall x, In x (map name (projects e')) <->
                       In x (map name (projects e))
                       \/ In x (map name (BulkUpload.projectsOf hm row)))
         /\ completionStatus e'
            = mergeStatus (completionStatus e) (BulkUpload.statusOf hm row))
  /\ (forall tIdx sIdx pIdx stIdx st row e,
         nonBlank (nth_error row tIdx) = true ->
         JSMap.get (ExcelImport.topicMap st) (JS.trim (JS.text (nth_error row tIdx)))
         = Some e ->
         ExcelImport.rowStep tIdx sIdx pIdx stIdx st row
         = ExcelImport.mkLoop
             (JSMap.set (ExcelImport.topicMap st)
                        (JS.trim (JS.text (nth_error row tIdx)))
                        (ExcelImport.updateTopic sIdx pIdx stIdx row e))
             (Some (JS.trim (JS.text (nth_error row tIdx)))))
  /\ (forall tIdx sIdx pIdx stIdx st row k e,
         nonBlank (nth_error row tIdx) = false ->
         ExcelImport.currentTopic st = Some k -> k <> "" ->
         JSMap.get (ExcelImport.topicMap st) k = Some e ->
         ExcelImport.rowStep tIdx sIdx pIdx stIdx st row
         = ExcelImport.mkLoop
             (JSMap.set (ExcelImport.topicMap st) k
                        (ExcelImport.updateTopic sIdx pIdx stIdx row e))
             (Some k))
  /\ (forall tIdx sIdx pIdx stIdx rows it,
         In it (ExcelImport.aggregate tIdx sIdx pIdx stIdx rows)
         <-> importRecordOf tIdx sIdx pIdx stIdx (topic it) rows = Some it)
  /\ (forall hm data it,
         In it (BulkUpload.aggregate hm data)
         <-> uploadRecordOf hm (topic it) data = Some it).
Proof.
  split; [| split; [| split; [| split; [| split; [| split; [| split; [| split;
    [| split]]]]]]]].
  7: exact import_rowStep_present.
  7: exact import_rowStep_carried.
  7: exact import_aggregate_for.
  7: exact upload_aggregate_for.
  - intros. subst items. rewrite import_aggregate_topics.
    split; [apply NoDup_firstOccurrences | reflexivity].
  - intros. subst items. rewrite upload_aggregate_topics.
    split; [apply NoDup_firstOccurrences | reflexivity].
  - intros fileBase s d. unfold ExcelImport.processSheet.
    destruct (skippedByName _); [discriminate |].
    destruct (length (jsonData s) <=? 1)%nat; [discriminate |].
    destruct (ExcelImport.topicIndex _) as [t |]; [| discriminate].
    destruct (length _ =? 0)%nat; [discriminate |].
    intros E; injection E as <-. simpl.
    rewrite import_aggregate_topics. apply NoDup_firstOccurrences.
  - intros csv n desc d. unfold BulkUpload.buildTechStackData.
    destruct (negb _); [discriminate |].
    intros E; injection E as <-. simpl.
    rewrite upload_aggregate_topics. apply NoDup_firstOccurrences.
  - intros sIdx pIdx stIdx row e e'. subst e'.
    split; [apply import_update_topic |].
    split; [| split].
    + intros x. rewrite import_update_subTopics. apply fold_push_In.
    + intros x. rewrite import_update_projects.
      destruct (nonBlank (JS.at_ row pIdx)).
      * rewrite pushIfAbsent_In. tauto.
      * split; [auto | intros [H | [H _]]; [exact H | discriminate H]].
    + apply import_update_status.
  - intros hm m row e T G e'. subst e'.
    split; [| split; [reflexivity | split; [| split; [| reflexivity]]]].
    + unfold BulkUpload.rowStep. now rewrite T, G.
    + intros x. unfold BulkUpload.mergeInto. simpl. apply fold_push_entries_In.
    + intros x. unfold BulkUpload.mergeInto. simpl. apply fold_push_entries_In.
Qed.

(** A sheet and a CSV table in which the topic "Hooks" comes back after
    "Router": one record for it, with what both of its rows hold. *)
Lemma emitted_topics_unique_witness :
  ExcelImport.aggregate 0 (Some 1) (Some 2) (Some 3) (tl (jsonData flatSheetExample))
  = [mkItem "Hooks" [mkEntry "useState"; mkEntry "useEffect"; mkEntry "useMemo"]
            [mkEntry "Counter App"; mkEntry "Todo App"] Completed;
     mkItem "Router" [mkEntry "Routes"] [] YetToStart]
  /\ importRecordOf 0 (Some 1) (Some 2) (Some 3) "Hooks" (tl (jsonData flatSheetExample))
     = Some (mkItem "Hooks" [mkEntry "useState"; mkEntry "useEffect"; mkEntry "useMemo"]
                    [mkEntry "Counter App"; mkEntry "Todo App"] Completed)
  /\ (exists d, BulkUpload.buildTechStackData (BulkUpload.parse repeatedTopicCsv) "React" ""
                = inr d
                /\ NoDup (map topic (d_roadmapItems d))
                /\ d_roadmapItems d
                   = [mkItem "Hooks" [mkEntry "useState"; mkEntry "useMemo"]
                             [mkEntry "Counter App"; mkEntry "Todo App"] Completed;
                      mkItem "Router" [mkEntry "Routes"] [] YetToStart]).
Proof.
  split; [reflexivity |]. split.
  - apply (proj1 (proj1 (proj2 (proj2 (proj2 (proj2 (proj2 (proj2 (proj2 (proj2
             emitted_topics_unique))))))))
             0 (Some 1) (Some 2) (Some 3) (tl (jsonData flatSheetExample))
             (mkItem "Hooks" [mkEntry "useState"; mkEntry "useEffect"; mkEntry "useMemo"]
                     [mkEntry "Counter App"; mkEntry "Todo App"] Completed))).
    simpl. auto.
  - eexists. split; [reflexivity |]. split; [| reflexivity].
    apply (proj1 (proj2 (proj2 (proj2 emitted_topics_unique))) repeatedTopicCsv "React" "").
    reflexivity.
Defined.

(** ** The round trip: import against convert-then-upload *)

(** *** The files *)

Lemma convertSheet_fileName (s : Sheet) (f : string) (g : list Row) :
  Converter.convertSheet s = Converter.Converted f g ->
  f = (Converter.sanitize (sheetName s) ++ ".csv")%string.
Proof.
  unfold Converter.convertSheet. cbv zeta.
  repeat match goal with
         | |- context [if ?x then _ else _] => destruct x
         | |- context [match ?x with Some _ => _ | None => _ end] => destruct x
         end;
    intros H; try discriminate H; now injection H.
Qed.

Lemma writeFiles_kept (f text : string) (wb : Workbook) (dir : JSMap.t string) :
  (forall s' text', In s' wb -> writtenFile s' = Some (f, text') -> text' = text) ->
  JSMap.get dir f = Some text \/ (exists s', In s' wb /\ writtenFile s' = Some (f, text)) ->
  JSMap.get
    (fold_left (fun dir s => match writtenFile s with
                             | Some (f, text) => JSMap.set dir f text
                             | None => dir
                             end) wb dir) f
  = Some text.
Proof.
  revert dir. induction wb as [| s0 wb IH]; intros dir Same Has; simpl.
  - destruct Has as [G | [s' [[] _]]]. exact G.
  - apply IH; [intros s' t' Hin; apply Same; now right |].
    destruct (writtenFile s0) as [[f0 t0] |] eqn:W.
    + rewrite get_set. destruct (String.eqb_spec f0 f) as [-> | NE].
      * left. f_equal. apply (Same s0); [now left | exact W].
      * destruct Has as [G | [s' [[<- | Hin] Ws]]]; [now left | | right; now exists s'].
        rewrite W in Ws. injection Ws as E _. now elim NE.
    + destruct Has as [G | [s' [[<- | Hin] Ws]]]; [now left | | right; now exists s'].
      rewrite W in Ws. discriminate Ws.
Qed.

Lemma writeFiles_absent (f : string) (wb : Workbook) (dir : JSMap.t string) :
  (forall s' text', In s' wb -> writtenFile s' <> Some (f, text')) ->
  JSMap.get
    (fold_left (fun dir s => match writtenFile s with
                             | Some (f, text) => JSMap.set dir f text
                             | None => dir
                             end) wb dir) f
  = JSMap.get dir f.
Proof.
  revert dir. induction wb as [| s0 wb IH]; intros dir No; simpl; [reflexivity |].
  rewrite IH by (intros s' t' Hin; apply No; now right).
  destruct (writtenFile s0) as [[f0 t0] |] eqn:W; [| reflexivity].
  rewrite get_set. destruct (String.eqb_spec f0 f) as [-> | NE]; [| reflexivity].
  elim (No s0 t0); [now left | exact W].
Qed.

(** Under the two assumptions on the files, the upload reads the table
    that the converter wrote for the sheet. *)
Lemma convertThenUpload_table (tokenise : string -> list Row) (wb : Workbook) (s : Sheet) :
  In s wb -> keepsFile wb s -> readsBack tokenise s ->
  convertThenUpload tokenise wb s = convertedThenUploadedItems s.
Proof.
  intros Hin Keep Back. unfold convertThenUpload, convertedThenUploadedItems, writeFiles.
  destruct (Converter.convertSheet s) as [| | | | | f g] eqn:C.
  6: { pose proof (convertSheet_fileName s f g C) as ->.
       assert (W : writtenFile s
                   = Some ((Converter.sanitize (sheetName s) ++ ".csv")%string,
                           CsvText.csvContent g))
         by (unfold writtenFile; now rewrite C).
       rewrite (writeFiles_kept _ (CsvText.csvContent g)).
       - unfold uploadedItems. now rewrite (Back _ _ C).
       - intros s' t' Hs' Ws'. pose proof (Keep s' t' Hs' Ws') as K.
         rewrite W in K. now injection K.
       - right. now exists s. }
  all: rewrite writeFiles_absent; [reflexivity |];
    intros s' t' Hs' Ws'; pose proof (Keep s' t' Hs' Ws') as K;
    unfold writtenFile in K; rewrite C in K; discriminate K.
Qed.

(** *** Records that hold the same *)

Lemma sameSet_In (x y : list string) :
  (forall n, In n x <-> In n y) -> sameSet x y = true.
Proof.
  intros H. unfold sameSet. apply andb_true_iff.
  split; apply forallb_forall; intros n Hn; apply memb_In; now apply H.
Qed.

Lemma find_keyed (m : JSMap.t RoadmapItem) (k : string) :
  keyed m -> find (fun y => topic y =? k) (JSMap.values m) = JSMap.get m k.
Proof.
  unfold keyed. intros K. induction K as [| [k' v] m Hk Km IH]; simpl; [reflexivity |].
  simpl in Hk. rewrite Hk. destruct (k' =? k); [reflexivity | exact IH].
Qed.

Lemma alikeMaps_equivalent (m1 m2 : JSMap.t RoadmapItem) :
  keyed m1 -> keyed m2 -> NoDup (JSMap.keys m1) -> alikeMaps m1 m2 ->
  equivalentItems (JSMap.values m1) (JSMap.values m2) = true.
Proof.
  intros K1 K2 ND [Ek A]. unfold equivalentItems. apply andb_true_iff. split.
  - rewrite (keyed_topics m1 K1), (keyed_topics m2 K2), Ek. apply sameSet_refl.
  - apply forallb_forall. intros x Hx. rewrite (find_keyed m2 _ K2).
    pose proof (keyed_lookup m1 x K1 ND Hx) as G.
    specialize (A (topic x)). rewrite G in A.
    destruct (JSMap.get m2 (topic x)) as [y |]; [| contradiction].
    destruct A as (_ & S & P & C).
    now rewrite (sameSet_In _ _ S), (sameSet_In _ _ P), C, Status_eqb_refl.
Qed.

Lemma alikeMaps_set (m1 m2 : JSMap.t RoadmapItem) (k : string) (x y : RoadmapItem) :
  alikeMaps m1 m2 -> alike x y -> alikeMaps (JSMap.set m1 k x) (JSMap.set m2 k y).
Proof.
  intros [E A] H. split.
  - now rewrite !keys_set, E.
  - intros q. rewrite !get_set. destruct (k =? q); [exact H | apply A].
Qed.

Lemma alikeMaps_same (m1 m2 : JSMap.t RoadmapItem) (k : string) (e : RoadmapItem) :
  alikeMaps m1 m2 -> JSMap.get m1 k = Some e -> alikeMaps (JSMap.set m1 k e) m2.
Proof.
  intros [E A] G. split.
  - rewrite <- E. now apply keys_set_present with (v := e).
  - intros q. rewrite get_set. destruct (String.eqb_spec k q) as [<- | NE]; [| apply A].
    specialize (A k). now rewrite G in A.
Qed.

Lemma mergeStatus_from_start (x : Status) : mergeStatus YetToStart x = x.
Proof.
  now destruct x.
Qed.

Lemma mergeStatus_same (x : Status) : mergeStatus x x = x.
Proof.
  now destruct x.
Qed.

(** *** One row of the import loop *)

Lemma import_rowStep_absent (tIdx : nat) (sIdx pIdx stIdx : option nat)
      (st : ExcelImport.Loop) (row : Row) :
  nonBlank (nth_error row tIdx) = true ->
  JSMap.get (ExcelImport.topicMap st) (JS.trim (JS.text (nth_error row tIdx))) = None ->
  ExcelImport.rowStep tIdx sIdx pIdx stIdx st row
  = ExcelImport.mkLoop
      (JSMap.set (ExcelImport.topicMap st) (JS.trim (JS.text (nth_error row tIdx)))
         (ExcelImport.updateTopic sIdx pIdx stIdx row
            (openedBy stIdx (JS.trim (JS.text (nth_error row tIdx))) row)))
      (Some (JS.trim (JS.text (nth_error row tIdx)))).
Proof.
  intros B G. set (k := JS.trim (JS.text (nth_error row tIdx))) in *.
  unfold ExcelImport.rowStep, ExcelImport.enterTopic. rewrite B. fold k.
  rewrite get_has, G. cbn [negb ExcelImport.currentTopic ExcelImport.topicMap].
  pose proof (nonBlank_trim _ B) as T. fold k in T. apply String.eqb_neq in T.
  cbn [JS.truthyO JS.text]. unfold JS.truthy. rewrite T. cbn [negb].
  rewrite get_set, String.eqb_refl.
  cbn [ExcelImport.currentTopic ExcelImport.topicMap]. now rewrite set_set.
Qed.

Lemma import_rowStep_idle (tIdx : nat) (sIdx pIdx stIdx : option nat)
      (st : ExcelImport.Loop) (row : Row) :
  nonBlank (nth_error row tIdx) = false ->
  ExcelImport.currentTopic st = None ->
  ExcelImport.rowStep tIdx sIdx pIdx stIdx st row = st.
Proof.
  intros B C. unfold ExcelImport.rowStep, ExcelImport.enterTopic. rewrite B, C.
  reflexivity.
Qed.

Lemma updateTopic_blank (sIdx pIdx stIdx : option nat) (row : Row) (e : RoadmapItem) :
  nonBlank (JS.at_ row sIdx) = false ->
  nonBlank (JS.at_ row pIdx) = false ->
  nonBlank (JS.at_ row stIdx) = false ->
  ExcelImport.updateTopic sIdx pIdx stIdx row e = e.
Proof.
  intros Bs Bp Bst.
  unfold ExcelImport.updateTopic, ExcelImport.updateStatus, ExcelImport.addProject,
    ExcelImport.addSubTopics.
  now rewrite Bs, Bp, Bst.
Qed.

Lemma convertRow_without_topic (tIdx : nat) (sIdx pIdx stIdx : option nat) (row : Row) :
  JS.text (nth_error row tIdx) = "" ->
  Converter.convertRow tIdx sIdx pIdx stIdx row = None.
Proof.
  intros E. unfold Converter.convertRow. now rewrite truthyO_text, E.
Qed.

(** *** The two loops, row by row *)

Section Simulation.
Variable tIdx : nat.
Variables sIdx pIdx stIdx : option nat.
Variables a b c d : string.
Hypothesis distinct : nodupb [a; b; c; d] = true.

Local Abbreviation hm := (BulkUpload.mkMapping (Some a) (Some b) (Some c) (Some d)).
Local Abbreviation converted := (convertedRow tIdx sIdx pIdx stIdx).
Local Abbreviation obj := (readBack a b c d tIdx sIdx pIdx stIdx).

Lemma merge_alike (e1 e2 : RoadmapItem) (o : BulkUpload.Obj) :
  alike e1 e2 -> alike (BulkUpload.mergeInto hm e1 o) (BulkUpload.mergeInto hm e2 o).
Proof.
  intros (T & S & P & C). unfold alike, BulkUpload.mergeInto.
  cbn [topic subTopics projects completionStatus].
  split; [exact T |]. split; [| split].
  - intros n. rewrite !fold_push_entries_In. specialize (S n). tauto.
  - intros n. rewrite !fold_push_entries_In. specialize (P n). tauto.
  - now rewrite C.
Qed.

Lemma opened_alike (row : Row) (t : string) :
  plainProject pIdx row ->
  alike (ExcelImport.updateTopic sIdx pIdx stIdx row (openedBy stIdx t row))
        (mkItem t (BulkUpload.subTopicsOf hm (obj row)) (BulkUpload.projectsOf hm (obj row))
                (BulkUpload.statusOf hm (obj row))).
Proof.
  intros P. rewrite (update_is_merge tIdx sIdx pIdx stIdx a b c d distinct row _ P).
  unfold alike, BulkUpload.mergeInto, openedBy.
  cbn [topic subTopics projects completionStatus].
  split; [reflexivity |]. split; [| split].
  - intros n. rewrite fold_push_entries_In. simpl. tauto.
  - intros n. rewrite fold_push_entries_In. simpl. tauto.
  - rewrite (upload_statusOf tIdx sIdx pIdx stIdx a b c d distinct).
    rewrite <- normalizeStatus_text.
    destruct (JS.truthyO (JS.at_ row stIdx)) eqn:T.
    + apply mergeStatus_same.
    + apply mergeStatus_from_start.
Qed.

Lemma step_with_topic (seen : bool) (st : ExcelImport.Loop) (m2 : JSMap.t RoadmapItem)
      (row : Row) :
  inStep seen st m2 ->
  JS.text (nth_error row tIdx) <> "" ->
  JS.trim (JS.text (nth_error row tIdx)) = JS.text (nth_error row tIdx) ->
  plainProject pIdx row ->
  inStep true (ExcelImport.rowStep tIdx sIdx pIdx stIdx st row)
         (BulkUpload.rowStep hm m2 (obj row)).
Proof.
  intros (A & G & _) NE Tr P.
  assert (T : JS.truthy (JS.text (nth_error row tIdx)) = true).
  { unfold JS.truthy. apply negb_true_iff. now apply String.eqb_neq. }
  assert (NB : nonBlank (nth_error row tIdx) = true).
  { rewrite nonBlank_text, T, Tr. unfold JS.truthy in T. now rewrite T. }
  split; [| split; [now apply rowStep_cursor | discriminate]].
  unfold BulkUpload.rowStep.
  rewrite (obj_topic tIdx sIdx pIdx stIdx a b c d distinct).
  cbn [JS.truthyO JS.text]. rewrite T. cbn [negb].
  pose proof (proj2 A (JS.text (nth_error row tIdx))) as At.
  destruct (JSMap.get (ExcelImport.topicMap st) (JS.text (nth_error row tIdx)))
    as [e1 |] eqn:G1.
  - rewrite (import_rowStep_present tIdx sIdx pIdx stIdx st row e1 NB)
      by (now rewrite Tr).
    cbn [ExcelImport.topicMap]. rewrite Tr.
    destruct (JSMap.get m2 (JS.text (nth_error row tIdx))) as [e2 |]; [| contradiction].
    apply alikeMaps_set; [exact A |].
    rewrite (update_is_merge tIdx sIdx pIdx stIdx a b c d distinct row _ P).
    now apply merge_alike.
  - rewrite (import_rowStep_absent tIdx sIdx pIdx stIdx st row NB)
      by (now rewrite Tr).
    cbn [ExcelImport.topicMap]. rewrite Tr.
    destruct (JSMap.get m2 (JS.text (nth_error row tIdx))) as [e2 |]; [contradiction |].
    apply alikeMaps_set; [exact A |]. now apply opened_alike.
Qed.

Lemma step_without_topic (seen : bool) (st : ExcelImport.Loop) (m2 : JSMap.t RoadmapItem)
      (row : Row) :
  inStep seen st m2 ->
  JS.text (nth_error row tIdx) = "" ->
  (seen = true ->
   nonBlank (JS.at_ row sIdx) = false
   /\ nonBlank (JS.at_ row pIdx) = false
   /\ nonBlank (JS.at_ row stIdx) = false) ->
  inStep seen (ExcelImport.rowStep tIdx sIdx pIdx stIdx st row) m2.
Proof.
  intros (A & G & C) E B.
  assert (NB : nonBlank (nth_error row tIdx) = false)
    by (rewrite nonBlank_text, E; reflexivity).
  destruct (ExcelImport.currentTopic st) as [k |] eqn:Ck.
  - destruct seen; [| specialize (C eq_refl); discriminate C].
    destruct (B eq_refl) as (Bs & Bp & Bst).
    pose proof G as G'. unfold goodCursor in G'. rewrite Ck in G'.
    destruct G' as (N & _ & H). destruct (has_get _ _ H) as [e Ge].
    pose proof (rowStep_cursor tIdx sIdx pIdx stIdx st row G) as G2.
    rewrite (import_rowStep_carried tIdx sIdx pIdx stIdx st row k e NB Ck N Ge) in *.
    rewrite (updateTopic_blank sIdx pIdx stIdx row e Bs Bp Bst) in *.
    split; [| split; [exact G2 | discriminate]].
    cbn [ExcelImport.topicMap]. now apply alikeMaps_same.
  - rewrite (import_rowStep_idle tIdx sIdx pIdx stIdx st row NB Ck).
    split; [exact A | split; [exact G | intros _; exact Ck]].
Qed.

Lemma rows_in_step (rows : list Row) :
  forall seen st m2,
    regularRows tIdx sIdx pIdx stIdx seen rows = true ->
    inStep seen st m2 ->
    alikeMaps
      (ExcelImport.topicMap (ExcelImport.runRows tIdx sIdx pIdx stIdx st rows))
      (fold_left (BulkUpload.rowStep hm)
         (map (BulkUpload.buildObj [a; b; c; d])
              (filter (fun l => negb (BulkUpload.emptyLine l))
                      (Converter.convertRows tIdx sIdx pIdx stIdx rows)))
         m2).
Proof.
  unfold ExcelImport.runRows.
  induction rows as [| row rows IH]; intros seen st m2 R I; [exact (proj1 I) |].
  cbn [regularRows] in R. cbv zeta in R.
  apply andb_true_iff in R. destruct R as [Tr R]. apply String.eqb_eq in Tr.
  cbn [fold_left Converter.convertRows].
  destruct (String.eqb_spec (JS.text (nth_error row tIdx)) "") as [E | NE].
  - apply andb_true_iff in R. destruct R as [B R].
    rewrite (convertRow_without_topic tIdx sIdx pIdx stIdx row E).
    apply (IH seen); [exact R |]. apply step_without_topic; [exact I | exact E |].
    intros ->. cbn [negb orb] in B.
    apply andb_true_iff in B. destruct B as [B Bst].
    apply andb_true_iff in B. destruct B as [Bs Bp].
    now rewrite negb_true_iff in Bs, Bp, Bst.
  - apply andb_true_iff in R. destruct R as [Pp R].
    assert (T : JS.truthy (JS.text (nth_error row tIdx)) = true).
    { unfold JS.truthy. apply negb_true_iff. now apply String.eqb_neq. }
    rewrite (convertRow_with_topic tIdx sIdx pIdx stIdx row T).
    change (filter (fun l => negb (BulkUpload.emptyLine l))
                   (converted row :: Converter.convertRows tIdx sIdx pIdx stIdx rows))
      with (converted row
            :: filter (fun l => negb (BulkUpload.emptyLine l))
                      (Converter.convertRows tIdx sIdx pIdx stIdx rows)).
    cbn [map fold_left].
    change (BulkUpload.buildObj [a; b; c; d] (converted row)) with (obj row).
    apply (IH true); [exact R |]. apply (step_with_topic seen); auto.
    apply andb_true_iff in Pp. destruct Pp as [P1 P2].
    apply negb_true_iff in P1. apply orb_true_iff in P2.
    split; [exact P1 |].
    destruct P2 as [P2 | P2]; [left; now apply String.eqb_eq |].
    right. apply negb_true_iff in P2. now apply String.eqb_neq.
Qed.

End Simulation.

(** *** The sheet *)

Lemma keys_nil {V : Type} (m : JSMap.t V) : JSMap.keys m = [] -> m = [].
Proof.
  now destruct m.
Qed.

(** The round trip at the level of the table that the converter
    writes. *)
Lemma roundTrip_table (fileBase : string) (s : Sheet) :
  length (jsonData s) <> 2 ->
  headersAgree (cleanHeaders (hd [] (jsonData s))) = true ->
  regularSheet s = true ->
  equivalentRecords (importedItems fileBase s) (convertedThenUploadedItems s) = true.
Proof.
  intros Hlen Hagree Hreg.
  unfold importedItems, convertedThenUploadedItems, ExcelImport.processSheet,
    Converter.convertSheet, range_e_r, regularSheet in *.
  destruct (skippedByName (sheetName s)); [reflexivity |].
  unfold jsonData in *.
  destruct (grid s) as [| h0 [| r1 [| r2 rest]]]; simpl in Hlen;
    [reflexivity | reflexivity | now elim Hlen |].
  cbn [hd tl length pred Nat.leb Nat.ltb] in *.
  set (headers := cleanHeaders h0) in *.
  set (rows := r1 :: r2 :: rest) in *.
  unfold headersAgree in Hagree.
  repeat (apply andb_true_iff in Hagree; destruct Hagree as [Hagree ?]).
  repeat match goal with
         | X : optNat_eqb _ _ = true |- _ => apply optNat_eqb_eq in X
         | X : optString_eqb _ _ = true |- _ => apply optString_eqb_eq in X
         end.
  match goal with X : _ = Converter.topicsColIdx _ |- _ => rename X into Et end.
  match goal with X : _ = Converter.subTopicsColIdx _ |- _ => rename X into Es end.
  match goal with X : _ = Converter.projectsColIdx _ |- _ => rename X into Ep end.
  match goal with X : _ = Converter.statusColIdx _ |- _ => rename X into Est end.
  rewrite <- Et, <- Es, <- Ep, <- Est.
  destruct (ExcelImport.topicIndex headers) as [t |]; [| reflexivity].
  set (si := ExcelImport.subTopicsIndex headers) in *.
  set (pi := ExcelImport.projectIndex headers) in *.
  set (sti := ExcelImport.statusIndex headers) in *.
  set (hrow := Converter.headerRow (Converter.customHeaders headers)) in *.
  assert (Hh : exists a b c d, map JS.trim hrow = [a; b; c; d])
    by (repeat eexists; reflexivity).
  destruct Hh as [a [b [c [d Hh]]]].
  rewrite Hh in *.
  repeat match goal with
         | X : _ && _ = true |- _ => apply andb_true_iff in X; destruct X
         end.
  match goal with X : nodupb [a; b; c; d] = true |- _ => rename X into ND end.
  assert (I0 : inStep false (ExcelImport.mkLoop [] None) []).
  { split; [split; [reflexivity | intros k; exact I] |]. split; [exact I | reflexivity]. }
  pose proof (rows_in_step t si pi sti a b c d ND rows false _ _ Hreg I0) as A.
  set (m1 := ExcelImport.topicMap
               (ExcelImport.runRows t si pi sti (ExcelImport.mkLoop [] None) rows)) in *.
  change (ExcelImport.aggregate t si pi sti rows) with (JSMap.values m1).
  assert (K1 : keyed m1) by (apply import_runRows_keyed; constructor).
  assert (N1 : NoDup (JSMap.keys m1)).
  { unfold m1. rewrite import_runRows_keys. apply NoDup_firstOccurrences. }
  destruct (Converter.convertRows t si pi sti rows) as [| r rs] eqn:C.
  - cbn [filter map fold_left] in A. destruct A as [Ek _].
    apply keys_nil in Ek. rewrite Ek. reflexivity.
  - pose proof (proj1 (convertRows_shape t si pi sti rows)) as Sh. rewrite C in Sh.
    inversion Sh as [| ? ? (t0 & s0 & p0 & x0 & -> & Nt) _]; subst.
    change (filter (fun l => negb (BulkUpload.emptyLine l))
                   ([t0; s0; p0; statusText x0] :: rs))
      with ([t0; s0; p0; statusText x0]
            :: filter (fun l => negb (BulkUpload.emptyLine l)) rs) in A.
    cbn [map] in A.
    rewrite (buildObj_four a b c d ND) in A.
    set (o := [(a, t0); (b, s0); (c, p0); (d, statusText x0)]) in *.
    set (objs := map (BulkUpload.buildObj [a; b; c; d])
                     (filter (fun l => negb (BulkUpload.emptyLine l)) rs)) in *.
    assert (HM : BulkUpload.headerMapping [a; b; c; d]
                 = BulkUpload.mkMapping (Some a) (Some b) (Some c) (Some d)).
    { repeat match goal with
             | X : optString_eqb _ _ = true |- _ => apply optString_eqb_eq in X
             end.
      destruct (BulkUpload.headerMapping [a; b; c; d]); simpl in *; congruence. }
    assert (Ta : JS.truthy a = true).
    { apply (matchedHeader_truthy [a; b; c; d] ["topics"; "topic"; "technology"]).
      unfold BulkUpload.headerMapping in HM. now injection HM. }
    assert (Pa : BulkUpload.parse (hrow :: [t0; s0; p0; statusText x0] :: rs)
                 = o :: objs).
    { unfold BulkUpload.parse. rewrite Hh.
      change (filter (fun l => negb (BulkUpload.emptyLine l))
                     ([t0; s0; p0; statusText x0] :: rs))
        with ([t0; s0; p0; statusText x0]
              :: filter (fun l => negb (BulkUpload.emptyLine l)) rs).
      cbn [map]. now rewrite (buildObj_four a b c d ND). }
    cbn [length Nat.leb].
    match goal with
    | |- context [BulkUpload.parse ?x] =>
        replace (BulkUpload.parse x) with (o :: objs) by (symmetry; exact Pa)
    end.
    unfold BulkUpload.buildTechStackData.
    change (BulkUpload.headersOf (o :: objs)) with [a; b; c; d].
    rewrite HM. cbn [BulkUpload.m_topic JS.truthyO]. rewrite Ta.
    cbn [negb d_roadmapItems]. unfold BulkUpload.aggregate.
    set (m2 := fold_left
                 (BulkUpload.rowStep
                    (BulkUpload.mkMapping (Some a) (Some b) (Some c) (Some d)))
                 (o :: objs) []) in *.
    assert (K2 : keyed m2) by (apply upload_fold_keyed; constructor).
    assert (L2 : 1 <= length (JSMap.keys m2)).
    { unfold m2. rewrite upload_fold_keys. cbn [flat_map].
      assert (Ko : csvKey (BulkUpload.mkMapping (Some a) (Some b) (Some c) (Some d)) o
                   = [t0]).
      { unfold csvKey, o. cbn [BulkUpload.m_topic BulkUpload.cell JSMap.get].
        rewrite String.eqb_refl. cbn [JS.truthyO JS.text]. unfold JS.truthy.
        apply String.eqb_neq in Nt. now rewrite Nt. }
      rewrite Ko, fold_left_app.
      etransitivity; [| apply fold_pushKey_length]. simpl. lia. }
    assert (L1 : (length (JSMap.values m1) =? 0)%nat = false).
    { apply Nat.eqb_neq. unfold JSMap.values. rewrite length_map.
      assert (E : length m1 = length m2).
      { rewrite <- (length_map fst m1), <- (length_map fst m2).
        f_equal. exact (proj1 A). }
      unfold JSMap.keys in L2. rewrite length_map in L2. lia. }
    rewrite L1. cbn [equivalentRecords d_roadmapItems].
    now apply alikeMaps_equivalent.
Qed.



(** On the sheet whose second data row continues the topic of the first,
    every reader that returns the rows that the converter wrote gives a
    record without the subtopic of the second row, which the import
    keeps. *)
Lemma carry_forward_differs (tokenise : string -> list Row) (fileBase : string) :
  readsBack tokenise (present carryRaw) ->
  equivalentRecords (importedItems fileBase (present carryRaw))
                    (convertThenUpload tokenise [present carryRaw] (present carryRaw))
  = false.
Proof.
  intros Back.
  rewrite (convertThenUpload_table tokenise [present carryRaw] (present carryRaw));
    [| now left | | exact Back].
  - vm_compute. reflexivity.
  - intros s' text [<- | []] H. exact H.
Qed.

